(** * Admin user-analytics router (server/routes/user-analytics.js)

    The router has six GET handlers.  Each one reads its parameters from
    the request, assembles the text of one or more SQL statements by
    string concatenation, hands the text and a [replacements] object to
    [sequelize.query], and shapes the rows into a JSON response; any
    exception is caught and answered with status 500.

    The handlers are embedded as functions in a state-and-exception monad
    over the database and the list of statements issued so far.  The SQL
    text is kept as the string the handler builds; the database client is
    modelled by a tokenizer, a parser and an evaluator for the SQL
    fragment the router uses, so that what a statement does (or that it
    is rejected) follows from its text. *)

From Stdlib Require Import String Ascii List ZArith Lia Bool Arith.
From Stdlib Require Import Permutation Sorted.
Import ListNotations.
Open Scope string_scope.
Open Scope list_scope.

(** ** SQL values and the four tables *)

(** A value stored in a column or produced by an expression.  Keys are
    the values of the id columns; timestamps are seconds, dates are days;
    [VBig] is the bigint that COUNT and SUM produce.  [VOpaque] stands for
    the columns the router only passes through (balance, status, ip
    address, ...). *)
Inductive sqlval : Type :=
| VNull
| VKey (k : Z)
| VInt (n : Z)
| VBig (n : Z)
| VText (s : string)
| VBool (b : bool)
| VTime (t : Z)
| VDate (d : Z)
| VOpaque (s : string).

Inductive sqltype : Type :=
| TKey | TInt | TText | TBool | TTime | TDate | TOpaque.

Record user : Type := {
  u_id : Z;
  u_username : string;
  u_email : string;
  u_created_at : Z;
  u_last_login_at : sqlval;
  u_is_active : sqlval;
  u_is_admin : sqlval;
  u_is_vip : sqlval;
  u_vip_expiry : sqlval;
  u_free_previews : sqlval;
  u_balance : sqlval;
  u_subscription_type : sqlval
}.

Record generation : Type := {
  g_id : Z;
  g_user_id : Z;
  g_template_id : option Z;
  g_generation_type : string;
  g_is_paid : bool;
  g_created_at : Z;
  g_status : sqlval;
  g_processing_time : sqlval;
  g_payment_amount : sqlval
}.

Record login_log : Type := {
  l_id : Z;
  l_user_id : option Z;
  l_username : string;
  l_login_success : bool;
  l_login_time : Z;
  l_logout_time : sqlval;
  l_session_duration : option Z;
  l_ip_address : sqlval;
  l_user_agent : sqlval
}.

Record template : Type := {
  t_id : Z;
  t_name : sqlval
}.

Record DB : Type := {
  users : list user;
  generations : list generation;
  login_logs : list login_log;
  templates : list template
}.

(** A row of any of the four tables, as the evaluator sees it. *)
Inductive trow : Type :=
| RUser (u : user)
| RGen (g : generation)
| RLogin (l : login_log)
| RTemplate (t : template).

Definition opt_key (o : option Z) : sqlval :=
  match o with Some k => VKey k | None => VNull end.

Definition opt_int (o : option Z) : sqlval :=
  match o with Some k => VInt k | None => VNull end.

Definition schema (table col : string) : option sqltype :=
  if table =? "users" then
    if col =? "id" then Some TKey
    else if col =? "username" then Some TText
    else if col =? "email" then Some TText
    else if col =? "created_at" then Some TTime
    else if col =? "last_login_at" then Some TOpaque
    else if col =? "is_active" then Some TOpaque
    else if col =? "is_admin" then Some TOpaque
    else if col =? "is_vip" then Some TOpaque
    else if col =? "vip_expiry" then Some TOpaque
    else if col =? "free_previews" then Some TOpaque
    else if col =? "balance" then Some TOpaque
    else if col =? "subscription_type" then Some TOpaque
    else None
  else if table =? "generations" then
    if col =? "id" then Some TKey
    else if col =? "user_id" then Some TKey
    else if col =? "template_id" then Some TKey
    else if col =? "generation_type" then Some TText
    else if col =? "is_paid" then Some TBool
    else if col =? "created_at" then Some TTime
    else if col =? "status" then Some TOpaque
    else if col =? "processing_time" then Some TOpaque
    else if col =? "payment_amount" then Some TOpaque
    else None
  else if table =? "login_logs" then
    if col =? "id" then Some TKey
    else if col =? "user_id" then Some TKey
    else if col =? "username" then Some TText
    else if col =? "login_success" then Some TBool
    else if col =? "login_time" then Some TTime
    else if col =? "logout_time" then Some TOpaque
    else if col =? "session_duration" then Some TInt
    else if col =? "ip_address" then Some TOpaque
    else if col =? "user_agent" then Some TOpaque
    else None
  else if table =? "templates" then
    if col =? "id" then Some TKey
    else if col =? "name" then Some TOpaque
    else None
  else None.

Definition user_col (u : user) (col : string) : sqlval :=
  if col =? "id" then VKey (u_id u)
  else if col =? "username" then VText (u_username u)
  else if col =? "email" then VText (u_email u)
  else if col =? "created_at" then VTime (u_created_at u)
  else if col =? "last_login_at" then u_last_login_at u
  else if col =? "is_active" then u_is_active u
  else if col =? "is_admin" then u_is_admin u
  else if col =? "is_vip" then u_is_vip u
  else if col =? "vip_expiry" then u_vip_expiry u
  else if col =? "free_previews" then u_free_previews u
  else if col =? "balance" then u_balance u
  else if col =? "subscription_type" then u_subscription_type u
  else VNull.

Definition generation_col (g : generation) (col : string) : sqlval :=
  if col =? "id" then VKey (g_id g)
  else if col =? "user_id" then VKey (g_user_id g)
  else if col =? "template_id" then opt_key (g_template_id g)
  else if col =? "generation_type" then VText (g_generation_type g)
  else if col =? "is_paid" then VBool (g_is_paid g)
  else if col =? "created_at" then VTime (g_created_at g)
  else if col =? "status" then g_status g
  else if col =? "processing_time" then g_processing_time g
  else if col =? "payment_amount" then g_payment_amount g
  else VNull.

Definition login_log_col (l : login_log) (col : string) : sqlval :=
  if col =? "id" then VKey (l_id l)
  else if col =? "user_id" then opt_key (l_user_id l)
  else if col =? "username" then VText (l_username l)
  else if col =? "login_success" then VBool (l_login_success l)
  else if col =? "login_time" then VTime (l_login_time l)
  else if col =? "logout_time" then l_logout_time l
  else if col =? "session_duration" then opt_int (l_session_duration l)
  else if col =? "ip_address" then l_ip_address l
  else if col =? "user_agent" then l_user_agent l
  else VNull.

Definition template_col (t : template) (col : string) : sqlval :=
  if col =? "id" then VKey (t_id t)
  else if col =? "name" then t_name t
  else VNull.

Definition trow_col (r : trow) (col : string) : sqlval :=
  match r with
  | RUser u => user_col u col
  | RGen g => generation_col g col
  | RLogin l => login_log_col l col
  | RTemplate t => template_col t col
  end.

Definition table_rows (db : DB) (table : string) : option (list trow) :=
  if table =? "users" then Some (map RUser (users db))
  else if table =? "generations" then Some (map RGen (generations db))
  else if table =? "login_logs" then Some (map RLogin (login_logs db))
  else if table =? "templates" then Some (map RTemplate (templates db))
  else None.

(** ** Tokens *)

Definition is_space (c : ascii) : bool :=
  match nat_of_ascii c with
  | 32 | 9 | 10 | 13 => true
  | _ => false
  end.

Definition is_punct (c : ascii) : bool :=
  match c with
  | "("%char | ")"%char | ","%char => true
  | _ => false
  end.

Definition flush (word : string) (acc : list string) : list string :=
  match word with
  | EmptyString => acc
  | _ => acc ++ [word]
  end.

(** Words are separated by white space; parentheses and commas are tokens
    of their own.  [word] is the word being read, [acc] the tokens read. *)
Fixpoint tokens_from (s : string) (word : string) (acc : list string)
  : list string :=
  match s with
  | EmptyString => flush word acc
  | String c s' =>
      if is_space c then tokens_from s' "" (flush word acc)
      else if is_punct c
           then tokens_from s' "" (flush word acc ++ [String c ""])
      else tokens_from s' (word ++ String c "") acc
  end.

Definition tokenize (s : string) : list string := tokens_from s "" [].

(** ** Abstract syntax of the SQL fragment *)

Inductive operand : Type :=
| OCol (name : string)
| OParam (name : string)
| OLit (text : string)
| ONum (n : Z)
| OTrue.

Inductive cmpop : Type := CmpEq | CmpGe | CmpLe | CmpILike.

Inductive cond : Type :=
| CCmp (l : operand) (op : cmpop) (r : operand)
| CNotNull (col : string)
| CAnd (a b : cond)
| COr (a b : cond).

Inductive expr : Type :=
| ECol (name : string)
| EDate (name : string)
| ECountStar
| ECountDistinct (name : string) (filter : option cond)
| EMax (name : string)
| ESum (name : string).

Record item : Type := { it_expr : expr; it_name : string }.

Record join : Type := { j_table : string; j_alias : string; j_on : cond }.

Record select : Type := {
  s_items : list item;
  s_table : string;
  s_alias : option string;
  s_joins : list join;
  s_where : option cond;
  s_group : list expr;
  s_order : list (string * bool);
  s_limit : option operand;
  s_offset : option operand
}.

Inductive stmt : Type :=
| SSelect (q : select)
| SDelete (table : string) (where_ : option cond).

(** ** Parser *)

Definition obind {A B : Type} (o : option A) (k : A -> option B) : option B :=
  match o with Some a => k a | None => None end.

Notation "'let?' x ':=' e 'in' k" := (obind e (fun x => k))
  (at level 10, x pattern, e at level 100, k at level 200).

Definition reserved : list string :=
  ["SELECT"; "DELETE"; "FROM"; "WHERE"; "AND"; "OR"; "GROUP"; "ORDER"; "BY";
   "LIMIT"; "OFFSET"; "LEFT"; "JOIN"; "ON"; "AS"; "as"; "DESC"; "IS"; "NOT";
   "NULL"; "FILTER"; "DISTINCT"; "ILIKE"; "true";
   "("; ")"; ","; "*"; "="; ">="; "<="].

Definition is_reserved (t : string) : bool := existsb (String.eqb t) reserved.

Definition digit_val (c : ascii) : option Z :=
  let n := nat_of_ascii c in
  if (48 <=? n)%nat && (n <=? 57)%nat then Some (Z.of_nat (n - 48)) else None.

(** The value of a non-empty string of decimal digits, read after [acc]. *)
Fixpoint digits_val (s : string) (acc : Z) : option Z :=
  match s with
  | EmptyString => Some acc
  | String c s' =>
      match digit_val c with
      | Some d => digits_val s' (10 * acc + d)%Z
      | None => None
      end
  end.

Definition number_token (t : string) : option Z :=
  match t with
  | EmptyString => None
  | _ => digits_val t 0%Z
  end.

(** The text between the quotes of a token ['...'] with no quote inside. *)
Fixpoint quoted_tail (s : string) : option string :=
  match s with
  | EmptyString => None
  | String c s' =>
      if Ascii.eqb c "'"%char
      then match s' with EmptyString => Some "" | _ => None end
      else option_map (String c) (quoted_tail s')
  end.

Definition is_ident (t : string) : bool :=
  match t with
  | EmptyString => false
  | String c _ =>
      negb (is_reserved t) && negb (Ascii.eqb c ":"%char)
      && negb (Ascii.eqb c "'"%char)
      && match digit_val c with Some _ => false | None => true end
  end.

Definition parse_operand (t : string) : option operand :=
  match t with
  | EmptyString => None
  | String c rest =>
      if Ascii.eqb c ":"%char then
        match rest with EmptyString => None | _ => Some (OParam rest) end
      else if Ascii.eqb c "'"%char then option_map OLit (quoted_tail rest)
      else if t =? "true" then Some OTrue
      else match number_token t with
           | Some n => Some (ONum n)
           | None => if is_ident t then Some (OCol t) else None
           end
  end.

Definition parse_cmpop (t : string) : option cmpop :=
  if t =? "=" then Some CmpEq
  else if t =? ">=" then Some CmpGe
  else if t =? "<=" then Some CmpLe
  else if t =? "ILIKE" then Some CmpILike
  else None.

(** Conditions: [OR] of [AND] of atoms; an atom is a parenthesised
    condition, [col IS NOT NULL] or a comparison.  The fuel bounds the
    nesting; the number of tokens is always enough. *)
Fixpoint parse_or (fuel : nat) (ts : list string) : option (cond * list string) :=
  match fuel with
  | O => None
  | S fuel' =>
      let? (a, r) := parse_and fuel' ts in
      match r with
      | "OR" :: r' =>
          let? (b, r'') := parse_or fuel' r' in Some (COr a b, r'')
      | _ => Some (a, r)
      end
  end
with parse_and (fuel : nat) (ts : list string) : option (cond * list string) :=
  match fuel with
  | O => None
  | S fuel' =>
      let? (a, r) := parse_atom fuel' ts in
      match r with
      | "AND" :: r' =>
          let? (b, r'') := parse_and fuel' r' in Some (CAnd a b, r'')
      | _ => Some (a, r)
      end
  end
with parse_atom (fuel : nat) (ts : list string) : option (cond * list string) :=
  match fuel with
  | O => None
  | S fuel' =>
      match ts with
      | "(" :: r =>
          let? (c, r') := parse_or fuel' r in
          match r' with
          | ")" :: r'' => Some (c, r'')
          | _ => None
          end
      | t :: "IS" :: "NOT" :: "NULL" :: r =>
          if is_ident t then Some (CNotNull t, r) else None
      | t1 :: top :: t2 :: r =>
          let? a := parse_operand t1 in
          let? op := parse_cmpop top in
          let? b := parse_operand t2 in
          Some (CCmp a op b, r)
      | _ => None
      end
  end.

Definition parse_cond (ts : list string) : option (cond * list string) :=
  parse_or (3 * length ts + 3) ts.

(** After the last ['.'] of a column reference. *)
Fixpoint base_name_from (s : string) (cur : string) : string :=
  match s with
  | EmptyString => cur
  | String c s' =>
      if Ascii.eqb c "."%char then base_name_from s' ""
      else base_name_from s' (cur ++ String c "")
  end.

Definition base_name (s : string) : string := base_name_from s "".

Definition parse_filter_clause (ts : list string)
  : option (option cond * list string) :=
  match ts with
  | "FILTER" :: "(" :: "WHERE" :: r =>
      let? (c, r') := parse_cond r in
      match r' with
      | ")" :: r'' => Some (Some c, r'')
      | _ => None
      end
  | _ => Some (None, ts)
  end.

(** A select-list or GROUP BY expression, with its default output name. *)
Definition parse_expr (ts : list string) : option (expr * string * list string) :=
  match ts with
  | "COUNT" :: "(" :: "*" :: ")" :: r => Some (ECountStar, "count", r)
  | "COUNT" :: "(" :: "DISTINCT" :: c :: ")" :: r =>
      if is_ident c then
        let? (f, r') := parse_filter_clause r in
        Some (ECountDistinct c f, "count", r')
      else None
  | "MAX" :: "(" :: c :: ")" :: r =>
      if is_ident c then Some (EMax c, "max", r) else None
  | "SUM" :: "(" :: c :: ")" :: r =>
      if is_ident c then Some (ESum c, "sum", r) else None
  | "DATE" :: "(" :: c :: ")" :: r =>
      if is_ident c then Some (EDate c, "date", r) else None
  | c :: r => if is_ident c then Some (ECol c, base_name c, r) else None
  | [] => None
  end.

Definition parse_item (ts : list string) : option (item * list string) :=
  let? (e, name, r) := parse_expr ts in
  match r with
  | "as" :: a :: r' | "AS" :: a :: r' =>
      if is_ident a then Some ({| it_expr := e; it_name := a |}, r') else None
  | _ => Some ({| it_expr := e; it_name := name |}, r)
  end.

Fixpoint parse_items (fuel : nat) (ts : list string)
  : option (list item * list string) :=
  match fuel with
  | O => None
  | S fuel' =>
      let? (i, r) := parse_item ts in
      match r with
      | "," :: r' =>
          let? (is_, r'') := parse_items fuel' r' in Some (i :: is_, r'')
      | _ => Some ([i], r)
      end
  end.

Fixpoint parse_exprs (fuel : nat) (ts : list string)
  : option (list expr * list string) :=
  match fuel with
  | O => None
  | S fuel' =>
      let? (e, _, r) := parse_expr ts in
      match r with
      | "," :: r' =>
          let? (es, r'') := parse_exprs fuel' r' in Some (e :: es, r'')
      | _ => Some ([e], r)
      end
  end.

Definition parse_order_key (ts : list string)
  : option ((string * bool) * list string) :=
  match ts with
  | k :: "DESC" :: r => if is_ident k then Some ((k, true), r) else None
  | k :: r => if is_ident k then Some ((k, false), r) else None
  | [] => None
  end.

Fixpoint parse_order_keys (fuel : nat) (ts : list string)
  : option (list (string * bool) * list string) :=
  match fuel with
  | O => None
  | S fuel' =>
      let? (k, r) := parse_order_key ts in
      match r with
      | "," :: r' =>
          let? (ks, r'') := parse_order_keys fuel' r' in Some (k :: ks, r'')
      | _ => Some ([k], r)
      end
  end.

Fixpoint parse_joins (fuel : nat) (ts : list string)
  : option (list join * list string) :=
  match fuel with
  | O => None
  | S fuel' =>
      match ts with
      | "LEFT" :: "JOIN" :: t :: a :: "ON" :: r =>
          if is_ident t && is_ident a then
            let? (c, r') := parse_cond r in
            let? (js, r'') := parse_joins fuel' r' in
            Some ({| j_table := t; j_alias := a; j_on := c |} :: js, r'')
          else None
      | _ => Some ([], ts)
      end
  end.

Definition parse_alias (ts : list string) : option string * list string :=
  match ts with
  | a :: r => if is_ident a then (Some a, r) else (None, ts)
  | [] => (None, ts)
  end.

Definition parse_where (ts : list string) : option (option cond * list string) :=
  match ts with
  | "WHERE" :: r => let? (c, r') := parse_cond r in Some (Some c, r')
  | _ => Some (None, ts)
  end.

Definition parse_group (ts : list string) : option (list expr * list string) :=
  match ts with
  | "GROUP" :: "BY" :: r => parse_exprs (S (length r)) r
  | _ => Some ([], ts)
  end.

Definition parse_order (ts : list string)
  : option (list (string * bool) * list string) :=
  match ts with
  | "ORDER" :: "BY" :: r => parse_order_keys (S (length r)) r
  | _ => Some ([], ts)
  end.

Definition parse_bound (kw : string) (ts : list string)
  : option (option operand * list string) :=
  match ts with
  | k :: v :: r =>
      if k =? kw then let? o := parse_operand v in Some (Some o, r)
      else Some (None, ts)
  | _ => Some (None, ts)
  end.

Definition parse_select (ts : list string) : option select :=
  let? (items, r1) := parse_items (S (length ts)) ts in
  match r1 with
  | "FROM" :: t :: r2 =>
      if is_ident t then
        let '(alias, r3) := parse_alias r2 in
        let? (joins, r4) := parse_joins (S (length r3)) r3 in
        let? (w, r5) := parse_where r4 in
        let? (g, r6) := parse_group r5 in
        let? (o, r7) := parse_order r6 in
        let? (lim, r8) := parse_bound "LIMIT" r7 in
        let? (off, r9) := parse_bound "OFFSET" r8 in
        match r9 with
        | [] => Some {| s_items := items; s_table := t; s_alias := alias;
                        s_joins := joins; s_where := w; s_group := g;
                        s_order := o; s_limit := lim; s_offset := off |}
        | _ => None
        end
      else None
  | _ => None
  end.

(** A statement is a SELECT or a DELETE; the first token decides.  [None]
    is a syntax error. *)
Definition parse_stmt (sql : string) : option stmt :=
  match tokenize sql with
  | "SELECT" :: ts => option_map SSelect (parse_select ts)
  | "DELETE" :: "FROM" :: t :: ts =>
      if is_ident t then
        let? (w, r) := parse_where ts in
        match r with
        | [] => Some (SDelete t w)
        | _ => None
        end
      else None
  | _ => None
  end.

(** ** Values the handlers pass to the client *)

(** JavaScript numbers: the integers, the doubles that are not integers,
    the negative zero, NaN and the infinities.  [Int 0] is the positive
    zero; [Fin m e] is the double [m * 2 ^ e] with [m] odd and [e]
    negative.  What is not an integer is rounded as a double is.
    Integers are exact here whatever their size; a double holds them
    exactly below 2^53 and rounds them, or overflows, above, so the
    statements on paging keep page, limit and offset below 2^53. *)
Inductive number : Type :=
| Int (z : Z)
| Fin (m e : Z)
| NegZero
| NaN
| PosInf
| NegInf.

(** A value of the [replacements] object. *)
Inductive pval : Type :=
| PStr (s : string)
| PNum (n : number).

Definition replacements : Type := list (string * pval).

Fixpoint lookup {A : Type} (k : string) (m : list (string * A)) : option A :=
  match m with
  | [] => None
  | (k', v) :: m' => if k' =? k then Some v else lookup k m'
  end.

(** [obj.k = v] on an object kept as an association list. *)
Fixpoint set_key {A : Type} (k : string) (v : A) (m : list (string * A))
  : list (string * A) :=
  match m with
  | [] => [(k, v)]
  | (k', v') :: m' =>
      if k' =? k then (k, v) :: m' else (k', v') :: set_key k v m'
  end.

Inductive result (A : Type) : Type :=
| Ok (a : A)
| Error (msg : string).

Arguments Ok {A} a.
Arguments Error {A} msg.

Definition rbind {A B : Type} (r : result A) (k : A -> result B) : result B :=
  match r with Ok a => k a | Error m => Error m end.

Notation "'let!' x ':=' e 'in' k" := (rbind e (fun x => k))
  (at level 10, x pattern, e at level 100, k at level 200).

Fixpoint rmap {A B : Type} (f : A -> result B) (l : list A) : result (list B) :=
  match l with
  | [] => Ok []
  | x :: l' =>
      let! y := f x in
      let! ys := rmap f l' in
      Ok (y :: ys)
  end.

Definition of_option {A : Type} (o : option A) (msg : string) : result A :=
  match o with Some a => Ok a | None => Error msg end.

(** ** Pattern matching of ILIKE *)

Definition lower (c : ascii) : ascii :=
  let n := nat_of_ascii c in
  if (65 <=? n)%nat && (n <=? 90)%nat then ascii_of_nat (n + 32) else c.

Fixpoint lower_string (s : string) : string :=
  match s with
  | EmptyString => EmptyString
  | String c s' => String (lower c) (lower_string s')
  end.

(** LIKE on byte strings: [%] matches any run of characters, [_] any one
    character, a backslash makes the next character literal.  A pattern
    that ends in a lone backslash matches nothing. *)
Fixpoint like (p : string) : string -> bool :=
  match p with
  | EmptyString => fun s => match s with EmptyString => true | _ => false end
  | String c p' =>
      if Ascii.eqb c "%"%char then
        let rest := like p' in
        fix any (s : string) : bool :=
          rest s || match s with
                    | EmptyString => false
                    | String _ s' => any s'
                    end
      else if Ascii.eqb c "_"%char then
        fun s => match s with
                 | EmptyString => false
                 | String _ s' => like p' s'
                 end
      else if Ascii.eqb c "\"%char then
        match p' with
        | EmptyString => fun _ => false
        | String e p'' =>
            fun s => match s with
                     | EmptyString => false
                     | String d s' => Ascii.eqb e d && like p'' s'
                     end
        end
      else
        fun s => match s with
                 | EmptyString => false
                 | String d s' => Ascii.eqb c d && like p' s'
                 end
  end.

Definition ilike (s pattern : string) : bool :=
  like (lower_string pattern) (lower_string s).

(** ** Sorting *)

Section Sorting.
Context {A : Type} (le : A -> A -> bool).

Fixpoint insert_sorted (x : A) (l : list A) : list A :=
  match l with
  | [] => [x]
  | y :: l' => if le x y then x :: l else y :: insert_sorted x l'
  end.

Fixpoint sort (l : list A) : list A :=
  match l with
  | [] => []
  | x :: l' => insert_sorted x (sort l')
  end.
End Sorting.

Definition sqlval_eq_dec (a b : sqlval) : {a = b} + {a <> b}.
Proof.
  decide equality;
    first [apply Z.eq_dec | apply string_dec | apply bool_dec].
Defined.

Definition rank (v : sqlval) : nat :=
  match v with
  | VKey _ => 0 | VInt _ => 1 | VBig _ => 2 | VText _ => 3 | VBool _ => 4
  | VTime _ => 5 | VDate _ => 6 | VOpaque _ => 7 | VNull => 8
  end.

(** Ascending order of ORDER BY; NULL sorts as the largest value. *)
Definition sqlval_leb (a b : sqlval) : bool :=
  match a, b with
  | VKey x, VKey y | VInt x, VInt y | VBig x, VBig y
  | VTime x, VTime y | VDate x, VDate y =>
      (x <=? y)%Z
  | VText x, VText y | VOpaque x, VOpaque y => String.leb x y
  | VBool x, VBool y => implb x y
  | _, _ => (rank a <=? rank b)%nat
  end.

(** Lexicographic comparison of two rows' sort keys; the flag is DESC. *)
Fixpoint keys_leb (dirs : list bool) (a b : list sqlval) : bool :=
  match dirs, a, b with
  | desc :: dirs', x :: a', y :: b' =>
      let lo := if desc then y else x in
      let hi := if desc then x else y in
      if sqlval_leb lo hi
      then (if sqlval_leb hi lo then keys_leb dirs' a' b' else true)
      else false
  | _, _, _ => true
  end.

Definition DATE (t : Z) : Z := (t / 86400)%Z.

Definition date_of (v : sqlval) : sqlval :=
  match v with
  | VTime t => VDate (DATE t)
  | _ => VNull
  end.

(** ** Analysis and evaluation of statements *)

(** A joined row: one table row per FROM/JOIN entry; [None] is the
    all-NULL row a LEFT JOIN supplies when nothing matches. *)
Definition jrow : Type := list (option trow).

Record colref : Type := { c_idx : nat; c_col : string; c_ty : sqltype }.

Inductive roperand : Type :=
| RCol (c : colref)
| RConst (v : sqlval).

Inductive rcond : Type :=
| RCmp (l : roperand) (op : cmpop) (r : roperand)
| RNotNull (c : colref)
| RAnd (a b : rcond)
| ROr (a b : rcond).

Inductive rexpr : Type :=
| XCol (c : colref)
| XDate (c : colref)
| XCountStar
| XCountDistinct (c : colref) (filter : option rcond)
| XMax (c : colref)
| XSum (c : colref).

Inductive okey : Type :=
| KOut (name : string)
| KIn (c : colref).

Record plan : Type := {
  p_table : string;
  p_joins : list (string * rcond);
  p_where : option rcond;
  p_grouped : bool;
  p_group : list rexpr;
  p_items : list (string * rexpr);
  p_order : list (okey * bool);
  p_limit : option nat;
  p_offset : nat
}.

Definition outrow : Type := list (string * sqlval).

Definition col_value (jr : jrow) (c : colref) : sqlval :=
  match nth_error jr (c_idx c) with
  | Some (Some r) => trow_col r (c_col c)
  | _ => VNull
  end.

Definition operand_value (jr : jrow) (o : roperand) : sqlval :=
  match o with
  | RCol c => col_value jr c
  | RConst v => v
  end.

(** A comparison of two non-NULL values of one type; NULL on either side
    gives unknown. *)
Definition sql_cmp (op : cmpop) (a b : sqlval) : option bool :=
  match a, b with
  | VKey x, VKey y | VInt x, VInt y | VBig x, VBig y
  | VTime x, VTime y | VDate x, VDate y =>
      match op with
      | CmpEq => Some (x =? y)%Z
      | CmpGe => Some (y <=? x)%Z
      | CmpLe => Some (x <=? y)%Z
      | CmpILike => None
      end
  | VText x, VText y =>
      match op with
      | CmpEq => Some (x =? y)
      | CmpILike => Some (ilike x y)
      | _ => None
      end
  | VBool x, VBool y =>
      match op with
      | CmpEq => Some (Bool.eqb x y)
      | _ => None
      end
  | _, _ => None
  end.

(** Three-valued logic: [None] is unknown. *)
Definition and3 (a b : option bool) : option bool :=
  match a, b with
  | Some false, _ | _, Some false => Some false
  | Some true, Some true => Some true
  | _, _ => None
  end.

Definition or3 (a b : option bool) : option bool :=
  match a, b with
  | Some true, _ | _, Some true => Some true
  | Some false, Some false => Some false
  | _, _ => None
  end.

Fixpoint eval_cond (c : rcond) (jr : jrow) : option bool :=
  match c with
  | RCmp l op r => sql_cmp op (operand_value jr l) (operand_value jr r)
  | RNotNull col =>
      match col_value jr col with VNull => Some false | _ => Some true end
  | RAnd a b => and3 (eval_cond a jr) (eval_cond b jr)
  | ROr a b => or3 (eval_cond a jr) (eval_cond b jr)
  end.

(** A row passes WHERE, ON or FILTER when the condition is true. *)
Definition holds (c : rcond) (jr : jrow) : bool :=
  match eval_cond c jr with Some true => true | _ => false end.

Definition holds_opt (c : option rcond) (jr : jrow) : bool :=
  match c with Some c' => holds c' jr | None => true end.

Definition non_null (v : sqlval) : bool :=
  match v with VNull => false | _ => true end.

Definition sqlval_max (a b : sqlval) : sqlval :=
  match a with
  | VNull => b
  | _ => match b with
         | VNull => a
         | _ => if sqlval_leb a b then b else a
         end
  end.

Definition int_of (v : sqlval) : Z :=
  match v with VInt n => n | _ => 0%Z end.

(** The value of a select-list expression on a group of rows.  A plain
    column is read from the group's first row. *)
Definition eval_expr (e : rexpr) (grp : list jrow) : sqlval :=
  match e with
  | XCol c => match grp with r :: _ => col_value r c | [] => VNull end
  | XDate c => match grp with r :: _ => date_of (col_value r c) | [] => VNull end
  | XCountStar => VBig (Z.of_nat (length grp))
  | XCountDistinct c f =>
      VBig (Z.of_nat (length (nodup sqlval_eq_dec
        (filter non_null (map (fun r => col_value r c)
           (filter (holds_opt f) grp))))))
  | XMax c => fold_right sqlval_max VNull (map (fun r => col_value r c) grp)
  | XSum c =>
      match filter non_null (map (fun r => col_value r c) grp) with
      | [] => VNull
      | vs => VBig (fold_right Z.add 0%Z (map int_of vs))
      end
  end.

Definition group_key (es : list rexpr) (r : jrow) : list sqlval :=
  map (fun e => eval_expr e [r]) es.

Definition key_eq_dec : forall a b : list sqlval, {a = b} + {a <> b} :=
  list_eq_dec sqlval_eq_dec.

Definition same_key (es : list rexpr) (k : list sqlval) (r : jrow) : bool :=
  if key_eq_dec (group_key es r) k then true else false.

(** One group per distinct key. *)
Definition group_by (es : list rexpr) (rows : list jrow) : list (list jrow) :=
  map (fun k => filter (same_key es k) rows)
      (nodup key_eq_dec (map (group_key es) rows)).

Definition groups_of (p : plan) (rows : list jrow) : list (list jrow) :=
  if p_grouped p then
    match p_group p with
    | [] => [rows]
    | es => group_by es rows
    end
  else map (fun r => [r]) rows.

Definition out_of (p : plan) (grp : list jrow) : outrow :=
  map (fun it => (fst it, eval_expr (snd it) grp)) (p_items p).

Definition okey_value (grp : list jrow) (out : outrow) (k : okey) : sqlval :=
  match k with
  | KOut name => match lookup name out with Some v => v | None => VNull end
  | KIn c => match grp with r :: _ => col_value r c | [] => VNull end
  end.

Definition order_keys (p : plan) (x : list jrow * outrow) : list sqlval :=
  map (fun k => okey_value (fst x) (snd x) (fst k)) (p_order p).

Definition order_leb (p : plan) (x y : list jrow * outrow) : bool :=
  keys_leb (map snd (p_order p)) (order_keys p x) (order_keys p y).

Definition left_join (rows : list jrow) (right : list trow) (on : rcond)
  : list jrow :=
  flat_map (fun jr =>
    match filter (holds on) (map (fun r => jr ++ [Some r]) right) with
    | [] => [jr ++ [None]]
    | ms => ms
    end) rows.

Definition rows_of (db : DB) (table : string) : list trow :=
  match table_rows db table with Some rs => rs | None => [] end.

Definition joined_rows (p : plan) (db : DB) : list jrow :=
  fold_left (fun rows j => left_join rows (rows_of db (fst j)) (snd j))
            (p_joins p)
            (map (fun r => [Some r]) (rows_of db (p_table p))).

Definition limit_rows {A : Type} (lim : option nat) (l : list A) : list A :=
  match lim with Some n => firstn n l | None => l end.

Definition run_plan (p : plan) (db : DB) : list outrow :=
  let rows := filter (holds_opt (p_where p)) (joined_rows p db) in
  let outs := map (fun g => (g, out_of p g)) (groups_of p rows) in
  let sorted := sort (order_leb p) outs in
  map snd (limit_rows (p_limit p) (skipn (p_offset p) sorted)).

Arguments run_plan : simpl never.

Fixpoint split_dot_from (s : string) (acc : string) : option (string * string) :=
  match s with
  | EmptyString => None
  | String c s' =>
      if Ascii.eqb c "."%char then Some (acc, s')
      else split_dot_from s' (acc ++ String c "")
  end.

Definition split_dot (s : string) : option (string * string) :=
  split_dot_from s "".

(** The FROM/JOIN entries in scope: alias (or table name) and table. *)
Definition bindings : Type := list (string * string).

Fixpoint find_alias (bs : bindings) (q : string) (i : nat)
  : option (nat * string) :=
  match bs with
  | [] => None
  | (a, t) :: bs' => if a =? q then Some (i, t) else find_alias bs' q (S i)
  end.

Fixpoint candidates (bs : bindings) (col : string) (i : nat) : list colref :=
  match bs with
  | [] => []
  | (_, t) :: bs' =>
      match schema t col with
      | Some ty => {| c_idx := i; c_col := col; c_ty := ty |}
                     :: candidates bs' col (S i)
      | None => candidates bs' col (S i)
      end
  end.

Definition resolve_col (bs : bindings) (name : string) : result colref :=
  match split_dot name with
  | Some (q, col) =>
      match find_alias bs q 0 with
      | Some (i, t) =>
          match schema t col with
          | Some ty => Ok {| c_idx := i; c_col := col; c_ty := ty |}
          | None => Error "column does not exist"
          end
      | None => Error "missing FROM-clause entry"
      end
  | None =>
      match candidates bs name 0 with
      | [c] => Ok c
      | [] => Error "column does not exist"
      | _ => Error "column reference is ambiguous"
      end
  end.

Definition is_table (t : string) : bool :=
  existsb (String.eqb t) ["users"; "generations"; "login_logs"; "templates"].

Definition sqltype_eqb (a b : sqltype) : bool :=
  match a, b with
  | TKey, TKey | TInt, TInt | TText, TText | TBool, TBool
  | TTime, TTime | TDate, TDate | TOpaque, TOpaque => true
  | _, _ => false
  end.

(** Which operator applies to which type. *)
Definition op_ok (ty : sqltype) (op : cmpop) : bool :=
  match op, ty with
  | CmpEq, (TKey | TInt | TText | TBool | TTime | TDate) => true
  | (CmpGe | CmpLe), (TKey | TInt | TTime | TDate) => true
  | CmpILike, TText => true
  | _, _ => false
  end.

(** A constant of the statement text, before it is given a type. *)
Inductive const : Type :=
| KText (s : string)
| KNum (n : Z)
| KBool (b : bool).

Definition is_aggregate (e : expr) : bool :=
  match e with
  | ECol _ | EDate _ => false
  | _ => true
  end.

Section Engine.

(** The input functions of the timestamp and key column types: the
    value a quoted literal denotes, or [None] when the database rejects
    it ("invalid input syntax"). *)
Variable timestamp_in : string -> option Z.
Variable key_in : string -> option Z.

(** Named replacements: a string is spliced in as a quoted literal, a
    number as its digits (both zeros print as 0); a name with no value
    is an error, and so is a number that does not print as an integer
    literal.  The router binds results of [parseInt] only, which are
    never fractions. *)
Definition const_of (repl : replacements) (o : operand) : result const :=
  match o with
  | OParam p =>
      match lookup p repl with
      | Some (PStr s) => Ok (KText s)
      | Some (PNum (Int n)) => Ok (KNum n)
      | Some (PNum NegZero) => Ok (KNum 0)
      | Some (PNum _) => Error "column does not exist"
      | None => Error "Named parameter has no value in the given object"
      end
  | OLit s => Ok (KText s)
  | ONum n => Ok (KNum n)
  | OTrue => Ok (KBool true)
  | OCol _ => Error "not a constant"
  end.

Definition coerce (ty : sqltype) (k : const) : result sqlval :=
  match ty, k with
  | TKey, KText s => of_option (option_map VKey (key_in s))
                               "invalid input syntax"
  | TTime, KText s => of_option (option_map VTime (timestamp_in s))
                                "invalid input syntax"
  | TText, KText s => Ok (VText s)
  | TKey, KNum n => Ok (VKey n)
  | TInt, KNum n => Ok (VInt n)
  | TBool, KBool b => Ok (VBool b)
  | _, _ => Error "operator does not exist"
  end.

Definition check_op (ty : sqltype) (op : cmpop) : result unit :=
  if op_ok ty op then Ok tt else Error "operator does not exist".

Fixpoint analyze_cond (bs : bindings) (repl : replacements) (c : cond)
  : result rcond :=
  match c with
  | CCmp (OCol a) op (OCol b) =>
      let! ca := resolve_col bs a in
      let! cb := resolve_col bs b in
      let! _ := check_op (c_ty ca) op in
      if sqltype_eqb (c_ty ca) (c_ty cb)
      then Ok (RCmp (RCol ca) op (RCol cb))
      else Error "operator does not exist"
  | CCmp (OCol a) op r =>
      let! ca := resolve_col bs a in
      let! _ := check_op (c_ty ca) op in
      let! k := const_of repl r in
      let! v := coerce (c_ty ca) k in
      Ok (RCmp (RCol ca) op (RConst v))
  | CCmp l op (OCol b) =>
      let! cb := resolve_col bs b in
      let! _ := check_op (c_ty cb) op in
      let! k := const_of repl l in
      let! v := coerce (c_ty cb) k in
      Ok (RCmp (RConst v) op (RCol cb))
  | CCmp _ _ _ => Error "unsupported comparison of two constants"
  | CNotNull a =>
      let! ca := resolve_col bs a in Ok (RNotNull ca)
  | CAnd a b =>
      let! a' := analyze_cond bs repl a in
      let! b' := analyze_cond bs repl b in
      Ok (RAnd a' b')
  | COr a b =>
      let! a' := analyze_cond bs repl a in
      let! b' := analyze_cond bs repl b in
      Ok (ROr a' b')
  end.

Definition analyze_cond_opt (bs : bindings) (repl : replacements)
           (c : option cond) : result (option rcond) :=
  match c with
  | None => Ok None
  | Some c' => let! r := analyze_cond bs repl c' in Ok (Some r)
  end.

Definition analyze_expr (bs : bindings) (repl : replacements) (e : expr)
  : result rexpr :=
  match e with
  | ECol a => let! c := resolve_col bs a in Ok (XCol c)
  | EDate a =>
      let! c := resolve_col bs a in
      if sqltype_eqb (c_ty c) TTime then Ok (XDate c)
      else Error "function does not exist"
  | ECountStar => Ok XCountStar
  | ECountDistinct a f =>
      let! c := resolve_col bs a in
      let! f' := analyze_cond_opt bs repl f in
      Ok (XCountDistinct c f')
  | EMax a => let! c := resolve_col bs a in Ok (XMax c)
  | ESum a =>
      let! c := resolve_col bs a in
      if sqltype_eqb (c_ty c) TInt then Ok (XSum c)
      else Error "function does not exist"
  end.

Definition analyze_item (bs : bindings) (repl : replacements) (i : item)
  : result (string * rexpr) :=
  let! e := analyze_expr bs repl (it_expr i) in Ok (it_name i, e).

(** ORDER BY names an output column if there is one of that name, and
    an input column otherwise. *)
Definition analyze_okey (bs : bindings) (items : list item)
           (k : string * bool) : result (okey * bool) :=
  if existsb (fun i => it_name i =? fst k) items
  then Ok (KOut (fst k), snd k)
  else let! c := resolve_col bs (fst k) in Ok (KIn c, snd k).

Fixpoint analyze_joins (bs : bindings) (repl : replacements) (js : list join)
  : result (list (string * rcond) * bindings) :=
  match js with
  | [] => Ok ([], bs)
  | j :: js' =>
      if is_table (j_table j) then
        let bs' := bs ++ [(j_alias j, j_table j)] in
        let! on := analyze_cond bs' repl (j_on j) in
        let! (rest, bs'') := analyze_joins bs' repl js' in
        Ok ((j_table j, on) :: rest, bs'')
      else Error "relation does not exist"
  end.

(** LIMIT and OFFSET take a non-negative integer. *)
Definition analyze_bound (repl : replacements) (o : operand) : result nat :=
  let! k := const_of repl o in
  match k with
  | KNum n => if (n <? 0)%Z then Error "must not be negative"
              else Ok (Z.to_nat n)
  | _ => Error "unsupported bound"
  end.

Definition analyze_select (q : select) (repl : replacements) : result plan :=
  if is_table (s_table q) then
    let name := match s_alias q with Some a => a | None => s_table q end in
    let! (joins, bs) := analyze_joins [(name, s_table q)] repl (s_joins q) in
    let! w := analyze_cond_opt bs repl (s_where q) in
    let! g := rmap (analyze_expr bs repl) (s_group q) in
    let! items := rmap (analyze_item bs repl) (s_items q) in
    let! o := rmap (analyze_okey bs (s_items q)) (s_order q) in
    let! lim := match s_limit q with
                | Some l => let! n := analyze_bound repl l in Ok (Some n)
                | None => Ok None
                end in
    let! off := match s_offset q with
                | Some l => analyze_bound repl l
                | None => Ok 0
                end in
    Ok {| p_table := s_table q; p_joins := joins; p_where := w;
          p_grouped := match s_group q with
                       | [] => existsb (fun i => is_aggregate (it_expr i))
                                       (s_items q)
                       | _ => true
                       end;
          p_group := g; p_items := items; p_order := o;
          p_limit := lim; p_offset := off |}
  else Error "relation does not exist".

Definition delete_from (db : DB) (table : string) (gone : jrow -> bool) : DB :=
  {| users :=
       if table =? "users"
       then filter (fun r => negb (gone [Some (RUser r)])) (users db)
       else users db;
     generations :=
       if table =? "generations"
       then filter (fun r => negb (gone [Some (RGen r)])) (generations db)
       else generations db;
     login_logs :=
       if table =? "login_logs"
       then filter (fun r => negb (gone [Some (RLogin r)])) (login_logs db)
       else login_logs db;
     templates :=
       if table =? "templates"
       then filter (fun r => negb (gone [Some (RTemplate r)])) (templates db)
       else templates db |}.

(** The database executing one statement: the rows it returns (or the
    error it raises) and the database afterwards. *)
Definition pg_exec (sql : string) (repl : replacements) (db : DB)
  : result (list outrow) * DB :=
  match parse_stmt sql with
  | None => (Error "syntax error", db)
  | Some (SSelect q) =>
      match analyze_select q repl with
      | Ok p => (Ok (run_plan p db), db)
      | Error m => (Error m, db)
      end
  | Some (SDelete t w) =>
      if is_table t then
        match analyze_cond_opt [(t, t)] repl w with
        | Ok c => (Ok [], delete_from db t (holds_opt c))
        | Error m => (Error m, db)
        end
      else (Error "relation does not exist", db)
  end.

(** ** JavaScript values and coercions *)

Inductive jsval : Type :=
| JUndefined
| JNull
| JStr (s : string)
| JNum (n : number)
| JOther.

(** [if (x)] on a query parameter: a string is truthy unless empty. *)
Definition truthy (o : option string) : option string :=
  match o with
  | Some (String c s) => Some (String c s)
  | _ => None
  end.

(** A destructuring default: it applies to [undefined] only. *)
Definition default (o : option string) (d : jsval) : jsval :=
  match o with Some s => JStr s | None => d end.

(** A string is the UTF-8 text of a parameter.  The white space that
    [parseInt] and [Number] skip is TAB, LF, VT, FF, CR, the space,
    U+00A0, U+1680, U+2000 to U+200A, U+2028, U+2029, U+202F, U+205F,
    U+3000 and U+FEFF.  [is_js_space] holds of the ones of one byte,
    [is_js_space2] and [is_js_space3] of the byte sequences of the
    others. *)
Definition is_js_space (c : ascii) : bool :=
  match nat_of_ascii c with
  | 9 | 10 | 11 | 12 | 13 | 32 => true
  | _ => false
  end.

Definition is_js_space2 (a b : ascii) : bool :=
  (nat_of_ascii a =? 194)%nat && (nat_of_ascii b =? 160)%nat.

Definition is_js_space3 (a b c : ascii) : bool :=
  let a := nat_of_ascii a in
  let b := nat_of_ascii b in
  let c := nat_of_ascii c in
  ((a =? 225) && (b =? 154) && (c =? 128)
   || (a =? 226) && (b =? 128)
      && ((128 <=? c) && (c <=? 138) || (c =? 168) || (c =? 169)
          || (c =? 175))
   || (a =? 226) && (b =? 129) && (c =? 159)
   || (a =? 227) && (b =? 128) && (c =? 128)
   || (a =? 239) && (b =? 187) && (c =? 191))%nat.

(** The length a white space character of several bytes has when [c] is
    its first byte. *)
Definition space_lead (c : ascii) : nat :=
  let n := nat_of_ascii c in
  if (n =? 194)%nat then 2
  else if ((n =? 225) || (n =? 226) || (n =? 227) || (n =? 239))%nat then 3
  else 0.

Fixpoint trim_left (s : string) : string :=
  match s with
  | EmptyString => EmptyString
  | String a s1 =>
      if is_js_space a then trim_left s1
      else
        match space_lead a with
        | 2 =>
            match s1 with
            | String b s2 => if is_js_space2 a b then trim_left s2 else s
            | EmptyString => s
            end
        | 3 =>
            match s1 with
            | String b (String c s3) =>
                if is_js_space3 a b c then trim_left s3 else s
            | _ => s
            end
        | _ => s
        end
  end.

(** Nothing but white space. *)
Definition blank (s : string) : bool :=
  match trim_left s with
  | EmptyString => true
  | _ => false
  end.

Fixpoint trim_right (s : string) : string :=
  match s with
  | EmptyString => EmptyString
  | String c s' => if blank s then EmptyString else String c (trim_right s')
  end.

(** The longest prefix of decimal digits, read after [acc]. *)
Fixpoint digits_prefix (s : string) (acc : option Z) : option Z :=
  match s with
  | EmptyString => acc
  | String c s' =>
      match digit_val c with
      | Some d =>
          digits_prefix s'
            (Some (10 * match acc with Some a => a | None => 0 end + d)%Z)
      | None => acc
      end
  end.

Definition hex_val (c : ascii) : option Z :=
  let n := nat_of_ascii c in
  if (48 <=? n)%nat && (n <=? 57)%nat then Some (Z.of_nat (n - 48))
  else if (97 <=? n)%nat && (n <=? 102)%nat then Some (Z.of_nat (n - 87))
  else if (65 <=? n)%nat && (n <=? 70)%nat then Some (Z.of_nat (n - 55))
  else None.

Fixpoint hex_prefix (s : string) (acc : option Z) : option Z :=
  match s with
  | EmptyString => acc
  | String c s' =>
      match hex_val c with
      | Some d =>
          hex_prefix s'
            (Some (16 * match acc with Some a => a | None => 0 end + d)%Z)
      | None => acc
      end
  end.

Definition unsigned_prefix (s : string) : option Z :=
  match s with
  | String "0" (String "x" s') | String "0" (String "X" s') =>
      hex_prefix s' None
  | _ => digits_prefix s None
  end.

Section Doubles.
Local Open Scope Z_scope.

(** The number [- n] for [n >= 0]: the negative zero when [n] is 0. *)
Definition minus (n : Z) : number :=
  if (n =? 0)%Z then NegZero else Int (- n).

(** Zero, infinity and a positive integer with a sign bit. *)
Definition zero (neg : bool) : number := if neg then NegZero else Int 0.
Definition infinity (neg : bool) : number := if neg then NegInf else PosInf.
Definition signed (neg : bool) (z : Z) : number :=
  Int (if neg then - z else z).

(** *** Rounding to a double *)

(** The number of times 2 divides a positive number. *)
Fixpoint twos (p : positive) : Z :=
  match p with
  | xO p' => 1 + twos p'
  | _ => 0
  end.

(** The exponent of the leading bit of [n / d], for positive [n] and
    [d]. *)
Definition ratio_log2 (n d : Z) : Z :=
  let k := Z.log2 n - Z.log2 d in
  if (if 0 <=? k then d * 2 ^ k <=? n else d <=? n * 2 ^ (- k))
  then k else k - 1.

(** The double nearest to [n / d], for positive [n] and [d], as a
    significand and an exponent: 53 bits, fewer below 2^-1022, a tie
    going to the even significand. *)
Definition nearest (n d : Z) : Z * Z :=
  let e := Z.max (ratio_log2 n d - 52) (-1074) in
  let n' := if 0 <=? e then n else n * 2 ^ (- e) in
  let d' := if 0 <=? e then d * 2 ^ e else d in
  let q := n' / d' in
  let r := n' mod d' in
  (if (d' <? 2 * r) || ((2 * r =? d') && Z.odd q) then q + 1 else q, e).

(** The same with an odd significand; [(0, 0)] when [n / d] rounds to
    zero. *)
Definition canonical (n d : Z) : Z * Z :=
  let '(q, e) := nearest n d in
  match q with
  | Zpos p => let s := twos p in (q / 2 ^ s, e + s)
  | _ => (0, 0)
  end.

(** The number of value [n / d] and sign [neg], for [n >= 0] and
    [d > 0]: an integer as it is, anything else rounded. *)
Definition of_ratio (neg : bool) (n d : Z) : number :=
  if n =? 0 then zero neg
  else if n mod d =? 0 then signed neg (n / d)
  else let '(m, e) := canonical n d in
       if m =? 0 then zero neg
       else if 0 <=? e then signed neg (m * 2 ^ e)
       else Fin (if neg then - m else m) e.

(** The sign bit of a number that is not NaN. *)
Definition negative (a : number) : bool :=
  match a with
  | Int x => x <? 0
  | Fin m _ => m <? 0
  | NegZero | NegInf => true
  | NaN | PosInf => false
  end.

Definition is_zero (a : number) : bool :=
  match a with
  | Int x => x =? 0
  | NegZero => true
  | _ => false
  end.

Definition is_finite (a : number) : bool :=
  match a with
  | Int _ | Fin _ _ | NegZero => true
  | _ => false
  end.

(** A finite number as a fraction. *)
Definition numerator (a : number) : Z :=
  match a with
  | Int x => x
  | Fin m _ => m
  | _ => 0
  end.

Definition denominator (a : number) : Z :=
  match a with
  | Fin _ e => 2 ^ (- e)
  | _ => 1
  end.

(** *** Printing *)

Definition digit_char (d : Z) : ascii := ascii_of_nat (48 + Z.to_nat d).

Fixpoint digits_of (fuel : nat) (n : Z) (acc : string) : string :=
  match fuel with
  | O => acc
  | S fuel' =>
      let acc' := String (digit_char (n mod 10)) acc in
      if n <? 10 then acc' else digits_of fuel' (n / 10) acc'
  end.

(** The decimal text of an integer. *)
Definition decimal (n : Z) : string :=
  if n <? 0
  then String "-" (digits_of (S (Z.to_nat (Z.log2 (- n)))) (- n) "")
  else digits_of (S (Z.to_nat (Z.log2 n))) n "".

(** [10 ^ t <= n / d]. *)
Definition above_pow10 (n d t : Z) : bool :=
  if 0 <=? t then d * 10 ^ t <=? n else d <=? n * 10 ^ (- t).

(** The exponent of the leading decimal digit of [n / d], for positive
    [n] and [d]. *)
Definition ratio_log10 (n d : Z) : Z :=
  let hi := (ratio_log2 n d + 1) * 30103 / 100000 + 1 in
  if above_pow10 n d hi then hi
  else if above_pow10 n d (hi - 1) then hi - 1
  else if above_pow10 n d (hi - 2) then hi - 2
  else hi - 3.

Definition same_double (a b : Z * Z) : bool :=
  (fst a =? fst b) && (snd a =? snd b).

(** The digits a double prints with: the decimal [s * 10 ^ p] of the
    fewest digits that reads back as the double [n / d], the nearest to
    it if there are several, an even [s] at a tie.  [t] is the exponent
    of the leading digit, [k] the number of digits tried; 17 digits
    always do. *)
Fixpoint shortest_from (fuel : nat) (n d t k : Z) : Z * Z :=
  let p := t - k + 1 in
  let num := if 0 <=? p then n else n * 10 ^ (- p) in
  let den := if 0 <=? p then d * 10 ^ p else d in
  let lo := num / den in
  let r := num mod den in
  let reads c :=
    same_double (if 0 <=? p then canonical (c * 10 ^ p) 1
                 else canonical c (10 ^ (- p)))
                (canonical n d) in
  let lower := (2 * r <? den) || ((2 * r =? den) && Z.even lo) in
  match fuel with
  | O => (lo, p)
  | S fuel' =>
      if reads lo && (lower || negb (reads (lo + 1))) then (lo, p)
      else if reads (lo + 1) then (lo + 1, p)
      else shortest_from fuel' n d t (k + 1)
  end.

Definition shortest (n d : Z) : Z * Z :=
  let '(s, p) := shortest_from 17 n d (ratio_log10 n d) 1 in
  if s mod 10 =? 0 then (s / 10, p + 1) else (s, p).

(** [parseInt] of the text of the double [m * 2 ^ e] that is not an
    integer.  From 10^-6 on the text is digits, a point and digits, and
    [parseInt] reads the digits before the point; below, it is a digit,
    a point, digits and an exponent, and [parseInt] reads that one
    digit. *)
Definition parseInt_fraction (m e : Z) : number :=
  let neg := m <? 0 in
  let '(s, p) := shortest (Z.abs m) (2 ^ (- e)) in
  let k := Z.of_nat (String.length (decimal s)) in
  if -6 <? p + k
  then let t := if 0 <=? p then s * 10 ^ p else s / 10 ^ (- p) in
       if t =? 0 then zero neg else signed neg t
  else signed neg (s / 10 ^ (k - 1)).

End Doubles.

(** [parseInt(s)] with no radix: leading white space, a sign, then the
    longest run of digits (hexadecimal after [0x]); [NaN] if there is
    none. *)
Definition parseInt_string (s : string) : number :=
  match trim_left s with
  | String "-" s' =>
      match unsigned_prefix s' with Some n => minus n | None => NaN end
  | String "+" s' =>
      match unsigned_prefix s' with Some n => Int n | None => NaN end
  | s' =>
      match unsigned_prefix s' with Some n => Int n | None => NaN end
  end.

(** [parseInt] converts its argument to a string first; an integer
    prints as its digits (it does below 10^21), both zeros as 0, NaN
    and the infinities as words. *)
Definition parseInt (v : jsval) : number :=
  match v with
  | JStr s => parseInt_string s
  | JNum (Int z) => Int z
  | JNum (Fin m e) => parseInt_fraction m e
  | JNum NegZero => Int 0
  | _ => NaN
  end.

(** The digits at the head of [s], read after [acc]: their value, their
    number added to [n], and the rest of [s]. *)
Fixpoint scan_digits (s : string) (acc : Z) (n : nat)
  : Z * nat * string :=
  match s with
  | EmptyString => (acc, n, EmptyString)
  | String c s' =>
      match digit_val c with
      | Some d => scan_digits s' (10 * acc + d)%Z (S n)
      | None => (acc, n, s)
      end
  end.

(** The exponent of a decimal literal: nothing, or [e] or [E], a sign
    and digits. *)
Definition exponent_part (s : string) : option Z :=
  match s with
  | EmptyString => Some 0%Z
  | String c r =>
      if Ascii.eqb c "e" || Ascii.eqb c "E"
      then match r with
           | String "-" r' => option_map Z.opp (number_token r')
           | String "+" r' => number_token r'
           | _ => number_token r
           end
      else None
  end.

(** An unsigned decimal literal, digits with an optional point and
    exponent and a digit on one side of the point at least, as a pair
    [(m, k)] of value [m * 10 ^ k]. *)
Definition decimal_literal (s : string) : option (Z * Z) :=
  let '(i, ni, r1) := scan_digits s 0%Z 0%nat in
  match r1 with
  | String "." r2 =>
      let '(m, nf, r3) := scan_digits r2 i 0%nat in
      if (ni + nf =? 0)%nat then None
      else option_map (fun e => (m, e - Z.of_nat nf)%Z) (exponent_part r3)
  | _ =>
      if (ni =? 0)%nat then None
      else option_map (fun e => (i, e)) (exponent_part r1)
  end.

(** The value of a non-empty string of digits of a base up to 16. *)
Fixpoint radix_val (base : Z) (s : string) (acc : Z) : option Z :=
  match s with
  | EmptyString => Some acc
  | String c s' =>
      match hex_val c with
      | Some d => if (d <? base)%Z then radix_val base s' (base * acc + d)%Z
                  else None
      | None => None
      end
  end.

Definition radix_of (c : ascii) : option Z :=
  if Ascii.eqb c "x" || Ascii.eqb c "X" then Some 16%Z
  else if Ascii.eqb c "o" || Ascii.eqb c "O" then Some 8%Z
  else if Ascii.eqb c "b" || Ascii.eqb c "B" then Some 2%Z
  else None.

(** A hexadecimal, octal or binary literal; it takes no sign. *)
Definition radix_literal (s : string) : option Z :=
  match s with
  | String "0" (String c (String d r)) =>
      match radix_of c with
      | Some base => radix_val base (String d r) 0%Z
      | None => None
      end
  | _ => None
  end.

(** [Infinity] or a decimal literal, with the sign read before it. *)
Definition signed_literal (neg : bool) (s : string) : number :=
  if s =? "Infinity" then infinity neg
  else match decimal_literal s with
       | Some (m, k) =>
           if (0 <=? k)%Z then of_ratio neg (m * 10 ^ k) 1
           else of_ratio neg m (10 ^ (- k))
       | None => NaN
       end.

(** [Number(s)]: white space on both sides is dropped, the empty string
    is 0, and what is left has to be a numeric literal as a whole. *)
Definition number_of_string (s : string) : number :=
  match trim_right (trim_left s) with
  | EmptyString => Int 0
  | String "-" s' => signed_literal true s'
  | String "+" s' => signed_literal false s'
  | s' =>
      match radix_literal s' with
      | Some n => Int n
      | None => signed_literal false s'
      end
  end.

Definition to_number (v : jsval) : number :=
  match v with
  | JUndefined => NaN
  | JNull => Int 0
  | JStr s => number_of_string s
  | JNum n => n
  | JOther => NaN
  end.

(** *** Arithmetic *)

Section Arithmetic.
Local Open Scope Z_scope.

Definition num_neg (a : number) : number :=
  match a with
  | Int x => minus x
  | Fin m e => Fin (- m) e
  | NegZero => Int 0
  | NaN => NaN
  | PosInf => NegInf
  | NegInf => PosInf
  end.

(** A sum that is zero is the positive zero, unless both terms are the
    negative zero. *)
Definition num_add (a b : number) : number :=
  match a, b with
  | NaN, _ | _, NaN => NaN
  | PosInf, NegInf | NegInf, PosInf => NaN
  | PosInf, _ | _, PosInf => PosInf
  | NegInf, _ | _, NegInf => NegInf
  | NegZero, NegZero => NegZero
  | Int x, Int y => Int (x + y)
  | _, _ =>
      let n := numerator a * denominator b + numerator b * denominator a in
      of_ratio (n <? 0) (Z.abs n) (denominator a * denominator b)
  end.

Definition num_sub (a b : number) : number := num_add a (num_neg b).

(** The sign of a product or quotient is the exclusive or of the signs;
    zero times infinity is NaN. *)
Definition num_mul (a b : number) : number :=
  match a, b with
  | NaN, _ | _, NaN => NaN
  | _, _ =>
      let neg := xorb (negative a) (negative b) in
      if is_finite a && is_finite b
      then if is_zero a || is_zero b then zero neg
           else match a, b with
                | Int x, Int y => Int (x * y)
                | _, _ =>
                    of_ratio neg (Z.abs (numerator a * numerator b))
                             (denominator a * denominator b)
                end
      else if is_zero a || is_zero b then NaN
           else infinity neg
  end.

(** [Math.ceil]: a number between -1 and 0 rounds up to the negative
    zero. *)
Definition ceil (a : number) : number :=
  match a with
  | Fin m e =>
      let c := - ((- m) / 2 ^ (- e)) in
      if c =? 0 then NegZero else Int c
  | _ => a
  end.

(** [Math.ceil(a / b)]. *)
Definition ceil_div (a b : number) : number :=
  match a, b with
  | NaN, _ | _, NaN => NaN
  | _, _ =>
      let neg := xorb (negative a) (negative b) in
      if is_finite a
      then if is_finite b
           then if is_zero b
                then if is_zero a then NaN else infinity neg
                else if is_zero a then zero neg
                else match a, b with
                     | Int x, Int y =>
                         let c := - ((- x) / y) in
                         if c =? 0 then NegZero else Int c
                     | _, _ =>
                         ceil (of_ratio neg
                                 (Z.abs (numerator a * denominator b))
                                 (Z.abs (denominator a * numerator b)))
                     end
           else zero neg
      else if is_finite b then infinity neg else NaN
  end.

End Arithmetic.

(** ** What the database driver hands to JavaScript *)

(** A bigint arrives as a string of digits, an integer as a number, a
    text as a string, NULL as [null]. *)
Definition js_of (v : sqlval) : jsval :=
  match v with
  | VNull => JNull
  | VBig n => JStr (decimal n)
  | VInt n => JNum (Int n)
  | VText s => JStr s
  | _ => JOther
  end.

Definition field (name : string) (row : outrow) : jsval :=
  match lookup name row with
  | Some v => js_of v
  | None => JUndefined
  end.

(** ** Requests, responses and the handler monad *)

(** [req.query] holds strings; a parameter that is absent is
    [undefined].  [params_userId] is the [:userId] segment of the
    path. *)
Record request : Type := {
  q_page : option string;
  q_limit : option string;
  q_search : option string;
  q_dateFrom : option string;
  q_dateTo : option string;
  q_userId : option string;
  params_userId : string
}.

Record pagination : Type := {
  pg_total : number;
  pg_page : number;
  pg_limit : number;
  pg_pages : number
}.

Record overview : Type := {
  total_users : number;
  active_users : number;
  total_previews : number;
  total_downloads : number;
  total_logins : number
}.

Inductive body : Type :=
| BMessage (message : string)
| BUsers (users_ : list outrow) (pagination_ : pagination)
| BUserDetail (userInfo : outrow)
              (previewRecords downloadRecords loginRecords : list outrow)
| BRegistrations (registrations : list outrow)
| BLogins (logins : list outrow)
| BOnlineDuration (onlineDuration : list outrow)
| BOverview (overview_ : overview).

Record response : Type := { status : nat; payload : body }.

(** The database and the statements sent to it so far. *)
Record world : Type := {
  w_db : DB;
  w_issued : list (string * replacements)
}.

Definition M (A : Type) : Type := world -> result A * world.

Definition ret {A : Type} (a : A) : M A := fun w => (Ok a, w).

Definition bind {A B : Type} (m : M A) (k : A -> M B) : M B :=
  fun w =>
    match m w with
    | (Ok a, w') => k a w'
    | (Error e, w') => (Error e, w')
    end.

Definition throw {A : Type} (e : string) : M A := fun w => (Error e, w).

Definition try_catch {A : Type} (m : M A) (handler : string -> M A) : M A :=
  fun w =>
    match m w with
    | (Ok a, w') => (Ok a, w')
    | (Error e, w') => handler e w'
    end.

Notation "x <- m ;; k" := (bind m (fun x => k))
  (at level 61, m at next level, right associativity).

(** [sequelize.query(sql, { replacements })]: the rows, or the error
    thrown. *)
Definition sequelize_query (sql : string) (repl : replacements)
  : M (list outrow) :=
  fun w =>
    let '(r, db') := pg_exec sql repl (w_db w) in
    (r, {| w_db := db'; w_issued := w_issued w ++ [(sql, repl)] |}).

(** [const [[{ name }]] = rows]: destructuring the first row throws
    when there is none. *)
Definition first_field (name : string) (rows : list outrow) : M jsval :=
  match rows with
  | row :: _ => ret (field name row)
  | [] => throw "TypeError: Cannot destructure property"
  end.

Definition json (b : body) : M response :=
  ret {| status := 200; payload := b |}.

Definition status_json (code : nat) (b : body) : M response :=
  ret {| status := code; payload := b |}.

Definition internal_error : string -> M response :=
  fun _ => status_json 500 (BMessage "服务器内部错误").

(** ** GET /users *)

Definition users_sql (dateFilter : string) : string :=
  "SELECT u.id, u.username, u.email, u.created_at as registration_time, u.last_login_at, u.is_active, u.is_admin, u.is_vip, u.vip_expiry, u.free_previews, u.balance, COUNT(DISTINCT g.id) FILTER (WHERE g.generation_type = 'preview') as preview_count, COUNT(DISTINCT g.id) FILTER (WHERE g.generation_type = 'paid' OR g.is_paid = true) as download_count, COUNT(DISTINCT g.id) as total_generations, COUNT(DISTINCT ll.id) as login_count, MAX(ll.login_time) as last_login_time FROM users u LEFT JOIN generations g ON u.id = g.user_id LEFT JOIN login_logs ll ON u.id = ll.user_id AND ll.login_success = true WHERE (u.username ILIKE :search OR u.email ILIKE :search) "
  ++ dateFilter ++
  " GROUP BY u.id, u.username, u.email, u.created_at, u.last_login_at, u.is_active, u.is_admin, u.is_vip, u.vip_expiry, u.free_previews, u.balance ORDER BY u.created_at DESC LIMIT :limit OFFSET :offset".

Definition users_count_sql (dateFilter : string) : string :=
  "SELECT COUNT(DISTINCT u.id) as total FROM users u WHERE (u.username ILIKE :search OR u.email ILIKE :search) "
  ++ dateFilter.

Definition string_of (v : jsval) : string :=
  match v with JStr s => s | _ => "" end.

Definition users_handler (req : request) : M response :=
  try_catch
    (let page := default (q_page req) (JNum (Int 1)) in
     let limit := default (q_limit req) (JNum (Int 50)) in
     let search := default (q_search req) (JStr "") in
     let dateFrom := q_dateFrom req in
     let dateTo := q_dateTo req in
     let offset := num_mul (num_sub (to_number page) (Int 1))
                           (to_number limit) in
     let dateFilter := "" in
     let replacements :=
       [("search", PStr ("%" ++ string_of search ++ "%"));
        ("limit", PNum (parseInt limit));
        ("offset", PNum (parseInt (JNum offset)))] in
     let '(dateFilter, replacements) :=
       match truthy dateFrom with
       | Some d => ((dateFilter ++ " AND u.created_at >= :dateFrom")%string,
                    set_key "dateFrom" (PStr d) replacements)
       | None => (dateFilter, replacements)
       end in
     let '(dateFilter, replacements) :=
       match truthy dateTo with
       | Some d => ((dateFilter ++ " AND u.created_at <= :dateTo")%string,
                    set_key "dateTo" (PStr d) replacements)
       | None => (dateFilter, replacements)
       end in
     let query := users_sql dateFilter in
     let countQuery := users_count_sql dateFilter in
     users <- sequelize_query query replacements ;;
     rows <- sequelize_query countQuery replacements ;;
     total <- first_field "total" rows ;;
     json (BUsers users
             {| pg_total := parseInt total;
                pg_page := parseInt page;
                pg_limit := parseInt limit;
                pg_pages := ceil_div (to_number total) (to_number limit) |}))
    internal_error.

(** ** GET /users/:userId *)

Definition user_info_sql : string :=
  "SELECT u.id, u.username, u.email, u.created_at as registration_time, u.last_login_at, u.is_active, u.is_admin, u.is_vip, u.vip_expiry, u.free_previews, u.balance, u.subscription_type, COUNT(DISTINCT g.id) FILTER (WHERE g.generation_type = 'preview') as preview_count, COUNT(DISTINCT g.id) FILTER (WHERE g.generation_type = 'paid' OR g.is_paid = true) as download_count, COUNT(DISTINCT ll.id) as total_logins FROM users u LEFT JOIN generations g ON u.id = g.user_id LEFT JOIN login_logs ll ON u.id = ll.user_id AND ll.login_success = true WHERE u.id = :userId GROUP BY u.id".

Definition preview_records_sql : string :=
  "SELECT g.id, g.created_at, g.status, g.processing_time, t.name as template_name, t.id as template_id FROM generations g LEFT JOIN templates t ON g.template_id = t.id WHERE g.user_id = :userId AND g.generation_type = 'preview' ORDER BY g.created_at DESC LIMIT 20".

Definition download_records_sql : string :=
  "SELECT g.id, g.created_at, g.status, g.payment_amount, g.processing_time, t.name as template_name, t.id as template_id FROM generations g LEFT JOIN templates t ON g.template_id = t.id WHERE g.user_id = :userId AND (g.generation_type = 'paid' OR g.is_paid = true) ORDER BY g.created_at DESC LIMIT 20".

Definition login_records_sql : string :=
  "SELECT login_time, logout_time, session_duration, ip_address, user_agent FROM login_logs WHERE user_id = :userId AND login_success = true ORDER BY login_time DESC LIMIT 30".

Definition user_detail_handler (req : request) : M response :=
  try_catch
    (let userId := params_userId req in
     rows <- sequelize_query user_info_sql [("userId", PStr userId)] ;;
     match rows with
     | [] => status_json 404 (BMessage "用户不存在")
     | userInfo :: _ =>
         previewRecords <-
           sequelize_query preview_records_sql [("userId", PStr userId)] ;;
         downloadRecords <-
           sequelize_query download_records_sql [("userId", PStr userId)] ;;
         loginRecords <-
           sequelize_query login_records_sql [("userId", PStr userId)] ;;
         json (BUserDetail userInfo previewRecords downloadRecords
                           loginRecords)
     end)
    internal_error.

(** ** GET /registrations *)

(** [s ? a : b] on a string: the empty string is falsy. *)
Definition nonempty (s : string) : bool :=
  match s with EmptyString => false | _ => true end.

Definition registrations_sql (dateFilter : string) : string :=
  "SELECT DATE(created_at) as date, COUNT(*) as count FROM users "
  ++ dateFilter ++
  " GROUP BY DATE(created_at) ORDER BY date DESC".

Definition registrations_handler (req : request) : M response :=
  try_catch
    (let dateFrom := q_dateFrom req in
     let dateTo := q_dateTo req in
     let replacements : replacements := [] in
     let dateFilter := "" in
     let '(dateFilter, replacements) :=
       match truthy dateFrom with
       | Some d => ((dateFilter ++ " WHERE created_at >= :dateFrom")%string,
                    set_key "dateFrom" (PStr d) replacements)
       | None => (dateFilter, replacements)
       end in
     let '(dateFilter, replacements) :=
       match truthy dateTo with
       | Some d =>
           ((dateFilter
             ++ ((if nonempty dateFilter then " AND" else " WHERE")
                 ++ " created_at <= :dateTo"))%string,
            set_key "dateTo" (PStr d) replacements)
       | None => (dateFilter, replacements)
       end in
     results <- sequelize_query (registrations_sql dateFilter) replacements ;;
     json (BRegistrations results))
    internal_error.

(** ** GET /logins *)

Definition logins_sql (dateFilter : string) : string :=
  "SELECT DATE(login_time) as date, COUNT(DISTINCT user_id) as unique_users, COUNT(*) as total_logins FROM login_logs "
  ++ dateFilter ++
  " AND login_success = true GROUP BY DATE(login_time) ORDER BY date DESC".

Definition logins_handler (req : request) : M response :=
  try_catch
    (let dateFrom := q_dateFrom req in
     let dateTo := q_dateTo req in
     let replacements : replacements := [] in
     let dateFilter := "" in
     let '(dateFilter, replacements) :=
       match truthy dateFrom with
       | Some d => ((dateFilter ++ " WHERE login_time >= :dateFrom")%string,
                    set_key "dateFrom" (PStr d) replacements)
       | None => (dateFilter, replacements)
       end in
     let '(dateFilter, replacements) :=
       match truthy dateTo with
       | Some d =>
           ((dateFilter
             ++ ((if nonempty dateFilter then " AND" else " WHERE")
                 ++ " login_time <= :dateTo"))%string,
            set_key "dateTo" (PStr d) replacements)
       | None => (dateFilter, replacements)
       end in
     results <- sequelize_query (logins_sql dateFilter) replacements ;;
     json (BLogins results))
    internal_error.

(** ** GET /online-duration *)

(** [filters.join(sep)]. *)
Fixpoint join_with (sep : string) (l : list string) : string :=
  match l with
  | [] => ""
  | [x] => x
  | x :: l' => x ++ sep ++ join_with sep l'
  end.

Definition online_duration_sql (whereClause : string) : string :=
  "SELECT username, DATE(login_time) as date, SUM(session_duration) as total_seconds, COUNT(*) as session_count FROM login_logs "
  ++ whereClause ++
  " GROUP BY username, DATE(login_time) ORDER BY date DESC, total_seconds DESC".

Definition online_duration_handler (req : request) : M response :=
  try_catch
    (let userId := q_userId req in
     let dateFrom := q_dateFrom req in
     let dateTo := q_dateTo req in
     let replacements : replacements := [] in
     let filters := ["session_duration IS NOT NULL"] in
     let '(filters, replacements) :=
       match truthy userId with
       | Some u => (filters ++ ["user_id = :userId"],
                    set_key "userId" (PStr u) replacements)
       | None => (filters, replacements)
       end in
     let '(filters, replacements) :=
       match truthy dateFrom with
       | Some d => (filters ++ ["login_time >= :dateFrom"],
                    set_key "dateFrom" (PStr d) replacements)
       | None => (filters, replacements)
       end in
     let '(filters, replacements) :=
       match truthy dateTo with
       | Some d => (filters ++ ["login_time <= :dateTo"],
                    set_key "dateTo" (PStr d) replacements)
       | None => (filters, replacements)
       end in
     let whereClause :=
       if (0 <? length filters)%nat
       then ("WHERE " ++ join_with " AND " filters)%string
       else "" in
     results <-
       sequelize_query (online_duration_sql whereClause) replacements ;;
     json (BOnlineDuration results))
    internal_error.

(** ** GET /overview *)

Definition total_users_sql (userDateFilter : string) : string :=
  "SELECT COUNT(*) as total_users FROM users " ++ userDateFilter.

Definition active_users_sql (loginDateFilter : string) : string :=
  "SELECT COUNT(DISTINCT user_id) as active_users FROM login_logs "
  ++ loginDateFilter ++ " AND login_success = true".

Definition total_previews_sql (genDateFilter : string) : string :=
  "SELECT COUNT(*) as total_previews FROM generations "
  ++ genDateFilter ++ " "
  ++ (if nonempty genDateFilter then "AND" else "WHERE")
  ++ " generation_type = 'preview'".

Definition total_downloads_sql (genDateFilter : string) : string :=
  "SELECT COUNT(*) as total_downloads FROM generations "
  ++ genDateFilter ++ " "
  ++ (if nonempty genDateFilter then "AND" else "WHERE")
  ++ " (generation_type = 'paid' OR is_paid = true)".

Definition total_logins_sql (loginDateFilter : string) : string :=
  "SELECT COUNT(*) as total_logins FROM login_logs "
  ++ loginDateFilter ++ " AND login_success = true".

Definition overview_handler (req : request) : M response :=
  try_catch
    (let dateFrom := q_dateFrom req in
     let dateTo := q_dateTo req in
     let replacements : replacements := [] in
     let userDateFilter := "" in
     let genDateFilter := "" in
     let loginDateFilter := "" in
     let '(userDateFilter, genDateFilter, loginDateFilter, replacements) :=
       match truthy dateFrom with
       | Some d => (" WHERE created_at >= :dateFrom",
                    " WHERE created_at >= :dateFrom",
                    " WHERE login_time >= :dateFrom",
                    set_key "dateFrom" (PStr d) replacements)
       | None => (userDateFilter, genDateFilter, loginDateFilter,
                  replacements)
       end in
     let '(userDateFilter, genDateFilter, loginDateFilter, replacements) :=
       match truthy dateTo with
       | Some d =>
           let and := match truthy dateFrom with
                      | Some _ => " AND"
                      | None => " WHERE"
                      end in
           ((userDateFilter ++ (and ++ " created_at <= :dateTo"))%string,
            (genDateFilter ++ (and ++ " created_at <= :dateTo"))%string,
            (loginDateFilter ++ (and ++ " login_time <= :dateTo"))%string,
            set_key "dateTo" (PStr d) replacements)
       | None => (userDateFilter, genDateFilter, loginDateFilter,
                  replacements)
       end in
     rows <- sequelize_query (total_users_sql userDateFilter) replacements ;;
     total_users <- first_field "total_users" rows ;;
     rows <- sequelize_query (active_users_sql loginDateFilter)
                             replacements ;;
     active_users <- first_field "active_users" rows ;;
     rows <- sequelize_query (total_previews_sql genDateFilter)
                             replacements ;;
     total_previews <- first_field "total_previews" rows ;;
     rows <- sequelize_query (total_downloads_sql genDateFilter)
                             replacements ;;
     total_downloads <- first_field "total_downloads" rows ;;
     rows <- sequelize_query (total_logins_sql loginDateFilter)
                             replacements ;;
     total_logins <- first_field "total_logins" rows ;;
     json (BOverview
             {| total_users := parseInt total_users;
                active_users := parseInt active_users;
                total_previews := parseInt total_previews;
                total_downloads := parseInt total_downloads;
                total_logins := parseInt total_logins |}))
    internal_error.

(** ** The router *)

Inductive endpoint : Type :=
| GetUsers
| GetUser
| GetRegistrations
| GetLogins
| GetOnlineDuration
| GetOverview.

(** The handler of each route, as it runs once [authenticateToken] and
    [requireAdmin] have let the request through. *)
Definition router (e : endpoint) : request -> M response :=
  match e with
  | GetUsers => users_handler
  | GetUser => user_detail_handler
  | GetRegistrations => registrations_handler
  | GetLogins => logins_handler
  | GetOnlineDuration => online_duration_handler
  | GetOverview => overview_handler
  end.

(** ** Date ranges and sums over result rows *)

(** The bound a date parameter puts on a timestamp: none when the
    parameter is absent or empty, an error when the database rejects
    the literal. *)
Definition date_bound (o : option string) : result (option Z) :=
  match truthy o with
  | None => Ok None
  | Some d =>
      match timestamp_in d with
      | Some t => Ok (Some t)
      | None => Error "invalid input syntax"
      end
  end.

Definition in_range (lo hi : option Z) (t : Z) : bool :=
  match lo with Some a => (a <=? t)%Z | None => true end
  && match hi with Some b => (t <=? b)%Z | None => true end.

(** The bigint in a column of a result row. *)
Definition big_field (name : string) (row : outrow) : Z :=
  match lookup name row with Some (VBig n) => n | _ => 0%Z end.

Definition sum_field (name : string) (rows : list outrow) : Z :=
  fold_right Z.add 0%Z (map (big_field name) rows).

(** The number of elements of [l] under each key of [ks], added up;
    [eqb k a] tells whether [a] has key [k]. *)
Definition count_per_key {A K : Type} (eqb : K -> A -> bool)
           (ks : list K) (l : list A) : nat :=
  fold_right Nat.add 0%nat (map (fun k => length (filter (eqb k) l)) ks).

Definition weight_of {A : Type} (wt : A -> Z) (l : list A) : Z :=
  fold_right Z.add 0%Z (map wt l).

(** The weight of the elements of [l] under each key of [ks], added up. *)
Definition weight_per_key {A K : Type} (eqb : K -> A -> bool) (wt : A -> Z)
           (ks : list K) (l : list A) : Z :=
  fold_right Z.add 0%Z (map (fun k => weight_of wt (filter (eqb k) l)) ks).

(** ** Rows, conditions and plans *)

Definition filtered_rows (p : plan) (db : DB) : list jrow :=
  filter (holds_opt (p_where p)) (joined_rows p db).

Definition plan_groups (p : plan) (db : DB) : list (list jrow) :=
  groups_of p (filtered_rows p db).

Definition col0 (name : string) (ty : sqltype) : colref :=
  {| c_idx := 0; c_col := name; c_ty := ty |}.

Definition ge_cond (c : colref) (a : Z) : rcond :=
  RCmp (RCol c) CmpGe (RConst (VTime a)).

Definition le_cond (c : colref) (b : Z) : rcond :=
  RCmp (RCol c) CmpLe (RConst (VTime b)).

(** A chain [c1 AND (c2 AND ...)], as the parser nests it. *)
Fixpoint conj (cs : list rcond) : option rcond :=
  match cs with
  | [] => None
  | c :: cs' =>
      match conj cs' with
      | Some r => Some (RAnd c r)
      | None => Some c
      end
  end.

Definition bounds (c : colref) (lo hi : option Z) : list rcond :=
  match lo with Some a => [ge_cond c a] | None => [] end
  ++ match hi with Some b => [le_cond c b] | None => [] end.

(** The condition the two optional bounds put on a timestamp column. *)
Definition range_cond (c : colref) (lo hi : option Z) : option rcond :=
  conj (bounds c lo hi).

(** ** Plans and predicates of /registrations and /overview *)

Definition registrations_plan (lo hi : option Z) : plan :=
  {| p_table := "users";
     p_joins := [];
     p_where := range_cond (col0 "created_at" TTime) lo hi;
     p_grouped := true;
     p_group := [XDate (col0 "created_at" TTime)];
     p_items := [("date", XDate (col0 "created_at" TTime));
                 ("count", XCountStar)];
     p_order := [(KOut "date", true)];
     p_limit := None;
     p_offset := 0 |}.

Definition user_row (u : user) : jrow := [Some (RUser u)].

Definition registered_on (lo hi : option Z) (d : Z) (u : user) : bool :=
  in_range lo hi (u_created_at u) && (DATE (u_created_at u) =? d)%Z.

Definition success_cond : rcond :=
  RCmp (RCol (col0 "login_success" TBool)) CmpEq (RConst (VBool true)).

Definition preview_cond : rcond :=
  RCmp (RCol (col0 "generation_type" TText)) CmpEq (RConst (VText "preview")).

Definition paid_cond : rcond :=
  ROr (RCmp (RCol (col0 "generation_type" TText)) CmpEq
            (RConst (VText "paid")))
      (RCmp (RCol (col0 "is_paid" TBool)) CmpEq (RConst (VBool true))).

(** The plan of [SELECT <aggregate> as name FROM table WHERE w]. *)
Definition count_plan (table : string) (w : option rcond)
           (name : string) (e : rexpr) : plan :=
  {| p_table := table; p_joins := []; p_where := w;
     p_grouped := true; p_group := []; p_items := [(name, e)];
     p_order := []; p_limit := None; p_offset := 0 |}.

Definition generation_row (g : generation) : jrow := [Some (RGen g)].
Definition login_row (l : login_log) : jrow := [Some (RLogin l)].

Definition is_preview (g : generation) : bool :=
  g_generation_type g =? "preview".

Definition is_download (g : generation) : bool :=
  (g_generation_type g =? "paid") || g_is_paid g.

Definition created_in (lo hi : option Z) (g : generation) : bool :=
  in_range lo hi (g_created_at g).

Definition successful_in (lo hi : option Z) (l : login_log) : bool :=
  in_range lo hi (l_login_time l) && l_login_success l.

Definition user_ids (ls : list login_log) : list Z :=
  flat_map (fun l => match l_user_id l with Some k => [k] | None => [] end)
           ls.

(** The number of distinct users among login rows. *)
Definition distinct_users (ls : list login_log) : nat :=
  length (nodup Z.eq_dec (user_ids ls)).

(** A generation row typed 'preview' and marked paid: it is a preview
    and a download at once. *)
Definition paid_preview (g : generation) : bool :=
  is_preview g && g_is_paid g.

(** ** Plans and predicates of /users/:userId *)

Definition col_at (i : nat) (name : string) (ty : sqltype) : colref :=
  {| c_idx := i; c_col := name; c_ty := ty |}.

Definition key_is (c : colref) (k : Z) : rcond :=
  RCmp (RCol c) CmpEq (RConst (VKey k)).

(** [u.id = g.user_id] and [u.id = ll.user_id AND ll.login_success = true]:
    the two LEFT JOINs of the user statements. *)
Definition user_joins : list (string * rcond) :=
  [("generations",
    RCmp (RCol (col0 "id" TKey)) CmpEq (RCol (col_at 1 "user_id" TKey)));
   ("login_logs",
    RAnd (RCmp (RCol (col0 "id" TKey)) CmpEq
               (RCol (col_at 2 "user_id" TKey)))
         (RCmp (RCol (col_at 2 "login_success" TBool)) CmpEq
               (RConst (VBool true))))].

Definition preview_filter : option rcond :=
  Some (RCmp (RCol (col_at 1 "generation_type" TText)) CmpEq
             (RConst (VText "preview"))).

Definition download_filter : option rcond :=
  Some (ROr (RCmp (RCol (col_at 1 "generation_type" TText)) CmpEq
                  (RConst (VText "paid")))
            (RCmp (RCol (col_at 1 "is_paid" TBool)) CmpEq
                  (RConst (VBool true)))).

Definition user_columns : list (string * rexpr) :=
  [("id", XCol (col0 "id" TKey));
   ("username", XCol (col0 "username" TText));
   ("email", XCol (col0 "email" TText));
   ("registration_time", XCol (col0 "created_at" TTime));
   ("last_login_at", XCol (col0 "last_login_at" TOpaque));
   ("is_active", XCol (col0 "is_active" TOpaque));
   ("is_admin", XCol (col0 "is_admin" TOpaque));
   ("is_vip", XCol (col0 "is_vip" TOpaque));
   ("vip_expiry", XCol (col0 "vip_expiry" TOpaque));
   ("free_previews", XCol (col0 "free_previews" TOpaque));
   ("balance", XCol (col0 "balance" TOpaque))].

Definition user_info_plan (k : Z) : plan :=
  {| p_table := "users";
     p_joins := user_joins;
     p_where := Some (key_is (col0 "id" TKey) k);
     p_grouped := true;
     p_group := [XCol (col0 "id" TKey)];
     p_items :=
       user_columns ++
       [("subscription_type", XCol (col0 "subscription_type" TOpaque));
        ("preview_count",
         XCountDistinct (col_at 1 "id" TKey) preview_filter);
        ("download_count",
         XCountDistinct (col_at 1 "id" TKey) download_filter);
        ("total_logins", XCountDistinct (col_at 2 "id" TKey) None)];
     p_order := [];
     p_limit := None;
     p_offset := 0 |}.

Definition template_join : list (string * rcond) :=
  [("templates",
    RCmp (RCol (col0 "template_id" TKey)) CmpEq (RCol (col_at 1 "id" TKey)))].

Definition preview_records_plan (k : Z) : plan :=
  {| p_table := "generations";
     p_joins := template_join;
     p_where := Some (RAnd (key_is (col0 "user_id" TKey) k) preview_cond);
     p_grouped := false;
     p_group := [];
     p_items :=
       [("id", XCol (col0 "id" TKey));
        ("created_at", XCol (col0 "created_at" TTime));
        ("status", XCol (col0 "status" TOpaque));
        ("processing_time", XCol (col0 "processing_time" TOpaque));
        ("template_name", XCol (col_at 1 "name" TOpaque));
        ("template_id", XCol (col_at 1 "id" TKey))];
     p_order := [(KIn (col0 "created_at" TTime), true)];
     p_limit := Some 20%nat;
     p_offset := 0 |}.

Definition download_records_plan (k : Z) : plan :=
  {| p_table := "generations";
     p_joins := template_join;
     p_where := Some (RAnd (key_is (col0 "user_id" TKey) k) paid_cond);
     p_grouped := false;
     p_group := [];
     p_items :=
       [("id", XCol (col0 "id" TKey));
        ("created_at", XCol (col0 "created_at" TTime));
        ("status", XCol (col0 "status" TOpaque));
        ("payment_amount", XCol (col0 "payment_amount" TOpaque));
        ("processing_time", XCol (col0 "processing_time" TOpaque));
        ("template_name", XCol (col_at 1 "name" TOpaque));
        ("template_id", XCol (col_at 1 "id" TKey))];
     p_order := [(KIn (col0 "created_at" TTime), true)];
     p_limit := Some 20%nat;
     p_offset := 0 |}.

Definition login_records_plan (k : Z) : plan :=
  {| p_table := "login_logs";
     p_joins := [];
     p_where := Some (RAnd (key_is (col0 "user_id" TKey) k) success_cond);
     p_grouped := false;
     p_group := [];
     p_items :=
       [("login_time", XCol (col0 "login_time" TTime));
        ("logout_time", XCol (col0 "logout_time" TOpaque));
        ("session_duration", XCol (col0 "session_duration" TInt));
        ("ip_address", XCol (col0 "ip_address" TOpaque));
        ("user_agent", XCol (col0 "user_agent" TOpaque))];
     p_order := [(KOut "login_time", true)];
     p_limit := Some 30%nat;
     p_offset := 0 |}.

Definition user_id_param (req : request) : replacements :=
  [("userId", PStr (params_userId req))].

Definition time_field (name : string) (row : outrow) : Z :=
  match lookup name row with Some (VTime t) => t | _ => 0%Z end.

(** [rows] shows the [n] most recent of the [matching] records: at most
    [n] rows, each showing a matching record, latest first; a matching
    record that is not shown is no later than any row shown, and then
    [n] rows are shown. *)
Definition most_recent {A : Type} (n : nat) (time : A -> Z)
           (shows : A -> outrow -> Prop) (tfield : string)
           (matching : list A) (rows : list outrow) : Prop :=
  (length rows <= n)%nat
  /\ (forall row, In row rows -> exists a, In a matching /\ shows a row)
  /\ StronglySorted
       (fun r1 r2 => (time_field tfield r2 <= time_field tfield r1)%Z) rows
  /\ (forall a, In a matching ->
        (exists row, In row rows /\ shows a row)
        \/ (length rows = n
            /\ forall row, In row rows ->
                           (time a <= time_field tfield row)%Z)).

Definition generation_time (x : jrow) : Z :=
  match x with Some (RGen g) :: _ => g_created_at g | _ => 0%Z end.

Definition preview_record (g : generation) (row : outrow) : Prop :=
  exists template_name template_id,
    row = [("id", VKey (g_id g)); ("created_at", VTime (g_created_at g));
           ("status", g_status g);
           ("processing_time", g_processing_time g);
           ("template_name", template_name);
           ("template_id", template_id)].

Definition download_record (g : generation) (row : outrow) : Prop :=
  exists template_name template_id,
    row = [("id", VKey (g_id g)); ("created_at", VTime (g_created_at g));
           ("status", g_status g);
           ("payment_amount", g_payment_amount g);
           ("processing_time", g_processing_time g);
           ("template_name", template_name);
           ("template_id", template_id)].

Definition login_record (l : login_log) (row : outrow) : Prop :=
  row = [("login_time", VTime (l_login_time l));
         ("logout_time", l_logout_time l);
         ("session_duration", opt_int (l_session_duration l));
         ("ip_address", l_ip_address l);
         ("user_agent", l_user_agent l)].

Definition logged_in_as (k : Z) (l : login_log) : bool :=
  match l_user_id l with Some k' => (k' =? k)%Z | None => false end.

Definition login_time_of (x : jrow) : Z :=
  match x with Some (RLogin l) :: _ => l_login_time l | _ => 0%Z end.

(** ** Plans and predicates of /users *)

Definition search_cond (pattern : string) : rcond :=
  ROr (RCmp (RCol (col0 "username" TText)) CmpILike
            (RConst (VText pattern)))
      (RCmp (RCol (col0 "email" TText)) CmpILike (RConst (VText pattern))).

Definition users_where (pattern : string) (lo hi : option Z)
  : option rcond :=
  conj (search_cond pattern :: bounds (col0 "created_at" TTime) lo hi).

Definition users_plan (pattern : string) (lo hi : option Z)
           (limit offset : nat) : plan :=
  {| p_table := "users";
     p_joins := user_joins;
     p_where := users_where pattern lo hi;
     p_grouped := true;
     p_group := map snd user_columns;
     p_items :=
       user_columns ++
       [("preview_count",
         XCountDistinct (col_at 1 "id" TKey) preview_filter);
        ("download_count",
         XCountDistinct (col_at 1 "id" TKey) download_filter);
        ("total_generations", XCountDistinct (col_at 1 "id" TKey) None);
        ("login_count", XCountDistinct (col_at 2 "id" TKey) None);
        ("last_login_time", XMax (col_at 2 "login_time" TTime))];
     p_order := [(KIn (col0 "created_at" TTime), true)];
     p_limit := Some limit;
     p_offset := offset |}.

Definition users_count_plan (pattern : string) (lo hi : option Z) : plan :=
  count_plan "users" (users_where pattern lo hi) "total"
             (XCountDistinct (col0 "id" TKey) None).

(** The pattern the handler builds from the search parameter. *)
Definition search_pattern (req : request) : string :=
  "%" ++ string_of (default (q_search req) (JStr "")) ++ "%".

Definition page_of (req : request) : jsval :=
  default (q_page req) (JNum (Int 1)).

Definition limit_of (req : request) : jsval :=
  default (q_limit req) (JNum (Int 50)).

(** A parameter that both coercions of the handler, [Number] and
    [parseInt], read as the integer [n]. *)
Definition denotes (v : jsval) (n : Z) : Prop :=
  to_number v = Int n /\ parseInt v = Int n.

Definition user_matches (pattern : string) (lo hi : option Z) (u : user)
  : bool :=
  (ilike (u_username u) pattern || ilike (u_email u) pattern)
  && in_range lo hi (u_created_at u).

(** The number of users the count statement reports. *)
Definition users_total (pattern : string) (lo hi : option Z) (db : DB) : Z :=
  Z.of_nat (length (nodup Z.eq_dec
    (map u_id (filter (user_matches pattern lo hi) (users db))))).

(** [needle] occurs in [hay]. *)
Fixpoint contains (needle hay : string) : bool :=
  String.prefix needle hay
  || match hay with
     | EmptyString => false
     | String _ hay' => contains needle hay'
     end.

Definition is_meta (c : ascii) : bool :=
  Ascii.eqb c "%"%char || Ascii.eqb c "_"%char || Ascii.eqb c "\"%char.

(** A string without the characters LIKE gives a meaning to. *)
Fixpoint plain (s : string) : bool :=
  match s with
  | EmptyString => true
  | String c s' => negb (is_meta c) && plain s'
  end.

Definition user_record (u : user) (row : outrow) : Prop :=
  exists counts,
    row = [("id", VKey (u_id u)); ("username", VText (u_username u));
           ("email", VText (u_email u));
           ("registration_time", VTime (u_created_at u));
           ("last_login_at", u_last_login_at u);
           ("is_active", u_is_active u); ("is_admin", u_is_admin u);
           ("is_vip", u_is_vip u); ("vip_expiry", u_vip_expiry u);
           ("free_previews", u_free_previews u);
           ("balance", u_balance u)] ++ counts.

(** [s] occurs in the username or the email, letter case aside. *)
Definition found_by (s : string) (u : user) : bool :=
  contains (lower_string s) (lower_string (u_username u))
  || contains (lower_string s) (lower_string (u_email u)).

(** ** The statements the router can send *)

Definition users_filters : list string :=
  [""; " AND u.created_at >= :dateFrom"; " AND u.created_at <= :dateTo";
   " AND u.created_at >= :dateFrom AND u.created_at <= :dateTo"].

Definition created_filters : list string :=
  [""; " WHERE created_at >= :dateFrom"; " WHERE created_at <= :dateTo";
   " WHERE created_at >= :dateFrom AND created_at <= :dateTo"].

Definition login_filters : list string :=
  [""; " WHERE login_time >= :dateFrom"; " WHERE login_time <= :dateTo";
   " WHERE login_time >= :dateFrom AND login_time <= :dateTo"].

Definition duration_filters : list string :=
  map (fun tail => ("WHERE session_duration IS NOT NULL" ++ tail)%string)
      [""; " AND login_time >= :dateFrom"; " AND login_time <= :dateTo";
       " AND login_time >= :dateFrom AND login_time <= :dateTo";
       " AND user_id = :userId";
       " AND user_id = :userId AND login_time >= :dateFrom";
       " AND user_id = :userId AND login_time <= :dateTo";
       " AND user_id = :userId AND login_time >= :dateFrom AND login_time <= :dateTo"].

(** Every text a handler can pass to [sequelize.query], whatever the
    request. *)
Definition statements (e : endpoint) : list string :=
  match e with
  | GetUsers => map users_sql users_filters
                ++ map users_count_sql users_filters
  | GetUser => [user_info_sql; preview_records_sql; download_records_sql;
                login_records_sql]
  | GetRegistrations => map registrations_sql created_filters
  | GetLogins => map logins_sql login_filters
  | GetOnlineDuration => map online_duration_sql duration_filters
  | GetOverview => map total_users_sql created_filters
                   ++ map active_users_sql login_filters
                   ++ map total_previews_sql created_filters
                   ++ map total_downloads_sql created_filters
                   ++ map total_logins_sql login_filters
  end.

(** ** Computations that only read *)

Definition is_select (sql : string) : bool :=
  match tokenize sql with
  | t :: _ => t =? "SELECT"
  | [] => false
  end.

(** A computation that leaves the database as it was and sends SELECT
    statements only. *)
Definition read_only {A : Type} (m : M A) : Prop :=
  forall w,
    w_db (snd (m w)) = w_db w
    /\ exists qs, w_issued (snd (m w)) = w_issued w ++ qs
                  /\ Forall (fun q => is_select (fst q) = true) qs.

(** ** Plan and predicates of /online-duration *)

(** The key a userId parameter selects: none when the parameter is absent
    or empty, an error when the database rejects the literal. *)
Definition user_bound (o : option string) : result (option Z) :=
  match truthy o with
  | None => Ok None
  | Some s =>
      match key_in s with
      | Some k => Ok (Some k)
      | None => Error "invalid input syntax"
      end
  end.

Definition user_conds (uk : option Z) : list rcond :=
  match uk with
  | Some k => [key_is (col0 "user_id" TKey) k]
  | None => []
  end.

Definition online_plan (uk lo hi : option Z) : plan :=
  {| p_table := "login_logs";
     p_joins := [];
     p_where := conj (RNotNull (col0 "session_duration" TInt)
                        :: user_conds uk
                        ++ bounds (col0 "login_time" TTime) lo hi);
     p_grouped := true;
     p_group := [XCol (col0 "username" TText);
                 XDate (col0 "login_time" TTime)];
     p_items := [("username", XCol (col0 "username" TText));
                 ("date", XDate (col0 "login_time" TTime));
                 ("total_seconds", XSum (col0 "session_duration" TInt));
                 ("session_count", XCountStar)];
     p_order := [(KOut "date", true); (KOut "total_seconds", true)];
     p_limit := None;
     p_offset := 0 |}.

(** A login row that GET /online-duration counts: it has a session
    duration, belongs to the selected user if one is selected, and lies
    in the date range.  Its success flag plays no part. *)
Definition counted (uk lo hi : option Z) (l : login_log) : bool :=
  match l_session_duration l with Some _ => true | None => false end
  && match uk with Some k => logged_in_as k l | None => true end
  && in_range lo hi (l_login_time l).

Definition duration_of (l : login_log) : Z :=
  match l_session_duration l with Some d => d | None => 0%Z end.

Definition total_duration (ls : list login_log) : Z :=
  fold_right Z.add 0%Z (map duration_of ls).

Definition in_group (name : string) (d : Z) (l : login_log) : bool :=
  (l_username l =? name) && (DATE (l_login_time l) =? d)%Z.

Definition row_duration (r : jrow) : Z :=
  match r with
  | [Some (RLogin l)] => duration_of l
  | _ => 0%Z
  end.

(** ** Changes of the database a handler may not see *)

Definition on_db (T : DB -> DB) (w : world) : world :=
  {| w_db := T (w_db w); w_issued := w_issued w |}.

(** [m] computes the same from [T db] as from [db]. *)
Definition blind (T : DB -> DB) {A : Type} (m : M A) : Prop :=
  forall w, m (on_db T w) = (fst (m w), on_db T (snd (m w))).

Definition blind_sql (T : DB -> DB) (sql : string) : Prop :=
  forall repl db,
    pg_exec sql repl (T db)
    = (fst (pg_exec sql repl db), T (snd (pg_exec sql repl db))).

(** The database without the failed logins. *)
Definition only_successful (db : DB) : DB :=
  {| users := users db; generations := generations db;
     login_logs := filter l_login_success (login_logs db);
     templates := templates db |}.

Fixpoint cond_avoids (col : string) (c : rcond) : bool :=
  match c with
  | RCmp l _ r =>
      match l with RCol x => negb (c_col x =? col) | RConst _ => true end
      && match r with RCol x => negb (c_col x =? col) | RConst _ => true end
  | RNotNull x => negb (c_col x =? col)
  | RAnd a b | ROr a b => cond_avoids col a && cond_avoids col b
  end.

Definition expr_avoids (col : string) (e : rexpr) : bool :=
  match e with
  | XCol x | XDate x | XMax x | XSum x => negb (c_col x =? col)
  | XCountStar => true
  | XCountDistinct x f =>
      negb (c_col x =? col)
      && match f with Some c => cond_avoids col c | None => true end
  end.

Definition okey_avoids (col : string) (k : okey * bool) : bool :=
  match fst k with
  | KOut _ => true
  | KIn x => negb (c_col x =? col)
  end.

(** No condition, expression or sort key of the plan reads [col]. *)
Definition plan_avoids (col : string) (p : plan) : bool :=
  match p_where p with Some c => cond_avoids col c | None => true end
  && forallb (expr_avoids col) (p_group p)
  && forallb (fun it => expr_avoids col (snd it)) (p_items p)
  && forallb (okey_avoids col) (p_order p).

Definition set_success (b : bool) (l : login_log) : login_log :=
  {| l_id := l_id l; l_user_id := l_user_id l; l_username := l_username l;
     l_login_success := b; l_login_time := l_login_time l;
     l_logout_time := l_logout_time l;
     l_session_duration := l_session_duration l;
     l_ip_address := l_ip_address l; l_user_agent := l_user_agent l |}.

(** The database with the success flag of every login row set by [f]. *)
Definition with_flags (f : login_log -> bool) (db : DB) : DB :=
  {| users := users db; generations := generations db;
     login_logs := map (fun l => set_success (f l) l) (login_logs db);
     templates := templates db |}.

Definition reflag (f : login_log -> bool) (t : trow) : trow :=
  match t with
  | RLogin l => RLogin (set_success (f l) l)
  | _ => t
  end.

Definition reflag_row (f : login_log -> bool) (r : jrow) : jrow :=
  map (option_map (reflag f)) r.

(** ** Plan and predicate of /logins *)

Definition logins_plan (lo hi : option Z) : plan :=
  {| p_table := "login_logs";
     p_joins := [];
     p_where := conj (bounds (col0 "login_time" TTime) lo hi
                      ++ [success_cond]);
     p_grouped := true;
     p_group := [XDate (col0 "login_time" TTime)];
     p_items := [("date", XDate (col0 "login_time" TTime));
                 ("unique_users",
                  XCountDistinct (col0 "user_id" TKey) None);
                 ("total_logins", XCountStar)];
     p_order := [(KOut "date", true)];
     p_limit := None;
     p_offset := 0 |}.

(** A successful login in the range on day [d]. *)
Definition logged_on (lo hi : option Z) (d : Z) (l : login_log) : bool :=
  successful_in lo hi l && (DATE (l_login_time l) =? d)%Z.

(** ** Requests the database rejects *)

(** A parameter that is given, not empty, and not accepted by the input
    function of its column type. *)
Definition rejected (input : string -> option Z) (o : option string) : bool :=
  match truthy o with
  | Some s => match input s with Some _ => false | None => true end
  | None => false
  end.

(** The answer of every catch block. *)
Definition server_error : response :=
  {| status := 500; payload := BMessage "服务器内部错误" |}.

(** The answer of GET /users/:userId for an id no user has. *)
Definition not_found : response :=
  {| status := 404; payload := BMessage "用户不存在" |}.

(** The kind of body each endpoint passes to [res.json]. *)
Definition answer_of (e : endpoint) (b : body) : bool :=
  match e, b with
  | GetUsers, BUsers _ _
  | GetUser, BUserDetail _ _ _ _
  | GetRegistrations, BRegistrations _
  | GetLogins, BLogins _
  | GetOnlineDuration, BOnlineDuration _
  | GetOverview, BOverview _ => true
  | _, _ => false
  end.

(** What a handler answers outside its catch block. *)
Definition success_of (e : endpoint) (r : response) : Prop :=
  (status r = 200%nat /\ answer_of e (payload r) = true)
  \/ (e = GetUser /\ r = not_found).

(** Every response [m] returns satisfies [good]. *)
Definition returns (good : response -> Prop) (m : M response) : Prop :=
  forall w r w', m w = (Ok r, w') -> good r.

(** ** What a handler sends *)

(** Every statement [m] sends, with its replacements, satisfies [ok]. *)
Definition sends (ok : string -> replacements -> Prop) {A : Type} (m : M A)
  : Prop :=
  forall w, exists qs,
    w_issued (snd (m w)) = w_issued w ++ qs
    /\ Forall (fun q => ok (fst q) (snd q)) qs.

(** The names [:name] among the tokens of a statement. *)
Definition placeholders (sql : string) : list string :=
  flat_map (fun t => match t with
                     | String ":" (String c name) => [String c name]
                     | _ => []
                     end)
           (tokenize sql).

(** Every named parameter of the text has a value in the object. *)
Definition binds_all (sql : string) (repl : replacements) : bool :=
  forallb (fun name => match lookup name repl with
                       | Some _ => true
                       | None => false
                       end)
          (placeholders sql).

(** ** Paging of GET /users *)

(** The date conditions GET /users adds to its two statements, and
    the values it binds for them. *)
Definition users_date_filter (req : request) : string :=
  (match truthy (q_dateFrom req) with
   | Some _ => " AND u.created_at >= :dateFrom"
   | None => ""
   end
   ++ match truthy (q_dateTo req) with
      | Some _ => " AND u.created_at <= :dateTo"
      | None => ""
      end)%string.

Definition users_dates (req : request) : replacements :=
  match truthy (q_dateFrom req) with
  | Some d => [("dateFrom", PStr d)]
  | None => []
  end
  ++ match truthy (q_dateTo req) with
     | Some d => [("dateTo", PStr d)]
     | None => []
     end.

(** The row count a LIMIT or OFFSET value stands for: it has to be an
    integer that is not negative. *)
Definition row_count (n : number) : option nat :=
  match n with
  | Int z => if (z <? 0)%Z then None else Some (Z.to_nat z)
  | NegZero => Some 0%nat
  | _ => None
  end.

(** ** The rows of the user statements *)

(** What a LEFT JOIN pairs a row with: its matches, or NULL when it has
    none. *)
Definition options {A : Type} (l : list A) : list (option A) :=
  match l with
  | [] => [None]
  | _ => map Some l
  end.

Definition own_generations (db : DB) (u : user) : list generation :=
  filter (fun g => (g_user_id g =? u_id u)%Z) (generations db).

(** The successful logins of a user. *)
Definition own_logins (db : DB) (u : user) : list login_log :=
  filter (fun l => logged_in_as (u_id u) l && l_login_success l)
         (login_logs db).

(** The rows the two LEFT JOINs make of one user: one per pair of a
    generation and a successful login of that user. *)
Definition user_block (db : DB) (u : user) : list jrow :=
  flat_map (fun g =>
              map (fun l => [Some (RUser u); option_map RGen g;
                             option_map RLogin l])
                  (options (own_logins db u)))
           (options (own_generations db u)).

(** COUNT(DISTINCT ...) of a list of ids. *)
Definition distinct (ids : list Z) : Z :=
  Z.of_nat (length (nodup Z.eq_dec ids)).

(** MAX of a list of timestamps: NULL when there is none. *)
Fixpoint latest (ts : list Z) : sqlval :=
  match ts with
  | [] => VNull
  | t :: ts' =>
      match latest ts' with
      | VTime m => VTime (Z.max t m)
      | _ => VTime t
      end
  end.

Definition times (vs : list sqlval) : list Z :=
  flat_map (fun v => match v with VTime t => [t] | _ => [] end) vs.

(** The columns both user statements copy from the users table. *)
Definition user_fields (u : user) : outrow :=
  [("id", VKey (u_id u)); ("username", VText (u_username u));
   ("email", VText (u_email u));
   ("registration_time", VTime (u_created_at u));
   ("last_login_at", u_last_login_at u);
   ("is_active", u_is_active u); ("is_admin", u_is_admin u);
   ("is_vip", u_is_vip u); ("vip_expiry", u_vip_expiry u);
   ("free_previews", u_free_previews u); ("balance", u_balance u)].

(** The row of GET /users for a user. *)
Definition user_summary (db : DB) (u : user) : outrow :=
  user_fields u ++
  [("preview_count",
    VBig (distinct (map g_id (filter is_preview (own_generations db u)))));
   ("download_count",
    VBig (distinct (map g_id (filter is_download (own_generations db u)))));
   ("total_generations", VBig (distinct (map g_id (own_generations db u))));
   ("login_count", VBig (distinct (map l_id (own_logins db u))));
   ("last_login_time", latest (map l_login_time (own_logins db u)))].

(** The userInfo of GET /users/:userId for a user. *)
Definition user_profile (db : DB) (u : user) : outrow :=
  user_fields u ++
  [("subscription_type", u_subscription_type u);
   ("preview_count",
    VBig (distinct (map g_id (filter is_preview (own_generations db u)))));
   ("download_count",
    VBig (distinct (map g_id (filter is_download (own_generations db u)))));
   ("total_logins", VBig (distinct (map l_id (own_logins db u))))].

(** ORDER BY u.created_at DESC. *)
Definition newer_first (a b : user) : bool :=
  (u_created_at b <=? u_created_at a)%Z.

(** ** Results by day *)

(** ORDER BY date DESC. *)
Definition later_first (a b : Z) : bool := (b <=? a)%Z.

(** The days on which the timestamps fall, each once, latest first. *)
Definition days_desc (ts : list Z) : list Z :=
  sort later_first (nodup Z.eq_dec (map DATE ts)).

(** The row of GET /registrations for day [d]. *)
Definition registration_row (lo hi : option Z) (db : DB) (d : Z) : outrow :=
  [("date", VDate d);
   ("count",
    VBig (Z.of_nat (length (filter (registered_on lo hi d) (users db)))))].

(** The row of GET /logins for day [d]. *)
Definition login_day_row (lo hi : option Z) (db : DB) (d : Z) : outrow :=
  [("date", VDate d);
   ("unique_users",
    VBig (Z.of_nat (distinct_users
                      (filter (logged_on lo hi d) (login_logs db)))));
   ("total_logins",
    VBig (Z.of_nat (length (filter (logged_on lo hi d) (login_logs db)))))].

(** ** Rows of GET /online-duration *)

(** The GROUP BY key of a login row: user name and day. *)
Definition name_day (l : login_log) : string * Z :=
  (l_username l, DATE (l_login_time l)).

Definition name_day_dec (a b : string * Z) : {a = b} + {a <> b}.
Proof. decide equality; [apply Z.eq_dec|apply string_dec]. Defined.

(** The row of GET /online-duration for a user name and a day. *)
Definition online_row (uk lo hi : option Z) (db : DB) (k : string * Z)
  : outrow :=
  let sessions := filter (fun l => counted uk lo hi l
                                   && in_group (fst k) (snd k) l)
                         (login_logs db) in
  [("username", VText (fst k)); ("date", VDate (snd k));
   ("total_seconds", VBig (total_duration sessions));
   ("session_count", VBig (Z.of_nat (length sessions)))].

(** ORDER BY date DESC, total_seconds DESC on pairs of a day and a
    total. *)
Definition longer_first (a b : Z * Z) : bool :=
  (fst b <? fst a)%Z || ((fst b =? fst a)%Z && (snd b <=? snd a)%Z).

Definition online_total (uk lo hi : option Z) (db : DB) (k : string * Z) : Z :=
  total_duration (filter (fun l => counted uk lo hi l
                                   && in_group (fst k) (snd k) l)
                         (login_logs db)).

Definition online_leb (uk lo hi : option Z) (db : DB) (a b : string * Z)
  : bool :=
  longer_first (snd a, online_total uk lo hi db a)
               (snd b, online_total uk lo hi db b).


(** ** The records of a user with their template *)

(** The template a generation points to, when the table has it. *)
Definition template_of (db : DB) (g : generation) : option template :=
  match g_template_id g with
  | Some k => find (fun t => (t_id t =? k)%Z) (templates db)
  | None => None
  end.

(** The two template columns of a record: NULL without a template. *)
Definition template_fields (t : option template) : outrow :=
  match t with
  | Some t => [("template_name", t_name t); ("template_id", VKey (t_id t))]
  | None => [("template_name", VNull); ("template_id", VNull)]
  end.

(** A row of previewRecords. *)
Definition preview_row (db : DB) (g : generation) : outrow :=
  [("id", VKey (g_id g)); ("created_at", VTime (g_created_at g));
   ("status", g_status g); ("processing_time", g_processing_time g)]
  ++ template_fields (template_of db g).

(** A row of downloadRecords. *)
Definition download_row (db : DB) (g : generation) : outrow :=
  [("id", VKey (g_id g)); ("created_at", VTime (g_created_at g));
   ("status", g_status g); ("payment_amount", g_payment_amount g);
   ("processing_time", g_processing_time g)]
  ++ template_fields (template_of db g).

(** The row LEFT JOIN templates makes of a generation when template ids
    are unique. *)
Definition with_template (db : DB) (g : generation) : jrow :=
  [Some (RGen g); option_map RTemplate (template_of db g)].

(** ** Empty query parameters *)

(** The request with its empty dateFrom, dateTo, userId and search
    parameters taken away. *)
Definition without_blanks (req : request) : request :=
  {| q_page := q_page req; q_limit := q_limit req;
     q_search := truthy (q_search req);
     q_dateFrom := truthy (q_dateFrom req);
     q_dateTo := truthy (q_dateTo req);
     q_userId := truthy (q_userId req);
     params_userId := params_userId req |}.

(** ** A sample database and sample requests *)

(** An input function that accepts the literals written as decimal
    digits. *)
Definition digits_in (s : string) : option Z := number_token s.

Definition sample_user (id : Z) (name email : string) (created : Z) : user :=
  {| u_id := id; u_username := name; u_email := email; u_created_at := created;
     u_last_login_at := VNull; u_is_active := VBool true;
     u_is_admin := VBool false; u_is_vip := VBool false;
     u_vip_expiry := VNull; u_free_previews := VInt 3;
     u_balance := VOpaque "0.00"; u_subscription_type := VNull |}.

Definition sample_generation (id user : Z) (type : string) (paid : bool)
           (created : Z) : generation :=
  {| g_id := id; g_user_id := user; g_template_id := Some 1%Z;
     g_generation_type := type; g_is_paid := paid; g_created_at := created;
     g_status := VOpaque "completed"; g_processing_time := VNull;
     g_payment_amount := VNull |}.

Definition sample_login (id : Z) (user : option Z) (name : string)
           (success : bool) (time : Z) (duration : option Z) : login_log :=
  {| l_id := id; l_user_id := user; l_username := name;
     l_login_success := success; l_login_time := time;
     l_logout_time := VNull; l_session_duration := duration;
     l_ip_address := VNull; l_user_agent := VNull |}.

Definition alice : user := sample_user 1 "alice" "a@example.org" 100.

Definition sample_db : DB :=
  {| users := [alice; sample_user 2 "Bob" "bob@example.org" 90000;
               sample_user 3 "ALICIA" "c@example.org" 90001];
     generations :=
       [sample_generation 1 1 "preview" false 10;
        sample_generation 2 1 "preview" true 20;
        sample_generation 3 1 "paid" true 30;
        sample_generation 4 2 "paid" false 40];
     login_logs :=
       [sample_login 1 (Some 1%Z) "alice" true 100 (Some 60%Z);
        sample_login 2 (Some 1%Z) "alice" false 200 (Some 30%Z);
        sample_login 3 (Some 2%Z) "Bob" true 90000 None;
        sample_login 4 None "eve" false 5 (Some 7%Z)];
     templates := [{| t_id := 1; t_name := VOpaque "portrait" |}] |}.

Definition sample_world : world := {| w_db := sample_db; w_issued := [] |}.

(** A request with no query parameter, for the user with id [userId]. *)
Definition plain_request (userId : string) : request :=
  {| q_page := None; q_limit := None; q_search := None; q_dateFrom := None;
     q_dateTo := None; q_userId := None; params_userId := userId |}.

(** [?dateFrom=0] *)
Definition since_zero : request :=
  {| q_page := None; q_limit := None; q_search := None;
     q_dateFrom := Some "0"; q_dateTo := None; q_userId := None;
     params_userId := "1" |}.

(** [?page=2&limit=2] *)
Definition second_page : request :=
  {| q_page := Some "2"; q_limit := Some "2"; q_search := None;
     q_dateFrom := None; q_dateTo := None; q_userId := None;
     params_userId := "1" |}.

(** [?search=ali] *)
Definition search_ali : request :=
  {| q_page := None; q_limit := None; q_search := Some "ali";
     q_dateFrom := None; q_dateTo := None; q_userId := None;
     params_userId := "1" |}.

(** [?search=lice] *)
Definition search_lice : request :=
  {| q_page := None; q_limit := None; q_search := Some "lice";
     q_dateFrom := None; q_dateTo := None; q_userId := None;
     params_userId := "1" |}.

Definition sample_overview : overview :=
  {| total_users := Int 3; active_users := Int 2; total_previews := Int 2;
     total_downloads := Int 3; total_logins := Int 2 |}.

(** [?dateFrom=not-a-date] *)
Definition bad_date : request :=
  {| q_page := None; q_limit := None; q_search := None;
     q_dateFrom := Some "not-a-date"; q_dateTo := None; q_userId := None;
     params_userId := "1" |}.

(** [?userId=abc] *)
Definition bad_user_filter : request :=
  {| q_page := None; q_limit := None; q_search := None;
     q_dateFrom := None; q_dateTo := None; q_userId := Some "abc";
     params_userId := "1" |}.

(** [?page=0] *)
Definition page_zero : request :=
  {| q_page := Some "0"; q_limit := None; q_search := None;
     q_dateFrom := None; q_dateTo := None; q_userId := None;
     params_userId := "1" |}.

(** [?limit=0] *)
Definition limit_zero : request :=
  {| q_page := None; q_limit := Some "0"; q_search := None;
     q_dateFrom := None; q_dateTo := None; q_userId := None;
     params_userId := "1" |}.

(** [?search=ALI] *)
Definition search_upper : request :=
  {| q_page := None; q_limit := None; q_search := Some "ALI";
     q_dateFrom := None; q_dateTo := None; q_userId := None;
     params_userId := "1" |}.

(** ** Lists: insertion sort, groups *)

Lemma insert_sorted_perm {A : Type} (le : A -> A -> bool) x l :
  Permutation (insert_sorted le x l) (x :: l).
Proof.
  induction l as [|y l IH]; simpl.
  - reflexivity.
  - destruct (le x y).
    + reflexivity.
    + rewrite IH. apply perm_swap.
Qed.

Lemma sort_perm {A : Type} (le : A -> A -> bool) l :
  Permutation (sort le l) l.
Proof.
  induction l as [|x l IH]; simpl.
  - reflexivity.
  - rewrite insert_sorted_perm. now apply perm_skip.
Qed.

Lemma sort_In {A : Type} (le : A -> A -> bool) l x :
  In x (sort le l) <-> In x l.
Proof.
  split; apply Permutation_in; [|symmetry]; apply sort_perm.
Qed.

Lemma insert_sorted_sorted {A : Type} (le : A -> A -> bool) (P : A -> Prop) :
  (forall x y, P x -> P y -> le x y = false -> le y x = true) ->
  (forall x y z, P x -> P y -> P z ->
                 le x y = true -> le y z = true -> le x z = true) ->
  forall x l, P x -> Forall P l ->
    StronglySorted (fun a b => le a b = true) l ->
    StronglySorted (fun a b => le a b = true) (insert_sorted le x l).
Proof.
  intros total trans x l Px Pl Hs.
  induction Hs as [|y l Hs IH Hy]; simpl.
  - repeat constructor.
  - inversion Pl as [|? ? Py Pl']; subst.
    destruct (le x y) eqn:E.
    + constructor; [now constructor|].
      constructor; [exact E|].
      rewrite Forall_forall in *. intros z Hz.
      apply (trans x y z); auto.
    + constructor; [now apply IH|].
      rewrite Forall_forall in *. intros z Hz.
      apply (Permutation_in _ (insert_sorted_perm le x l)) in Hz.
      destruct Hz as [<-|Hz]; auto.
Qed.

Lemma sort_sorted {A : Type} (le : A -> A -> bool) (P : A -> Prop) :
  (forall x y, P x -> P y -> le x y = false -> le y x = true) ->
  (forall x y z, P x -> P y -> P z ->
                 le x y = true -> le y z = true -> le x z = true) ->
  forall l, Forall P l ->
    StronglySorted (fun a b => le a b = true) (sort le l).
Proof.
  intros total trans l Pl.
  induction Pl as [|x l Px Pl IH]; simpl.
  - constructor.
  - apply (insert_sorted_sorted le P); auto.
    rewrite Forall_forall in *. intros y Hy.
    apply sort_In in Hy. auto.
Qed.

Lemma sort_nil_order {A : Type} (le : A -> A -> bool) l :
  (forall x y, le x y = true) -> sort le l = l.
Proof.
  intros H. induction l as [|x l IH]; simpl; [reflexivity|].
  rewrite IH. destruct l; simpl; [reflexivity|]. now rewrite H.
Qed.

Section CountByKey.
Context {A K : Type} (key : A -> K) (eqb : K -> A -> bool).
Hypothesis eqb_spec : forall k a, eqb k a = true <-> key a = k.

Local Abbreviation total := (count_per_key eqb).

Lemma count_other_key ks a l :
  ~ In (key a) ks -> total ks (a :: l) = total ks l.
Proof.
  unfold count_per_key. induction ks as [|k ks IH]; intros Hn; simpl in *.
  - reflexivity.
  - destruct (eqb k a) eqn:E.
    + apply eqb_spec in E. exfalso. apply Hn. now left.
    + rewrite IH; [reflexivity|]. intros Hc. apply Hn. now right.
Qed.

Lemma count_own_key ks a l :
  NoDup ks -> In (key a) ks -> total ks (a :: l) = S (total ks l).
Proof.
  unfold count_per_key. induction ks as [|k ks IH]; intros Hnd Hin.
  - contradiction.
  - inversion Hnd as [|? ? Hnk Hnd']; subst. simpl in *.
    destruct (eqb k a) eqn:E.
    + apply eqb_spec in E. subst k. simpl. f_equal. f_equal.
      now apply (count_other_key ks a l).
    + destruct Hin as [Hk|Hk].
      * subst k. assert (eqb (key a) a = true) by now apply eqb_spec.
        congruence.
      * rewrite IH by assumption. now rewrite Nat.add_succ_r.
Qed.

(** Counting the rows of every key of a duplicate-free list of keys
    counts every row once. *)
Lemma count_by_key ks l :
  NoDup ks -> (forall a, In a l -> In (key a) ks) ->
  total ks l = length l.
Proof.
  intros Hnd. induction l as [|a l IH]; intros Hin.
  - unfold count_per_key. simpl. clear. induction ks; simpl; auto.
  - rewrite count_own_key; auto.
    + simpl. f_equal. apply IH. intros. apply Hin. now right.
    + apply Hin. now left.
Qed.
End CountByKey.

Lemma same_key_spec es k r : same_key es k r = true <-> group_key es r = k.
Proof.
  unfold same_key. destruct (key_eq_dec (group_key es r) k); split;
    intros; congruence.
Qed.

Lemma group_by_lengths es rows :
  fold_right Nat.add 0%nat (map (@length jrow) (group_by es rows))
  = length rows.
Proof.
  unfold group_by. rewrite map_map.
  apply (count_by_key (group_key es) (same_key es)).
  - intros. apply same_key_spec.
  - apply NoDup_nodup.
  - intros a Ha. apply nodup_In. now apply in_map.
Qed.

(** Every group of [group_by] is a non-empty class of rows of one key. *)
Lemma group_by_In es rows g :
  In g (group_by es rows) ->
  exists r, In r rows /\ g = filter (same_key es (group_key es r)) rows.
Proof.
  unfold group_by. intros H. apply in_map_iff in H.
  destruct H as (k & <- & Hk). apply nodup_In in Hk.
  apply in_map_iff in Hk. destruct Hk as (r & <- & Hr). eauto.
Qed.

Lemma group_by_nonempty es rows :
  rows <> [] -> group_by es rows <> [].
Proof.
  intros Hne. destruct rows as [|r rows]; [congruence|].
  unfold group_by. intros H. apply map_eq_nil in H.
  assert (Hin : In (group_key es r) (nodup key_eq_dec
                     (map (group_key es) (r :: rows))))
    by (apply nodup_In; now left).
  rewrite H in Hin. contradiction.
Qed.

(** ** The shape of a result *)

Lemma in_firstn {A : Type} n (l : list A) x : In x (firstn n l) -> In x l.
Proof.
  intros H. rewrite <- (firstn_skipn n l). apply in_or_app. now left.
Qed.

Lemma in_skipn {A : Type} n (l : list A) x : In x (skipn n l) -> In x l.
Proof.
  intros H. rewrite <- (firstn_skipn n l). apply in_or_app. now right.
Qed.


Lemma run_plan_In p db row :
  In row (run_plan p db) ->
  exists g, In g (plan_groups p db) /\ row = out_of p g.
Proof.
  unfold run_plan. intros H. apply in_map_iff in H.
  destruct H as ((g & o) & <- & H).
  assert (H' : In (g, o) (skipn (p_offset p)
            (sort (order_leb p)
               (map (fun g => (g, out_of p g)) (plan_groups p db))))).
  { destruct (p_limit p); simpl in H; [|exact H].
    eapply in_firstn; eauto. }
  apply in_skipn, sort_In, in_map_iff in H'.
  destruct H' as (g' & E & Hg). inversion E; subst. eauto.
Qed.

Lemma run_plan_unlimited p db :
  p_limit p = None -> p_offset p = 0%nat ->
  Permutation (run_plan p db) (map (out_of p) (plan_groups p db)).
Proof.
  intros Hl Ho. unfold run_plan. rewrite Hl, Ho. simpl.
  rewrite sort_perm, map_map. simpl. reflexivity.
Qed.

(** An aggregate without GROUP BY gives exactly one row. *)
Lemma run_plan_aggregate p db :
  p_grouped p = true -> p_group p = [] ->
  p_limit p = None -> p_offset p = 0%nat ->
  run_plan p db = [out_of p (filtered_rows p db)].
Proof.
  intros Hg He Hl Ho. unfold run_plan, groups_of.
  rewrite Hg, He, Hl, Ho. simpl.
  reflexivity.
Qed.

Lemma sum_field_perm name l l' :
  Permutation l l' -> sum_field name l = sum_field name l'.
Proof.
  unfold sum_field. induction 1; simpl; try lia. 
Qed.

Lemma length_filter_map {A B : Type} (f : A -> B) (p : B -> bool) l :
  length (filter p (map f l)) = length (filter (fun a => p (f a)) l).
Proof.
  induction l as [|a l IH]; simpl; [reflexivity|].
  destruct (p (f a)); simpl; congruence.
Qed.

Lemma filter_map_comm {A B : Type} (f : A -> B) (p : B -> bool) l :
  filter p (map f l) = map f (filter (fun a => p (f a)) l).
Proof.
  induction l as [|a l IH]; simpl; [reflexivity|].
  destruct (p (f a)); simpl; congruence.
Qed.

Lemma filter_and {A : Type} (f g : A -> bool) l :
  filter f (filter g l) = filter (fun a => g a && f a) l.
Proof.
  induction l as [|a l IH]; simpl; [reflexivity|].
  destruct (g a); simpl; [destruct (f a)|]; congruence.
Qed.

(** ** Plans of the statements with a date range *)

Lemma holds_and a b jr : holds (RAnd a b) jr = holds a jr && holds b jr.
Proof.
  unfold holds. simpl.
  destruct (eval_cond a jr) as [[]|], (eval_cond b jr) as [[]|];
    reflexivity.
Qed.

Lemma holds_or a b jr : holds (ROr a b) jr = holds a jr || holds b jr.
Proof.
  unfold holds. simpl.
  destruct (eval_cond a jr) as [[]|], (eval_cond b jr) as [[]|];
    reflexivity.
Qed.

Lemma holds_conj cs jr :
  holds_opt (conj cs) jr = forallb (fun c => holds c jr) cs.
Proof.
  induction cs as [|c cs IH]; simpl; [reflexivity|].
  destruct (conj cs) as [r|]; simpl in *.
  - now rewrite holds_and, IH.
  - rewrite <- IH. now rewrite andb_true_r.
Qed.

Lemma holds_bounds c lo hi jr t :
  col_value jr c = VTime t ->
  forallb (fun x => holds x jr) (bounds c lo hi) = in_range lo hi t.
Proof.
  intros H. unfold in_range, bounds.
  destruct lo as [a|], hi as [b|]; simpl; unfold holds; simpl;
    rewrite ?H; simpl;
    repeat match goal with
           | |- context [(?x <=? ?y)%Z] => destruct (x <=? y)%Z
           end; reflexivity.
Qed.

Lemma holds_range c lo hi jr t :
  col_value jr c = VTime t ->
  holds_opt (range_cond c lo hi) jr = in_range lo hi t.
Proof.
  intros H. unfold range_cond. rewrite holds_conj.
  now apply holds_bounds.
Qed.

(** Evaluating [parse_stmt] on the closed text of a statement. *)
Ltac parse_text :=
  match goal with
  | |- context [parse_stmt ?s] =>
      let v := eval vm_compute in (parse_stmt s) in
      replace (parse_stmt s) with v by (vm_compute; reflexivity)
  end.

Ltac split_bound H :=
  unfold date_bound in H;
  match type of H with
  | context [truthy ?o] =>
      let d := fresh "d" in
      let E := fresh "E" in
      destruct (truthy o) as [d|] eqn:E;
      [ let t := fresh "t" in
        let Et := fresh "Et" in
        destruct (timestamp_in d) as [t|] eqn:Et;
        [ injection H as <- | discriminate H ]
      | injection H as <- ]
  end.

Lemma registrations_run req w lo hi :
  date_bound (q_dateFrom req) = Ok lo ->
  date_bound (q_dateTo req) = Ok hi ->
  exists q,
    registrations_handler req w =
      (Ok {| status := 200;
             payload := BRegistrations
                          (run_plan (registrations_plan lo hi) (w_db w)) |},
       {| w_db := w_db w; w_issued := w_issued w ++ [q] |}).
Proof.
  intros Hlo Hhi. split_bound Hlo; split_bound Hhi;
    eexists; unfold registrations_handler;
    rewrite ?E, ?E0; cbn;
    unfold try_catch, bind, sequelize_query, pg_exec;
    parse_text; cbn; rewrite ?Et, ?Et0; cbn; reflexivity.
Qed.

(** A group starts with one of the rows and holds the rows of its key. *)
Lemma group_by_shape es rows g :
  In g (group_by es rows) ->
  exists r0 rest, g = r0 :: rest /\ In r0 rows
                  /\ g = filter (same_key es (group_key es r0)) rows.
Proof.
  intros H. apply group_by_In in H. destruct H as (r & Hr & Hg).
  assert (Hin : In r g).
  { rewrite Hg. apply filter_In. split; [exact Hr|].
    now apply same_key_spec. }
  destruct g as [|r0 rest]; [contradiction|].
  exists r0, rest. split; [reflexivity|].
  assert (H0 : In r0 (filter (same_key es (group_key es r)) rows))
    by (rewrite <- Hg; now left).
  apply filter_In in H0. destruct H0 as [H0 Hk].
  apply same_key_spec in Hk. split; [exact H0|]. now rewrite Hk.
Qed.

Lemma registrations_rows lo hi db :
  filtered_rows (registrations_plan lo hi) db
  = map user_row (filter (fun u => in_range lo hi (u_created_at u))
                         (users db)).
Proof.
  unfold filtered_rows. cbn. rewrite map_map, filter_map_comm. f_equal.
  apply filter_ext. intros u. now apply holds_range.
Qed.

(** C6. For every valid date range GET /registrations answers 200 with
    one row per day; each count is the (positive) number of users
    created on that day within the range, and the counts add up to the
    number of users created within the range. *)
Theorem registrations_counts req w lo hi :
  date_bound (q_dateFrom req) = Ok lo ->
  date_bound (q_dateTo req) = Ok hi ->
  exists rows w',
    registrations_handler req w
      = (Ok {| status := 200; payload := BRegistrations rows |}, w')
    /\ (forall row, In row rows ->
          exists d n,
            row = [("date", VDate d); ("count", VBig n)]
            /\ (0 <= n)%Z
            /\ n = Z.of_nat (length (filter (registered_on lo hi d)
                                            (users (w_db w)))))
    /\ sum_field "count" rows
       = Z.of_nat (length (filter (fun u => in_range lo hi (u_created_at u))
                                  (users (w_db w)))).
Proof.
  intros Hlo Hhi.
  destruct (registrations_run req w lo hi Hlo Hhi) as (q & Hrun).
  eexists _, _. split; [exact Hrun|]. clear Hrun. split.
  - intros row Hrow. apply run_plan_In in Hrow.
    destruct Hrow as (g & Hg & ->).
    unfold plan_groups in Hg. rewrite registrations_rows in Hg.
    cbn in Hg. apply group_by_shape in Hg.
    destruct Hg as (r0 & rest & Hcons & Hr0 & Hg).
    apply in_map_iff in Hr0. destruct Hr0 as (u & <- & Hu).
    exists (DATE (u_created_at u)), (Z.of_nat (length (user_row u :: rest))).
    rewrite Hcons. split; [reflexivity|]. split; [lia|].
    f_equal. rewrite <- Hcons, Hg, length_filter_map.
    rewrite filter_and. f_equal. apply filter_ext. intros u'.
    unfold registered_on. f_equal.
    destruct (DATE (u_created_at u') =? DATE (u_created_at u))%Z eqn:E.
    + apply same_key_spec. cbn. apply Z.eqb_eq in E. now rewrite E.
    + destruct (same_key _ _ _) eqn:S; [|reflexivity].
      apply same_key_spec in S. cbn in S. apply Z.eqb_neq in E.
      now inversion S.
  - rewrite (sum_field_perm _ _ _
               (run_plan_unlimited (registrations_plan lo hi) (w_db w)
                                   eq_refl eq_refl)).
    unfold plan_groups. rewrite registrations_rows. cbn.
    rewrite <- (length_map user_row).
    rewrite <- (group_by_lengths [XDate (col0 "created_at" TTime)]).
    generalize (group_by [XDate (col0 "created_at" TTime)]
                  (map user_row
                     (filter (fun u => in_range lo hi (u_created_at u))
                             (users (w_db w))))).
    intros gs. unfold sum_field. induction gs as [|g gs IH]; simpl.
    + reflexivity.
    + rewrite IH. unfold big_field. simpl. lia.
Qed.

(** ** Reading back the digits the driver prints *)

Ltac ascii_cases c :=
  destruct c as [[] [] [] [] [] [] [] []].

Lemma digit_val_char d :
  (0 <= d < 10)%Z -> digit_val (digit_char d) = Some d.
Proof.
  intros H.
  assert (E : (d = 0 \/ d = 1 \/ d = 2 \/ d = 3 \/ d = 4 \/ d = 5
               \/ d = 6 \/ d = 7 \/ d = 8 \/ d = 9)%Z) by lia.
  repeat (destruct E as [-> | E]; [reflexivity|]). subst. reflexivity.
Qed.

Lemma digits_of_read fuel :
  forall n acc a,
    (0 <= n < 10 ^ Z.of_nat fuel)%Z ->
    exists k, digits_val (digits_of fuel n acc) a
              = digits_val acc (a * 10 ^ Z.of_nat k + n)%Z.
Proof.
  induction fuel as [|fuel IH]; intros n acc a Hn.
  - exists 0%nat. simpl in *. f_equal. lia.
  - cbn [digits_of]. destruct (n <? 10)%Z eqn:E.
    + apply Z.ltb_lt in E. exists 1%nat. cbn [digits_val].
      rewrite Z.mod_small by lia. rewrite digit_val_char by lia.
      f_equal. change (10 ^ Z.of_nat 1)%Z with 10%Z. lia.
    + apply Z.ltb_ge in E.
      assert (Hq : (0 <= n / 10 < 10 ^ Z.of_nat fuel)%Z).
      { split; [apply Z.div_pos; lia|].
        apply Z.div_lt_upper_bound; [lia|].
        rewrite Nat2Z.inj_succ, Z.pow_succ_r in Hn by lia. lia. }
      destruct (IH (n / 10)%Z (String (digit_char (n mod 10)) acc) a Hq)
        as (k & Hk).
      exists (S k). rewrite Hk. cbn [digits_val].
      rewrite digit_val_char by (apply Z.mod_pos_bound; lia).
      f_equal. rewrite Nat2Z.inj_succ, Z.pow_succ_r by lia.
      pose proof (Z.div_mod n 10). lia.
Qed.

Lemma digits_of_nonempty fuel n c acc :
  digits_of fuel n (String c acc) <> "".
Proof.
  revert n c acc. induction fuel as [|fuel IH]; intros n c acc; simpl.
  - discriminate.
  - destruct (n <? 10)%Z; [discriminate|apply IH].
Qed.

Lemma decimal_digits n :
  (0 <= n)%Z -> decimal n <> "" /\ digits_val (decimal n) 0%Z = Some n.
Proof.
  intros Hn. unfold decimal.
  destruct (n <? 0)%Z eqn:E; [apply Z.ltb_lt in E; lia|]. split.
  - cbn [digits_of]. destruct (n <? 10)%Z;
      [discriminate|apply digits_of_nonempty].
  - assert (Hb : (0 <= n < 10 ^ Z.of_nat (S (Z.to_nat (Z.log2 n))))%Z).
    { split; [lia|]. rewrite Nat2Z.inj_succ, Z2Nat.id
        by apply Z.log2_nonneg.
      destruct (Z.eq_dec n 0) as [->|Hz]; [reflexivity|].
      pose proof (Z.log2_spec n ltac:(lia)) as [_ Hlt].
      eapply Z.lt_le_trans; [exact Hlt|].
      apply Z.pow_le_mono_l. lia. }
    destruct (digits_of_read _ n "" 0%Z Hb) as (k & Hk).
    rewrite Hk. reflexivity.
Qed.

Lemma digits_prefix_all s :
  forall a n, digits_val s a = Some n -> digits_prefix s (Some a) = Some n.
Proof.
  induction s as [|c s IH]; intros a n H; simpl in *.
  - exact H.
  - destruct (digit_val c); [|discriminate]. now apply IH.
Qed.

Lemma digit_char_cases c :
  digit_val c <> None ->
  In c ["0"; "1"; "2"; "3"; "4"; "5"; "6"; "7"; "8"; "9"]%char.
Proof.
  ascii_cases c; intros H;
    try (exfalso; apply H; reflexivity);
    simpl; repeat (try (left; reflexivity); right).
Qed.

Ltac digit_cases H :=
  apply digit_char_cases in H; simpl in H;
  repeat (destruct H as [<- | H]); [..|contradiction].

Lemma blank_digit c s : digit_val c <> None -> blank (String c s) = false.
Proof. intros Hd. digit_cases Hd; reflexivity. Qed.

Lemma trim_right_digits s :
  forall a n, digits_val s a = Some n -> trim_right s = s.
Proof.
  induction s as [|c s IH]; intros a n H; [reflexivity|].
  simpl in H. destruct (digit_val c) eqn:Ec; [|discriminate].
  cbn [trim_right]. rewrite blank_digit by congruence.
  now rewrite (IH _ _ H).
Qed.

Lemma scan_digits_all s :
  forall a k n,
    digits_val s a = Some n ->
    scan_digits s a k = (n, (k + String.length s)%nat, "").
Proof.
  induction s as [|c s IH]; intros a k n H; simpl in *.
  - injection H as <-. now rewrite Nat.add_0_r.
  - destruct (digit_val c); [|discriminate].
    rewrite (IH _ _ _ H). now rewrite Nat.add_succ_r.
Qed.

(** A string of digits is a decimal literal of the value it spells. *)
Lemma signed_digits c s n :
  digits_val (String c s) 0%Z = Some n ->
  signed_literal false (String c s) = Int n.
Proof.
  intros H.
  assert (Hd : digit_val c <> None)
    by (simpl in H; destruct (digit_val c); congruence).
  unfold signed_literal, decimal_literal.
  rewrite (scan_digits_all _ _ 0%nat _ H).
  replace (String c s =? "Infinity") with false
    by (digit_cases Hd; reflexivity).
  cbn. unfold of_ratio. rewrite Z.mul_1_r, Z.mod_1_r, Z.div_1_r. cbn.
  destruct (Z.eqb_spec n 0) as [->|_]; reflexivity.
Qed.

(** [parseInt] returns no fraction. *)
Lemma parseInt_whole v m e : parseInt v <> Fin m e.
Proof.
  destruct v as [| |s|[z|m' e'| | | |]|]; cbn; try discriminate.
  - unfold parseInt_string.
    destruct (trim_left s) as [|c s']; [discriminate|].
    repeat match goal with
           | |- context [match ?x with _ => _ end] =>
               destruct x; try discriminate
           end; unfold minus;
      repeat match goal with
             | |- context [if ?x then _ else _] =>
                 destruct x; try discriminate
             end.
  - unfold parseInt_fraction.
    destruct (shortest (Z.abs m') (2 ^ (- e'))) as [s p].
    unfold zero, signed.
    repeat match goal with
           | |- context [if ?x then _ else _] =>
               destruct x; try discriminate
           end.
Qed.

(** A string of digits has no radix prefix. *)
Lemma radix_digits c s n :
  digits_val (String c s) 0%Z = Some n ->
  radix_literal (String c s) = None.
Proof.
  intros H.
  assert (Hd : digit_val c <> None)
    by (simpl in H; destruct (digit_val c); congruence).
  assert (Hx : match s with
               | String x _ => digit_val x <> None
               | EmptyString => True
               end).
  { simpl in H. destruct (digit_val c); [|discriminate].
    destruct s as [|x s]; [exact I|]. simpl in H.
    destruct (digit_val x); [discriminate|discriminate H]. }
  clear H. digit_cases Hd; try reflexivity.
  destruct s as [|x [|d r]]; try reflexivity.
  digit_cases Hx; reflexivity.
Qed.

(** [parseInt] and [Number] read a non-empty string of digits as the
    number it spells. *)
Lemma read_digits s n :
  s <> "" -> digits_val s 0%Z = Some n ->
  parseInt (JStr s) = Int n /\ to_number (JStr s) = Int n.
Proof.
  intros Hne H. destruct s as [|c s]; [congruence|].
  pose proof (trim_right_digits _ _ _ H) as Htr.
  pose proof (signed_digits _ _ _ H) as Hs.
  pose proof (radix_digits _ _ _ H) as Hr.
  assert (Hp : digits_prefix (String c s) None = Some n).
  { simpl in *. destruct (digit_val c); [|discriminate].
    now apply digits_prefix_all. }
  assert (Hx : match s with
               | String x _ => digit_val x <> None
               | EmptyString => True
               end).
  { simpl in H. destruct (digit_val c); [|discriminate].
    destruct s as [|x s]; [exact I|]. simpl in H.
    destruct (digit_val x); [discriminate|discriminate H]. }
  assert (Hd : digit_val c <> None)
    by (simpl in H; destruct (digit_val c); congruence).
  cbn [parseInt to_number]. unfold parseInt_string, number_of_string.
  clear H Hne.
  digit_cases Hd;
    match goal with
    | |- context [trim_left ?t] => change (trim_left t) with t
    end;
    rewrite Htr, Hr, Hs; cbn [unsigned_prefix];
    try (rewrite Hp; split; reflexivity).
  destruct s as [|x s].
  - rewrite Hp. split; reflexivity.
  - digit_cases Hx; rewrite Hp; split; reflexivity.
Qed.

Lemma read_decimal n :
  (0 <= n)%Z ->
  parseInt (JStr (decimal n)) = Int n
  /\ to_number (JStr (decimal n)) = Int n.
Proof.
  intros Hn. destruct (decimal_digits n Hn). now apply read_digits.
Qed.

(** ** GET /logins and GET /overview without a date *)

Ltac run_handler :=
  unfold try_catch, bind, sequelize_query, pg_exec;
  repeat parse_text; cbn.

(** C1. With neither dateFrom nor dateTo (absent or empty) the statement
    of GET /logins reads [FROM login_logs AND login_success = true]: it
    is rejected as a syntax error and the handler answers 500. *)
Theorem logins_without_dates req w :
  truthy (q_dateFrom req) = None ->
  truthy (q_dateTo req) = None ->
  parse_stmt (logins_sql "") = None
  /\ logins_handler req w
     = (Ok {| status := 500; payload := BMessage "服务器内部错误" |},
        {| w_db := w_db w;
           w_issued := w_issued w ++ [(logins_sql "", [])] |}).
Proof.
  intros H1 H2. split; [vm_compute; reflexivity|].
  unfold logins_handler. rewrite H1, H2. cbn.
  run_handler. reflexivity.
Qed.

(** C2. With neither dateFrom nor dateTo GET /overview counts the users,
    then sends [FROM login_logs AND login_success = true] for the active
    users: the statement is rejected and the handler answers 500. *)
Theorem overview_without_dates req w :
  truthy (q_dateFrom req) = None ->
  truthy (q_dateTo req) = None ->
  parse_stmt (active_users_sql "") = None
  /\ overview_handler req w
     = (Ok {| status := 500; payload := BMessage "服务器内部错误" |},
        {| w_db := w_db w;
           w_issued := w_issued w ++ [(total_users_sql "", []);
                                      (active_users_sql "", [])] |}).
Proof.
  intros H1 H2. split; [vm_compute; reflexivity|].
  unfold overview_handler. rewrite H1, H2. cbn.
  run_handler. rewrite run_plan_aggregate by reflexivity. cbn.
  unfold internal_error, status_json, ret.
  rewrite <- app_assoc. reflexivity.
Qed.

(** ** GET /overview with a date *)

Arguments filtered_rows : simpl never.
Arguments decimal : simpl never.
Arguments parseInt : simpl never.

Lemma single_table_rows p db :
  p_joins p = [] ->
  filtered_rows p db
  = filter (holds_opt (p_where p))
           (map (fun r => [Some r]) (rows_of db (p_table p))).
Proof.
  intros H. unfold filtered_rows, joined_rows. now rewrite H.
Qed.

Lemma users_rows p lo hi db :
  p_table p = "users" -> p_joins p = [] ->
  p_where p = range_cond (col0 "created_at" TTime) lo hi ->
  filtered_rows p db
  = map user_row (filter (fun u => in_range lo hi (u_created_at u))
                         (users db)).
Proof.
  intros Ht Hj Hw. rewrite single_table_rows, Ht, Hw by assumption.
  cbn [rows_of table_rows String.eqb Ascii.eqb Bool.eqb].
  rewrite map_map, filter_map_comm. f_equal.
  apply filter_ext. intros u. now apply holds_range.
Qed.

(** Rows of a table with a timestamp column [c] that pass the bounds
    and one more condition. *)
Lemma holds_bounds_and c lo hi extra jr t :
  col_value jr c = VTime t ->
  holds_opt (conj (bounds c lo hi ++ [extra])) jr
  = in_range lo hi t && holds extra jr.
Proof.
  intros H. rewrite holds_conj, forallb_app, (holds_bounds c lo hi jr t H).
  simpl. now rewrite andb_true_r.
Qed.

Lemma holds_success l : holds success_cond (login_row l) = l_login_success l.
Proof. unfold holds. cbn. now destruct (l_login_success l). Qed.

Lemma holds_preview g : holds preview_cond (generation_row g) = is_preview g.
Proof.
  unfold holds, is_preview. cbn.
  now destruct (g_generation_type g =? "preview").
Qed.

Lemma holds_paid g : holds paid_cond (generation_row g) = is_download g.
Proof.
  unfold paid_cond, is_download. rewrite holds_or. unfold holds. cbn.
  destruct (g_generation_type g =? "paid"), (g_is_paid g); reflexivity.
Qed.

Lemma successful_rows p lo hi db :
  p_table p = "login_logs" -> p_joins p = [] ->
  p_where p = conj (bounds (col0 "login_time" TTime) lo hi
                    ++ [success_cond]) ->
  filtered_rows p db
  = map login_row (filter (successful_in lo hi) (login_logs db)).
Proof.
  intros Ht Hj Hw. rewrite single_table_rows, Ht, Hw by assumption.
  cbn [rows_of table_rows String.eqb Ascii.eqb Bool.eqb].
  rewrite map_map, filter_map_comm. f_equal.
  apply filter_ext. intros l.
  rewrite (holds_bounds_and _ lo hi _ _ (l_login_time l)) by reflexivity.
  unfold successful_in. f_equal. apply holds_success.
Qed.

Lemma generation_rows p lo hi extra keep db :
  p_table p = "generations" -> p_joins p = [] ->
  p_where p = conj (bounds (col0 "created_at" TTime) lo hi ++ [extra]) ->
  (forall g, holds extra (generation_row g) = keep g) ->
  filtered_rows p db
  = map generation_row
        (filter (fun g => created_in lo hi g && keep g) (generations db)).
Proof.
  intros Ht Hj Hw Hk. rewrite single_table_rows, Ht, Hw by assumption.
  cbn [rows_of table_rows String.eqb Ascii.eqb Bool.eqb].
  rewrite map_map, filter_map_comm. f_equal.
  apply filter_ext. intros g.
  rewrite (holds_bounds_and _ lo hi _ _ (g_created_at g)) by reflexivity.
  unfold created_in. f_equal. apply Hk.
Qed.

Lemma nodup_map_length {A B : Type} (f : A -> B)
      (da : forall x y : A, {x = y} + {x <> y})
      (db : forall x y : B, {x = y} + {x <> y}) l :
  (forall x y, f x = f y -> x = y) ->
  length (nodup db (map f l)) = length (nodup da l).
Proof.
  intros Hinj. induction l as [|a l IH]; simpl; [reflexivity|].
  destruct (in_dec da a l) as [i|n], (in_dec db (f a) (map f l)) as [i'|n'].
  - exact IH.
  - exfalso. apply n'. now apply in_map.
  - exfalso. apply n. apply in_map_iff in i'.
    destruct i' as (x & Hx & Hin). apply Hinj in Hx. now subst.
  - simpl. now rewrite IH.
Qed.

(** COUNT(DISTINCT user_id) over login rows. *)
Lemma count_distinct_users ls :
  length (nodup sqlval_eq_dec
            (filter non_null
               (map (fun r => col_value r (col0 "user_id" TKey))
                    (filter (holds_opt None) (map login_row ls)))))
  = distinct_users ls.
Proof.
  unfold distinct_users.
  rewrite <- (nodup_map_length VKey Z.eq_dec sqlval_eq_dec)
    by (intros x y H; now inversion H).
  f_equal. f_equal. unfold user_ids.
  induction ls as [|l ls IH]; [reflexivity|].
  simpl. rewrite map_app, <- IH.
  change (col_value (login_row l) (col0 "user_id" TKey))
    with (opt_key (l_user_id l)).
  destruct (l_user_id l); reflexivity.
Qed.

(** Rewriting the rows of each plan of the goal to rows of the table. *)
Ltac table_rows lo hi :=
  repeat match goal with
  | |- context [filtered_rows ?p ?db] =>
      first
        [ rewrite (users_rows p lo hi db eq_refl eq_refl eq_refl)
        | rewrite (successful_rows p lo hi db eq_refl eq_refl eq_refl)
        | rewrite (generation_rows p lo hi preview_cond is_preview db
                                   eq_refl eq_refl eq_refl holds_preview)
        | rewrite (generation_rows p lo hi paid_cond is_download db
                                   eq_refl eq_refl eq_refl holds_paid) ]
  end.

Ltac overview_counts lo hi :=
  table_rows lo hi;
  rewrite !length_map, count_distinct_users, <- !app_assoc;
  reflexivity.

(** With at least one valid date the five counts of GET /overview are
    those of the rows in the range. *)
Lemma overview_run req w lo hi :
  date_bound (q_dateFrom req) = Ok lo ->
  date_bound (q_dateTo req) = Ok hi ->
  bounds (col0 "created_at" TTime) lo hi <> [] ->
  exists qs,
    overview_handler req w =
    (Ok {| status := 200;
           payload := BOverview
             {| total_users := Int (Z.of_nat (length
                  (filter (fun u => in_range lo hi (u_created_at u))
                          (users (w_db w)))));
                active_users := Int (Z.of_nat (distinct_users
                  (filter (successful_in lo hi) (login_logs (w_db w)))));
                total_previews := Int (Z.of_nat (length
                  (filter (fun g => created_in lo hi g && is_preview g)
                          (generations (w_db w)))));
                total_downloads := Int (Z.of_nat (length
                  (filter (fun g => created_in lo hi g && is_download g)
                          (generations (w_db w)))));
                total_logins := Int (Z.of_nat (length
                  (filter (successful_in lo hi) (login_logs (w_db w)))))
             |} |},
     {| w_db := w_db w; w_issued := w_issued w ++ qs |}).
Proof.
  intros Hlo Hhi Hne. split_bound Hlo; split_bound Hhi;
    try (exfalso; apply Hne; reflexivity);
    eexists; unfold overview_handler; rewrite ?E, ?E0; cbn;
    run_handler; rewrite ?Et, ?Et0; cbn;
    repeat (rewrite run_plan_aggregate by reflexivity; cbn);
    rewrite !(proj1 (read_decimal _ (Nat2Z.is_nonneg _))).
  - overview_counts (Some t) (Some t0).
  - overview_counts (Some t) (@None Z).
  - overview_counts (@None Z) (Some t).
Qed.

Lemma bounds_nil c lo hi : bounds c lo hi = [] -> lo = None /\ hi = None.
Proof. destruct lo, hi; simpl; intros H; try discriminate; auto. Qed.

(** Counting the rows that pass [a] and [p] and those that pass [a] and
    [q]: a row that passes both [p] and [q] is counted twice. *)
Lemma count_two_filters {A : Type} (a p q : A -> bool) l :
  (length (filter (fun x => a x && p x) l)
   + length (filter (fun x => a x && q x) l)
   <= length (filter a l)
      + length (filter (fun x => a x && (p x && q x)) l))%nat.
Proof.
  induction l as [|x l IH]; simpl; [lia|].
  destruct (a x), (p x), (q x); simpl; lia.
Qed.

Lemma count_sub_filter {A : Type} (a p : A -> bool) l :
  (length (filter (fun x => a x && p x) l) <= length (filter a l))%nat.
Proof.
  induction l as [|x l IH]; simpl; [lia|].
  destruct (a x), (p x); simpl; lia.
Qed.

Lemma preview_and_download g :
  is_preview g && is_download g = paid_preview g.
Proof.
  unfold paid_preview, is_download, is_preview.
  destruct (g_generation_type g =? "preview") eqn:E; [|reflexivity].
  apply String.eqb_eq in E. rewrite E. reflexivity.
Qed.

(** C3, as the code has it. For every date range with at least one bound
    GET /overview answers 200 with an overview in which each of
    total_previews and total_downloads is at most the number of
    generation rows created in the range, and their sum exceeds that
    number by at most the number of rows in the range that are typed
    'preview' and marked paid (which both statements count). *)
Theorem overview_previews_downloads req w lo hi :
  date_bound (q_dateFrom req) = Ok lo ->
  date_bound (q_dateTo req) = Ok hi ->
  lo <> None \/ hi <> None ->
  let total := Z.of_nat (length (filter (created_in lo hi)
                                        (generations (w_db w)))) in
  let both := Z.of_nat (length
                (filter (fun g => created_in lo hi g && paid_preview g)
                        (generations (w_db w)))) in
  exists o w' p d,
    overview_handler req w
      = (Ok {| status := 200; payload := BOverview o |}, w')
    /\ total_previews o = Int p /\ total_downloads o = Int d
    /\ (p <= total)%Z /\ (d <= total)%Z /\ (p + d <= total + both)%Z.
Proof.
  intros Hlo Hhi Hsome total both.
  destruct (overview_run req w lo hi Hlo Hhi) as (qs & Hok).
  { intros Hb. apply bounds_nil in Hb. destruct Hb, Hsome; congruence. }
  rewrite Hok. eexists _, _, _, _.
  split; [reflexivity|]. cbn [total_previews total_downloads].
  split; [reflexivity|]. split; [reflexivity|].
  pose proof (count_two_filters (created_in lo hi) is_preview is_download
                (generations (w_db w))) as H2.
  pose proof (count_sub_filter (created_in lo hi) is_preview
                (generations (w_db w))) as Hp.
  pose proof (count_sub_filter (created_in lo hi) is_download
                (generations (w_db w))) as Hd.
  rewrite (filter_ext (fun g => created_in lo hi g
                                && (is_preview g && is_download g))
                      (fun g => created_in lo hi g && paid_preview g))
    in H2 by (intros g; now rewrite preview_and_download).
  subst total both. lia.
Qed.

(** ** Ordered, limited results *)

Lemma sorted_app_l {A : Type} (R : A -> A -> Prop) l1 l2 :
  StronglySorted R (l1 ++ l2) -> StronglySorted R l1.
Proof.
  induction l1 as [|x l1 IH]; simpl; intros H; [constructor|].
  inversion H as [|? ? Hs Hf]; subst. constructor; [now apply IH|].
  rewrite Forall_forall in *. intros y Hy. apply Hf.
  apply in_or_app. now left.
Qed.

Lemma sorted_app_cross {A : Type} (R : A -> A -> Prop) l1 l2 x y :
  StronglySorted R (l1 ++ l2) -> In x l1 -> In y l2 -> R x y.
Proof.
  induction l1 as [|z l1 IH]; simpl; intros H Hx Hy; [contradiction|].
  inversion H as [|? ? Hs Hf]; subst. destruct Hx as [->|Hx].
  - rewrite Forall_forall in Hf. apply Hf. apply in_or_app. now right.
  - now apply IH.
Qed.

Lemma sorted_map {A B : Type} (f : A -> B) (R : A -> A -> Prop)
      (S : B -> B -> Prop) l :
  (forall x y, In x l -> In y l -> R x y -> S (f x) (f y)) ->
  StronglySorted R l -> StronglySorted S (map f l).
Proof.
  intros H Hs. induction Hs as [|x l Hs IH Hf]; simpl; constructor.
  - apply IH. intros a b Ha Hb. apply H; now right.
  - rewrite Forall_forall in *. intros b Hb.
    apply in_map_iff in Hb. destruct Hb as (a & <- & Ha).
    apply H; [now left|now right|now apply Hf].
Qed.

(** The rows of a statement without aggregates, ordered by one
    descending timestamp key and cut by LIMIT: the first [n] of the
    matching rows in descending order of [tm]. *)
Lemma run_plan_ordered p db n (tm : jrow -> Z) :
  p_grouped p = false ->
  map snd (p_order p) = [true] ->
  p_limit p = Some n -> p_offset p = 0%nat ->
  (forall x, In x (filtered_rows p db) ->
             order_keys p ([x], out_of p [x]) = [VTime (tm x)]) ->
  exists all,
    Permutation all (filtered_rows p db)
    /\ StronglySorted (fun a b => (tm b <= tm a)%Z) all
    /\ run_plan p db = map (fun r => out_of p [r]) (firstn n all).
Proof.
  intros Hg Hd Hl Ho Hk.
  set (pair := fun r : jrow => ([r], out_of p [r])).
  set (pairs := map pair (filtered_rows p db)).
  set (row := fun x : list jrow * outrow => hd [] (fst x)).
  assert (Hform : forall x, In x (sort (order_leb p) pairs) ->
                            x = pair (row x) /\ In (row x) (filtered_rows p db)).
  { intros x Hx. apply sort_In, in_map_iff in Hx.
    destruct Hx as (r & <- & Hr). split; [reflexivity|exact Hr]. }
  assert (Hle : forall x y, In x pairs -> In y pairs ->
                  order_leb p x y = (tm (row y) <=? tm (row x))%Z).
  { intros x y Hx Hy. apply in_map_iff in Hx, Hy.
    destruct Hx as (a & <- & Ha), Hy as (b & <- & Hb).
    unfold order_leb. rewrite Hd. unfold pair.
    rewrite (Hk a Ha), (Hk b Hb). unfold row. simpl.
    destruct (tm b <=? tm a)%Z; [|reflexivity].
    destruct (tm a <=? tm b)%Z; reflexivity. }
  exists (map row (sort (order_leb p) pairs)). split; [|split].
  - rewrite sort_perm. unfold pairs. rewrite map_map.
    unfold row, pair. simpl. now rewrite map_id.
  - apply (sorted_map row (fun a b => order_leb p a b = true)).
    + intros x y Hx Hy Hxy. apply sort_In in Hx, Hy.
      rewrite (Hle x y Hx Hy) in Hxy. now apply Z.leb_le.
    + apply (sort_sorted (order_leb p) (fun x => In x pairs)).
      * intros x y Hx Hy. rewrite (Hle x y Hx Hy), (Hle y x Hy Hx).
        intros H. apply Z.leb_gt in H. apply Z.leb_le. lia.
      * intros x y z Hx Hy Hz.
        rewrite (Hle x y Hx Hy), (Hle y z Hy Hz), (Hle x z Hx Hz).
        rewrite !Z.leb_le. lia.
      * apply Forall_forall. auto.
  - unfold run_plan, groups_of. rewrite Hg, Hl, Ho. simpl.
    fold (filtered_rows p db). rewrite map_map. fold pair. fold pairs.
    rewrite firstn_map, map_map.
    apply map_ext_in. intros x Hx. apply in_firstn in Hx.
    destruct (Hform x Hx) as [E _]. rewrite E at 1. reflexivity.
Qed.

(** ** GET /users/:userId *)

(** The handler, once the id literal is accepted as the key [k]. *)
Lemma user_detail_run req w k :
  key_in (params_userId req) = Some k ->
  user_detail_handler req w =
  match run_plan (user_info_plan k) (w_db w) with
  | [] =>
      (Ok {| status := 404; payload := BMessage "用户不存在" |},
       {| w_db := w_db w;
          w_issued := w_issued w ++ [(user_info_sql, user_id_param req)] |})
  | userInfo :: _ =>
      (Ok {| status := 200;
             payload := BUserDetail userInfo
               (run_plan (preview_records_plan k) (w_db w))
               (run_plan (download_records_plan k) (w_db w))
               (run_plan (login_records_plan k) (w_db w)) |},
       {| w_db := w_db w;
          w_issued := w_issued w ++
            [(user_info_sql, user_id_param req);
             (preview_records_sql, user_id_param req);
             (download_records_sql, user_id_param req);
             (login_records_sql, user_id_param req)] |})
  end.
Proof.
  intros Hk. unfold user_detail_handler. run_handler.
  rewrite Hk. cbn.
  change (run_plan _ (w_db w)) with (run_plan (user_info_plan k) (w_db w))
    at 1.
  destruct (run_plan (user_info_plan k) (w_db w)) as [|info rest].
  - reflexivity.
  - cbn. unfold json, ret. rewrite <- !app_assoc. reflexivity.
Qed.

Lemma left_join_In rows right on jr' :
  In jr' (left_join rows right on) ->
  exists jr x, In jr rows /\ jr' = jr ++ [x].
Proof.
  unfold left_join. intros H. apply in_flat_map in H.
  destruct H as (jr & Hjr & H). exists jr.
  destruct (filter (holds on) (map (fun r => jr ++ [Some r]) right))
    as [|m ms] eqn:E.
  - destruct H as [<-|[]]. eauto.
  - rewrite <- E in H. apply filter_In in H. destruct H as [H _].
    apply in_map_iff in H. destruct H as (r & <- & _). eauto.
Qed.

Lemma left_join_total rows right on jr :
  In jr rows -> exists x, In (jr ++ [x]) (left_join rows right on).
Proof.
  unfold left_join. intros H.
  destruct (filter (holds on) (map (fun r => jr ++ [Some r]) right))
    as [|m ms] eqn:E.
  - exists None. apply in_flat_map. exists jr. rewrite E. split; auto.
    now left.
  - assert (Hm : In m (filter (holds on)
                         (map (fun r => jr ++ [Some r]) right)))
      by (rewrite E; now left).
    pose proof Hm as Hm'. apply filter_In in Hm'. destruct Hm' as [Hm' _].
    apply in_map_iff in Hm'. destruct Hm' as (r & <- & _).
    exists (Some r). apply in_flat_map. exists jr. split; auto.
    rewrite E. now left.
Qed.

Lemma filter_nil {A : Type} (f : A -> bool) l :
  (forall x, In x l -> f x = false) -> filter f l = [].
Proof.
  induction l as [|a l IH]; intros H; simpl; [reflexivity|].
  rewrite (H a) by now left. apply IH. intros. apply H. now right.
Qed.

Lemma run_plan_no_rows p db :
  filtered_rows p db = [] -> p_group p <> [] \/ p_grouped p = false ->
  run_plan p db = [].
Proof.
  intros H Hg. unfold run_plan, groups_of.
  fold (filtered_rows p db). rewrite H.
  destruct (p_grouped p), (p_group p) as [|e es];
    try (destruct Hg; congruence);
    cbn; rewrite skipn_nil; unfold limit_rows;
    destruct (p_limit p); rewrite ?firstn_nil; reflexivity.
Qed.

Lemma run_plan_some_rows p db :
  filtered_rows p db <> [] -> p_limit p = None -> p_offset p = 0%nat ->
  run_plan p db <> [].
Proof.
  intros H Hl Ho E.
  pose proof (run_plan_unlimited p db Hl Ho) as Hp. rewrite E in Hp.
  apply Permutation_nil in Hp. apply map_eq_nil in Hp.
  unfold plan_groups, groups_of in Hp.
  destruct (p_grouped p).
  - destruct (p_group p); [discriminate|].
    now apply group_by_nonempty in Hp.
  - apply map_eq_nil in Hp. contradiction.
Qed.

(** The rows of the three-way join of the user statements: a user, then
    one of its generations or NULL, then one of its successful logins or
    NULL. *)
Lemma user_join_rows p db jr :
  p_table p = "users" -> p_joins p = user_joins ->
  In jr (joined_rows p db) ->
  exists u g l, In u (users db) /\ jr = [Some (RUser u); g; l].
Proof.
  intros Ht Hj H. unfold joined_rows in H. rewrite Ht, Hj in H.
  cbn in H. apply left_join_In in H. destruct H as (jr1 & l & H & ->).
  apply left_join_In in H. destruct H as (jr0 & g & H & ->).
  rewrite map_map in H. apply in_map_iff in H.
  destruct H as (u & <- & Hu). exists u, g, l. auto.
Qed.

Lemma user_join_total p db u :
  p_table p = "users" -> p_joins p = user_joins ->
  In u (users db) ->
  exists g l, In [Some (RUser u); g; l] (joined_rows p db).
Proof.
  intros Ht Hj Hu. unfold joined_rows. rewrite Ht, Hj. cbn.
  rewrite map_map.
  assert (H0 : In (user_row u) (map (fun x => [Some (RUser x)]) (users db)))
    by (apply in_map_iff; exists u; split; [reflexivity|assumption]).
  destruct (left_join_total _ (map RGen (generations db))
              (snd (nth 0 user_joins ("", success_cond))) _ H0) as (g & Hg).
  destruct (left_join_total _ (map RLogin (login_logs db))
              (snd (nth 1 user_joins ("", success_cond))) _ Hg) as (l & Hl).
  exists g, l. exact Hl.
Qed.

(** C5. When the id denotes a key that no user row has, GET
    /users/:userId answers 404 with a message only, having sent the user
    statement and nothing else. *)
Theorem unknown_user_404 req w k :
  key_in (params_userId req) = Some k ->
  (forall u, In u (users (w_db w)) -> u_id u <> k) ->
  user_detail_handler req w
  = (Ok {| status := 404; payload := BMessage "用户不存在" |},
     {| w_db := w_db w;
        w_issued := w_issued w ++ [(user_info_sql, user_id_param req)] |}).
Proof.
  intros Hk Hno. rewrite (user_detail_run req w k Hk).
  rewrite run_plan_no_rows; [reflexivity| |left; discriminate].
  unfold filtered_rows. apply filter_nil. intros jr Hjr.
  apply user_join_rows in Hjr; [|reflexivity..].
  destruct Hjr as (u & g & l & Hu & ->).
  unfold holds. cbn. apply Hno in Hu.
  destruct (u_id u =? k)%Z eqn:E; [|reflexivity].
  apply Z.eqb_eq in E. contradiction.
Qed.

(** ** The most recent records *)

Lemma most_recent_intro {A : Type} n (time : A -> Z) shows tfield matching
      (F all : list jrow) (tm : jrow -> Z) (out : jrow -> outrow) :
  Permutation all F ->
  StronglySorted (fun a b => (tm b <= tm a)%Z) all ->
  (forall x, In x F -> exists a, In a matching /\ shows a (out x)) ->
  (forall a, In a matching ->
             exists x, In x F /\ shows a (out x) /\ tm x = time a) ->
  (forall x, In x F -> time_field tfield (out x) = tm x) ->
  most_recent n time shows tfield matching (map out (firstn n all)).
Proof.
  intros Hperm Hsorted Hsound Hcomplete Htime.
  assert (HinF : forall x, In x all -> In x F)
    by (intros x; apply Permutation_in; exact Hperm).
  rewrite <- (firstn_skipn n all) in Hsorted.
  repeat split.
  - rewrite length_map. apply firstn_le_length.
  - intros row Hrow. apply in_map_iff in Hrow.
    destruct Hrow as (x & <- & Hx). apply Hsound, HinF.
    eapply in_firstn; eauto.
  - apply (sorted_map out (fun a b => (tm b <= tm a)%Z)).
    + intros x y Hx Hy Hxy.
      rewrite !Htime by (apply HinF; eapply in_firstn; eauto). exact Hxy.
    + eapply sorted_app_l; eauto.
  - intros a Ha. destruct (Hcomplete a Ha) as (x & Hx & Hshow & Htm).
    apply (Permutation_in _ (Permutation_sym Hperm)) in Hx.
    rewrite <- (firstn_skipn n all) in Hx. apply in_app_or in Hx.
    destruct Hx as [Hx|Hx].
    + left. exists (out x). split; [now apply in_map|exact Hshow].
    + right. split.
      * rewrite length_map, length_firstn. apply Nat.min_l.
        destruct (Nat.le_gt_cases n (length all)) as [Hle|Hgt]; [exact Hle|].
        rewrite skipn_all2 in Hx by lia. contradiction.
      * intros row Hrow. apply in_map_iff in Hrow.
        destruct Hrow as (y & <- & Hy).
        rewrite Htime by (apply HinF; eapply in_firstn; eauto).
        rewrite <- Htm.
        apply (sorted_app_cross _ _ _ y x Hsorted Hy Hx).
Qed.

Lemma holds_user_key g x k :
  holds (key_is (col0 "user_id" TKey) k) [Some (RGen g); x]
  = (g_user_id g =? k)%Z.
Proof. unfold holds. cbn. now destruct (g_user_id g =? k)%Z. Qed.

(** The rows of a statement over generations joined with their
    template. *)
Lemma template_join_rows p db x :
  p_table p = "generations" -> p_joins p = template_join ->
  In x (joined_rows p db) ->
  exists g t, In g (generations db) /\ x = [Some (RGen g); t].
Proof.
  intros Ht Hj H. unfold joined_rows in H. rewrite Ht, Hj in H.
  cbn in H. apply left_join_In in H. destruct H as (jr & t & H & ->).
  rewrite map_map in H. apply in_map_iff in H.
  destruct H as (g & <- & Hg). exists g, t. split; [exact Hg|reflexivity].
Qed.

Lemma template_join_total p db g :
  p_table p = "generations" -> p_joins p = template_join ->
  In g (generations db) ->
  exists t, In [Some (RGen g); t] (joined_rows p db).
Proof.
  intros Ht Hj Hg. unfold joined_rows. rewrite Ht, Hj. cbn.
  rewrite map_map.
  apply (left_join_total _ _ _ (generation_row g)).
  apply in_map_iff. exists g. split; [reflexivity|assumption].
Qed.

(** The generation records of user [k] that pass [keep], as a statement
    of the shape of the preview and download statements returns them. *)
Lemma generation_records p db k extra keep shows n :
  p_table p = "generations" -> p_joins p = template_join ->
  p_where p = Some (RAnd (key_is (col0 "user_id" TKey) k) extra) ->
  p_grouped p = false ->
  p_order p = [(KIn (col0 "created_at" TTime), true)] ->
  p_limit p = Some n -> p_offset p = 0%nat ->
  (forall g x, holds extra [Some (RGen g); x] = keep g) ->
  (forall g x, shows g (out_of p [[Some (RGen g); x]])
               /\ time_field "created_at" (out_of p [[Some (RGen g); x]])
                  = g_created_at g) ->
  most_recent n g_created_at shows "created_at"
    (filter (fun g => (g_user_id g =? k)%Z && keep g) (generations db))
    (run_plan p db).
Proof.
  intros Ht Hj Hw Hg Ho Hl Hoff Hkeep Hout.
  assert (Hrows : forall x, In x (filtered_rows p db) ->
            exists g t, x = [Some (RGen g); t]
              /\ In g (filter (fun g => (g_user_id g =? k)%Z && keep g)
                              (generations db))).
  { intros x Hx. unfold filtered_rows in Hx. apply filter_In in Hx.
    destruct Hx as [Hx Hh]. apply template_join_rows in Hx; auto.
    destruct Hx as (g & t & Hin & ->). exists g, t.
    split; [reflexivity|]. apply filter_In. split; [exact Hin|].
    rewrite Hw in Hh. simpl in Hh.
    now rewrite holds_and, holds_user_key, Hkeep in Hh. }
  destruct (run_plan_ordered p db n generation_time Hg) as (all & Hp & Hs & ->);
    auto.
  { now rewrite Ho. }
  { intros x Hx. destruct (Hrows x Hx) as (g & t & -> & _).
    unfold order_keys. rewrite Ho. reflexivity. }
  apply (most_recent_intro n g_created_at shows "created_at" _
           (filtered_rows p db) all generation_time); auto.
  - intros x Hx. destruct (Hrows x Hx) as (g & t & -> & Hin).
    exists g. split; [exact Hin|apply Hout].
  - intros g Hin. apply filter_In in Hin. destruct Hin as [Hin Hk].
    destruct (template_join_total p db g Ht Hj Hin) as (t & Hjoin).
    exists [Some (RGen g); t]. split; [|split; [apply Hout|reflexivity]].
    unfold filtered_rows. apply filter_In. split; [exact Hjoin|].
    rewrite Hw. simpl. now rewrite holds_and, holds_user_key, Hkeep.
  - intros x Hx. destruct (Hrows x Hx) as (g & t & -> & _). apply Hout.
Qed.

Lemma login_records_rows k db :
  filtered_rows (login_records_plan k) db
  = map login_row
        (filter (fun l => logged_in_as k l && l_login_success l)
                (login_logs db)).
Proof.
  rewrite single_table_rows by reflexivity.
  change (rows_of db (p_table (login_records_plan k)))
    with (map RLogin (login_logs db)).
  rewrite map_map, filter_map_comm. f_equal.
  apply filter_ext. intros l.
  change (holds_opt (p_where (login_records_plan k)) [Some (RLogin l)])
    with (holds (RAnd (key_is (col0 "user_id" TKey) k) success_cond)
                (login_row l)).
  rewrite holds_and, holds_success.
  f_equal. unfold holds, logged_in_as. cbn.
  destruct (l_user_id l) as [k'|]; cbn; [|reflexivity].
  now destruct (k' =? k)%Z.
Qed.

Lemma login_records_recent k db :
  most_recent 30 l_login_time login_record "login_time"
    (filter (fun l => logged_in_as k l && l_login_success l)
            (login_logs db))
    (run_plan (login_records_plan k) db).
Proof.
  destruct (run_plan_ordered (login_records_plan k) db 30 login_time_of)
    as (all & Hp & Hs & ->); try reflexivity.
  { intros x Hx. rewrite login_records_rows in Hx.
    apply in_map_iff in Hx. destruct Hx as (l & <- & _). reflexivity. }
  rewrite login_records_rows in Hp.
  apply (most_recent_intro 30 l_login_time login_record "login_time" _
           _ all login_time_of _ Hp Hs).
  - intros x Hx. apply in_map_iff in Hx. destruct Hx as (l & <- & Hl).
    exists l. split; [exact Hl|reflexivity].
  - intros l Hl. exists (login_row l).
    split; [now apply in_map|split; reflexivity].
  - intros x Hx. apply in_map_iff in Hx. destruct Hx as (l & <- & _).
    reflexivity.
Qed.

Lemma holds_preview_joined g x :
  holds preview_cond [Some (RGen g); x] = is_preview g.
Proof. exact (holds_preview g). Qed.

Lemma holds_paid_joined g x :
  holds paid_cond [Some (RGen g); x] = is_download g.
Proof. exact (holds_paid g). Qed.

(** C7. For an existing user GET /users/:userId answers 200 with the 20
    most recent preview records, the 20 most recent download records and
    the 30 most recent successful login records of that user. *)
Theorem known_user_detail req w k u :
  key_in (params_userId req) = Some k ->
  In u (users (w_db w)) -> u_id u = k ->
  exists userInfo previewRecords downloadRecords loginRecords w',
    user_detail_handler req w
    = (Ok {| status := 200;
             payload := BUserDetail userInfo previewRecords
                                    downloadRecords loginRecords |}, w')
    /\ most_recent 20 g_created_at preview_record "created_at"
         (filter (fun g => (g_user_id g =? k)%Z && is_preview g)
                 (generations (w_db w)))
         previewRecords
    /\ most_recent 20 g_created_at download_record "created_at"
         (filter (fun g => (g_user_id g =? k)%Z && is_download g)
                 (generations (w_db w)))
         downloadRecords
    /\ most_recent 30 l_login_time login_record "login_time"
         (filter (fun l => logged_in_as k l && l_login_success l)
                 (login_logs (w_db w)))
         loginRecords.
Proof.
  intros Hk Hu Hid. rewrite (user_detail_run req w k Hk).
  destruct (run_plan (user_info_plan k) (w_db w)) as [|info rest] eqn:E.
  - exfalso. revert E. apply run_plan_some_rows; try reflexivity.
    destruct (user_join_total (user_info_plan k) (w_db w) u
                eq_refl eq_refl Hu) as (g & l & Hin).
    intros Hnil.
    assert (Hf : In [Some (RUser u); g; l]
                    (filtered_rows (user_info_plan k) (w_db w))).
    { unfold filtered_rows. apply filter_In. split; [exact Hin|].
      unfold holds_opt, holds. cbn. rewrite Hid, Z.eqb_refl. reflexivity. }
    rewrite Hnil in Hf. contradiction.
  - eexists _, _, _, _, _. split; [reflexivity|]. split; [|split].
    + apply (generation_records _ _ k preview_cond is_preview);
        try reflexivity.
      * apply holds_preview_joined.
      * intros g x. split; [|reflexivity]. eexists _, _. reflexivity.
    + apply (generation_records _ _ k paid_cond is_download);
        try reflexivity.
      * apply holds_paid_joined.
      * intros g x. split; [|reflexivity]. eexists _, _. reflexivity.
    + apply login_records_recent.
Qed.

(** ** GET /users *)

Arguments to_number : simpl never.

Lemma holds_search pattern u g l :
  holds (search_cond pattern) [Some (RUser u); g; l]
  = ilike (u_username u) pattern || ilike (u_email u) pattern.
Proof.
  unfold search_cond. rewrite holds_or. unfold holds. cbn.
  destruct (ilike (u_username u) pattern), (ilike (u_email u) pattern);
    reflexivity.
Qed.

Lemma holds_users_where pattern lo hi u rest :
  holds_opt (users_where pattern lo hi) (Some (RUser u) :: rest)
  = user_matches pattern lo hi u.
Proof.
  unfold users_where, user_matches. rewrite holds_conj.
  cbn [forallb]. f_equal.
  - unfold search_cond. rewrite holds_or. unfold holds. cbn.
    destruct (ilike (u_username u) pattern), (ilike (u_email u) pattern);
      reflexivity.
  - now apply holds_bounds.
Qed.

Lemma matching_user_rows p pattern lo hi db :
  p_table p = "users" -> p_joins p = [] ->
  p_where p = users_where pattern lo hi ->
  filtered_rows p db
  = map user_row (filter (user_matches pattern lo hi) (users db)).
Proof.
  intros Ht Hj Hw. rewrite single_table_rows, Ht, Hw by assumption.
  cbn [rows_of table_rows String.eqb Ascii.eqb Bool.eqb].
  rewrite map_map, filter_map_comm. f_equal.
  apply filter_ext. intros u. apply holds_users_where.
Qed.

(** COUNT(DISTINCT u.id) over user rows. *)
Lemma count_distinct_ids us :
  length (nodup sqlval_eq_dec
            (filter non_null
               (map (fun r => col_value r (col0 "id" TKey))
                    (filter (holds_opt None) (map user_row us)))))
  = length (nodup Z.eq_dec (map u_id us)).
Proof.
  rewrite <- (nodup_map_length VKey Z.eq_dec sqlval_eq_dec)
    by (intros x y H; now inversion H).
  f_equal. f_equal.
  induction us as [|u us IH]; [reflexivity|].
  simpl. now rewrite <- IH.
Qed.

Lemma parseInt_int z : parseInt (JNum (Int z)) = Int z.
Proof. reflexivity. Qed.

(** The offset of a page from 1 on is the product, a positive zero
    included. *)
Lemma offset_value p l :
  (1 <= p)%Z -> (0 <= l)%Z ->
  num_mul (num_sub (Int p) (Int 1)) (Int l) = Int ((p + -1) * l).
Proof.
  intros Hp Hl. unfold num_sub, num_neg, minus. cbn [Z.eqb Z.opp num_add].
  unfold num_mul. cbn [negative is_finite is_zero andb].
  replace (p + -1 <? 0)%Z with false by (symmetry; apply Z.ltb_ge; lia).
  replace (l <? 0)%Z with false by (symmetry; apply Z.ltb_ge; lia).
  cbn [xorb].
  destruct (Z.eqb_spec (p + -1) 0) as [Ep|Ep]; cbn [orb zero].
  - rewrite Ep. reflexivity.
  - destruct (Z.eqb_spec l 0) as [El|El]; [|reflexivity].
    subst l. now rewrite Z.mul_0_r.
Qed.

Lemma users_run req w lo hi p l :
  date_bound (q_dateFrom req) = Ok lo ->
  date_bound (q_dateTo req) = Ok hi ->
  denotes (page_of req) p -> denotes (limit_of req) l ->
  (1 <= p)%Z -> (0 <= l)%Z ->
  exists qs,
    users_handler req w =
    (Ok {| status := 200;
           payload := BUsers
             (run_plan (users_plan (search_pattern req) lo hi (Z.to_nat l)
                                   (Z.to_nat ((p - 1) * l)))
                       (w_db w))
             {| pg_total := Int (users_total (search_pattern req) lo hi
                                             (w_db w));
                pg_page := Int p;
                pg_limit := Int l;
                pg_pages := ceil_div
                  (Int (users_total (search_pattern req) lo hi (w_db w)))
                  (Int l) |} |},
     {| w_db := w_db w; w_issued := w_issued w ++ qs |}).
Proof.
  intros Hlo Hhi [Hp Hp'] [Hl Hl'] Hp1 Hl0.
  assert (Hneg : (l <? 0)%Z = false) by (apply Z.ltb_ge; lia).
  assert (Hoff : ((p + -1) * l <? 0)%Z = false) by (apply Z.ltb_ge; nia).
  unfold page_of, limit_of in *. unfold users_total.
  split_bound Hlo; split_bound Hhi;
    eexists; cbv beta zeta delta [users_handler];
    remember ceil_div as pages eqn:Hpages;
    rewrite Hp, Hp', Hl, Hl', ?E, ?E0;
    rewrite (offset_value p l Hp1 Hl0); cbn;
    run_handler; rewrite ?Et, ?Et0; cbn;
    rewrite ?parseInt_int; cbn; rewrite Hneg, Hoff; cbn;
    rewrite run_plan_aggregate by reflexivity; cbn;
    rewrite (proj1 (read_decimal _ (Nat2Z.is_nonneg _)));
    rewrite (proj2 (read_decimal _ (Nat2Z.is_nonneg _)));
    match goal with
    | |- context [filtered_rows ?q ?db] =>
        match goal with
        | |- context [user_matches _ ?lo ?hi] =>
            rewrite (matching_user_rows q (search_pattern req) lo hi db
                                        eq_refl eq_refl eq_refl)
        end
    end;
    rewrite count_distinct_ids, <- app_assoc;
    reflexivity.
Qed.

Lemma NoDup_map_filter {A B : Type} (f : A -> B) (p : A -> bool) l :
  NoDup (map f l) -> NoDup (map f (filter p l)).
Proof.
  induction l as [|a l IH]; simpl; intros H; [constructor|].
  inversion H as [|? ? Hn Hnd]; subst.
  destruct (p a); simpl; [|now apply IH].
  constructor; [|now apply IH].
  intros Hin. apply Hn. apply in_map_iff in Hin.
  destruct Hin as (x & E & Hx). apply filter_In in Hx.
  apply in_map_iff. exists x. tauto.
Qed.



(** ** Searching *)

Lemma like_percent_any s : like "%" s = true.
Proof.
  induction s as [|c s IH]; [reflexivity|].
  simpl in *. exact IH.
Qed.

Lemma like_plain_prefix p :
  plain p = true -> forall s, like (p ++ "%") s = String.prefix p s.
Proof.
  induction p as [|c p IH]; intros Hp s.
  - rewrite like_percent_any. now destruct s.
  - simpl in Hp. apply andb_true_iff in Hp. destruct Hp as [Hc Hp].
    unfold is_meta in Hc. apply negb_true_iff in Hc.
    apply orb_false_iff in Hc. destruct Hc as [Hc H3].
    apply orb_false_iff in Hc. destruct Hc as [H1 H2].
    cbn [append like]. rewrite H1, H2, H3.
    destruct s as [|d s]; [reflexivity|]. cbn [String.prefix].
    rewrite (IH Hp). destruct (ascii_dec c d) as [->|n].
    + now rewrite Ascii.eqb_refl.
    + apply Ascii.eqb_neq in n. now rewrite n.
Qed.

Lemma like_percent_unfold q s :
  like (String "%" q) s
  = like q s || match s with
                | EmptyString => false
                | String _ s' => like (String "%" q) s'
                end.
Proof. destruct s; reflexivity. Qed.

Lemma like_contains p :
  plain p = true ->
  forall s, like (String "%" (p ++ "%")) s = contains p s.
Proof.
  intros Hp s. induction s as [|c s IH];
    rewrite like_percent_unfold, (like_plain_prefix p Hp);
    cbn [contains]; [reflexivity|now rewrite IH].
Qed.

Lemma lower_string_app a b :
  lower_string (a ++ b) = (lower_string a ++ lower_string b)%string.
Proof. induction a as [|c a IH]; simpl; congruence. Qed.

Lemma is_meta_lower c : is_meta (lower c) = is_meta c.
Proof. ascii_cases c; reflexivity. Qed.

Lemma plain_lower s : plain (lower_string s) = plain s.
Proof.
  induction s as [|c s IH]; simpl; [reflexivity|].
  now rewrite is_meta_lower, IH.
Qed.

(** ILIKE with the pattern [%s%], for [s] without pattern characters, is
    containment without regard to the case of letters. *)
Lemma ilike_contains s x :
  plain s = true ->
  ilike x ("%" ++ s ++ "%")%string
  = contains (lower_string s) (lower_string x).
Proof.
  intros Hp. unfold ilike.
  change ("%" ++ s ++ "%")%string with (String "%" (s ++ "%")).
  cbn [lower_string]. rewrite lower_string_app.
  change (lower "%") with "%"%char. change (lower_string "%") with "%".
  apply (like_contains (lower_string s)). now rewrite plain_lower.
Qed.

Lemma nodup_constant {A : Type} (dec : forall x y : A, {x = y} + {x <> y})
      (k : A) l :
  l <> [] -> (forall x, In x l -> x = k) -> nodup dec l = [k].
Proof.
  induction l as [|a l IH]; intros Hne Hall; [congruence|].
  simpl. assert (a = k) by (apply Hall; now left). subst a.
  destruct l as [|b l].
  - reflexivity.
  - destruct (in_dec dec k (b :: l)) as [i|n].
    + apply IH; [discriminate|]. intros x Hx. apply Hall. now right.
    + exfalso. apply n. left. apply Hall. right. now left.
Qed.

Lemma filter_all {A : Type} (f : A -> bool) l :
  (forall x, In x l -> f x = true) -> filter f l = l.
Proof.
  induction l as [|a l IH]; intros H; simpl; [reflexivity|].
  rewrite (H a) by now left. f_equal. apply IH. intros. apply H. now right.
Qed.

(** Rows of one key make one group. *)
Lemma group_by_single es rows k :
  rows <> [] -> (forall r, In r rows -> group_key es r = k) ->
  group_by es rows = [rows].
Proof.
  intros Hne Hall. unfold group_by.
  rewrite (nodup_constant key_eq_dec k).
  - simpl. f_equal. apply filter_all. intros r Hr.
    apply same_key_spec. now apply Hall.
  - intros H. apply map_eq_nil in H. contradiction.
  - intros x Hx. apply in_map_iff in Hx. destruct Hx as (r & <- & Hr).
    now apply Hall.
Qed.

Lemma run_plan_one_group p db n :
  p_grouped p = true -> p_group p <> [] ->
  group_by (p_group p) (filtered_rows p db) = [filtered_rows p db] ->
  p_offset p = 0%nat -> p_limit p = Some (S n) ->
  run_plan p db = [out_of p (filtered_rows p db)].
Proof.
  intros Hg Hne Hgroups Ho Hl. unfold run_plan, groups_of.
  fold (filtered_rows p db). rewrite Hg, Ho, Hl.
  destruct (p_group p) as [|e es]; [congruence|].
  rewrite Hgroups. simpl. now rewrite firstn_nil.
Qed.

(** The rows of the user list statement come from the matching users. *)
Lemma users_plan_rows pattern lo hi lim off db x :
  In x (filtered_rows (users_plan pattern lo hi lim off) db) ->
  exists u g l,
    x = [Some (RUser u); g; l]
    /\ In u (filter (user_matches pattern lo hi) (users db)).
Proof.
  unfold filtered_rows. intros H. apply filter_In in H.
  destruct H as [H Hh]. apply user_join_rows in H; [|reflexivity..].
  destruct H as (u & g & l & Hu & ->). exists u, g, l.
  split; [reflexivity|]. apply filter_In. split; [exact Hu|].
  cbn [users_plan p_where] in Hh. now rewrite holds_users_where in Hh.
Qed.

Lemma users_plan_total pattern lo hi lim off db u :
  In u (filter (user_matches pattern lo hi) (users db)) ->
  exists g l, In [Some (RUser u); g; l]
                 (filtered_rows (users_plan pattern lo hi lim off) db).
Proof.
  intros H. apply filter_In in H. destruct H as [Hu Hm].
  destruct (user_join_total (users_plan pattern lo hi lim off) db u
              eq_refl eq_refl Hu) as (g & l & Hin).
  exists g, l. unfold filtered_rows. apply filter_In.
  split; [exact Hin|]. cbn [users_plan p_where].
  now rewrite holds_users_where.
Qed.

(** C8, as the code has it. With no page, limit or date, a search string
    free of the pattern characters [%], [_] and backslash that occurs,
    letter case aside, in the username or email of exactly one user makes
    GET /users return exactly that user. *)
Theorem search_finds_one req w s u :
  q_search req = Some s ->
  q_page req = None -> q_limit req = None ->
  truthy (q_dateFrom req) = None -> truthy (q_dateTo req) = None ->
  plain s = true ->
  filter (found_by s) (users (w_db w)) = [u] ->
  exists row pagination_ w',
    users_handler req w
    = (Ok {| status := 200; payload := BUsers [row] pagination_ |}, w')
    /\ user_record u row.
Proof.
  intros Hs Hpage Hlimit Hfrom Hto Hplain Hone.
  assert (Hlo : date_bound (q_dateFrom req) = Ok None)
    by (unfold date_bound; now rewrite Hfrom).
  assert (Hhi : date_bound (q_dateTo req) = Ok None)
    by (unfold date_bound; now rewrite Hto).
  assert (Hp : denotes (page_of req) 1)
    by (unfold page_of; rewrite Hpage; split; reflexivity).
  assert (Hl : denotes (limit_of req) 50)
    by (unfold limit_of; rewrite Hlimit; split; reflexivity).
  destruct (users_run req w None None 1 50 Hlo Hhi Hp Hl
                      ltac:(lia) ltac:(lia)) as (qs & Hrun).
  assert (Hpat : search_pattern req = ("%" ++ s ++ "%")%string)
    by (unfold search_pattern; now rewrite Hs).
  rewrite Hpat in Hrun.
  set (P := users_plan ("%" ++ s ++ "%") None None (Z.to_nat 50)
                       (Z.to_nat ((1 - 1) * 50))) in *.
  assert (Hmatch : filter (user_matches ("%" ++ s ++ "%") None None)
                          (users (w_db w)) = [u]).
  { rewrite <- Hone. apply filter_ext. intros u'.
    unfold user_matches, found_by, in_range.
    now rewrite andb_true_r, !ilike_contains. }
  assert (Hrows : forall x, In x (filtered_rows P (w_db w)) ->
                            exists g l, x = [Some (RUser u); g; l]).
  { intros x Hx. apply users_plan_rows in Hx.
    destruct Hx as (u' & g & l & -> & Hu'). rewrite Hmatch in Hu'.
    destruct Hu' as [<-|[]]. eauto. }
  destruct (users_plan_total ("%" ++ s ++ "%") None None (Z.to_nat 50)
              (Z.to_nat ((1 - 1) * 50)) (w_db w) u) as (g0 & l0 & Hin0).
  { rewrite Hmatch. now left. }
  fold P in Hin0.
  assert (Hone_group :
            run_plan P (w_db w) = [out_of P (filtered_rows P (w_db w))]).
  { apply (run_plan_one_group P (w_db w) 49); try reflexivity.
    - discriminate.
    - apply (group_by_single _ _
               (group_key (p_group P) [Some (RUser u); None; None])).
      + intros Hnil. rewrite Hnil in Hin0. contradiction.
      + intros r Hr. destruct (Hrows r Hr) as (g & l & ->). reflexivity. }
  rewrite Hone_group in Hrun.
  eexists _, _, _. split; [exact Hrun|].
  destruct (filtered_rows P (w_db w)) as [|x rest]; [contradiction|].
  destruct (Hrows x (or_introl eq_refl)) as (g & l & ->).
  eexists. reflexivity.
Qed.

(** ** Properties that hold of every handler *)

Lemma in_string_list s l : existsb (String.eqb s) l = true -> In s l.
Proof.
  intros H. apply existsb_exists in H. destruct H as (x & Hx & E).
  apply String.eqb_eq in E. now subst.
Qed.

(** A property of computations that holds of the handlers as soon as it
    holds of [sequelize.query] on the statements they send. *)
Section Compositional.
Variable P : forall A : Type, M A -> Prop.
Variable ok : string -> Prop.
Hypothesis P_ret : forall A (a : A), P A (ret a).
Hypothesis P_throw : forall A e, P A (throw e).
Hypothesis P_bind : forall A B (m : M A) (k : A -> M B),
    P A m -> (forall a, P B (k a)) -> P B (bind m k).
Hypothesis P_catch : forall A (m : M A) (h : string -> M A),
    P A m -> (forall e, P A (h e)) -> P A (try_catch m h).
Hypothesis P_query : forall sql repl,
    ok sql -> P (list outrow) (sequelize_query sql repl).

Ltac in_list := apply in_string_list; vm_compute; reflexivity.

Ltac compose :=
  repeat first
    [ apply P_catch; [|intros; apply P_ret]
    | apply P_bind; [|intros]
    | apply P_ret
    | apply P_throw
    | apply P_query ].

Lemma P_first_field name rows : P jsval (first_field name rows).
Proof. destruct rows; [apply P_throw|apply P_ret]. Qed.

Lemma router_compositional e req :
  (forall sql, In sql (statements e) -> ok sql) ->
  P response (router e req).
Proof.
  intros Hok. destruct e; cbn [router].
  - unfold users_handler.
    destruct (truthy (q_dateFrom req)), (truthy (q_dateTo req));
      cbv zeta; unfold json;
      compose; try apply P_first_field; apply Hok; in_list.
  - unfold user_detail_handler. compose; try (apply Hok; in_list).
    destruct a; unfold status_json, json; compose; apply Hok; in_list.
  - unfold registrations_handler.
    destruct (truthy (q_dateFrom req)), (truthy (q_dateTo req));
      cbv zeta; unfold json; compose; apply Hok; in_list.
  - unfold logins_handler.
    destruct (truthy (q_dateFrom req)), (truthy (q_dateTo req));
      cbv zeta; unfold json; compose; apply Hok; in_list.
  - unfold online_duration_handler.
    destruct (truthy (q_userId req)), (truthy (q_dateFrom req)),
      (truthy (q_dateTo req));
      cbv zeta; unfold json; compose; apply Hok; in_list.
  - unfold overview_handler.
    destruct (truthy (q_dateFrom req)), (truthy (q_dateTo req));
      cbv zeta; unfold json;
      compose; try apply P_first_field; apply Hok; in_list.
Qed.
End Compositional.

(** ** No handler changes the database *)

Lemma read_only_ret A (a : A) : read_only (ret a).
Proof.
  intros w. split; [reflexivity|]. exists []. split; [|constructor].
  simpl. now rewrite app_nil_r.
Qed.

Lemma read_only_throw A e : read_only (@throw A e).
Proof.
  intros w. split; [reflexivity|]. exists []. split; [|constructor].
  simpl. now rewrite app_nil_r.
Qed.

Lemma read_only_bind A B (m : M A) (k : A -> M B) :
  read_only m -> (forall a, read_only (k a)) -> read_only (bind m k).
Proof.
  intros Hm Hk w. unfold bind. destruct (Hm w) as (Hdb & qs & Hq & Hs).
  destruct (m w) as [[a|e] w1]; simpl in *.
  - destruct (Hk a w1) as (Hdb' & qs' & Hq' & Hs'). split; [congruence|].
    exists (qs ++ qs'). split; [|now apply Forall_app].
    now rewrite Hq', Hq, app_assoc.
  - split; [exact Hdb|]. exists qs. auto.
Qed.

Lemma read_only_catch A (m : M A) (h : string -> M A) :
  read_only m -> (forall e, read_only (h e)) -> read_only (try_catch m h).
Proof.
  intros Hm Hh w. unfold try_catch. destruct (Hm w) as (Hdb & qs & Hq & Hs).
  destruct (m w) as [[a|e] w1]; simpl in *.
  - split; [exact Hdb|]. exists qs. auto.
  - destruct (Hh e w1) as (Hdb' & qs' & Hq' & Hs'). split; [congruence|].
    exists (qs ++ qs'). split; [|now apply Forall_app].
    now rewrite Hq', Hq, app_assoc.
Qed.

(** A statement that starts with SELECT is rejected or evaluated; either
    way the database stays as it is. *)
Lemma select_keeps_db sql repl db :
  is_select sql = true -> snd (pg_exec sql repl db) = db.
Proof.
  unfold is_select, pg_exec, parse_stmt. intros H.
  destruct (tokenize sql) as [|t ts]; [discriminate|].
  apply String.eqb_eq in H. subst t.
  destruct (parse_select ts) as [q|]; simpl; [|reflexivity].
  now destruct (analyze_select q repl).
Qed.

Lemma read_only_query sql repl :
  is_select sql = true -> read_only (sequelize_query sql repl).
Proof.
  intros H w. unfold sequelize_query.
  pose proof (select_keeps_db sql repl (w_db w) H) as Hdb.
  destruct (pg_exec sql repl (w_db w)) as [r db']. simpl in *.
  split; [exact Hdb|]. exists [(sql, repl)]. split; [reflexivity|].
  constructor; [exact H|constructor].
Qed.

Lemma statements_select e sql :
  In sql (statements e) -> is_select sql = true.
Proof.
  assert (H : forallb is_select (statements e) = true)
    by (destruct e; vm_compute; reflexivity).
  rewrite forallb_forall in H. apply H.
Qed.

(** The database can change: the model of the client executes a DELETE
    when it is given one. *)
Lemma delete_changes_db db :
  pg_exec "DELETE FROM users" [] db
  = (Ok [], {| users := []; generations := generations db;
               login_logs := login_logs db; templates := templates db |}).
Proof.
  unfold pg_exec. parse_text. cbn. f_equal. unfold delete_from. cbn.
  f_equal. now induction (users db).
Qed.

(** C9. Whatever the endpoint and the request, the handler leaves the
    database (the four tables) as it found it, and every statement it
    sends is a SELECT. *)
Theorem router_read_only e req w :
  w_db (snd (router e req w)) = w_db w
  /\ exists qs,
       w_issued (snd (router e req w)) = w_issued w ++ qs
       /\ Forall (fun q => is_select (fst q) = true) qs.
Proof.
  apply (router_compositional (@read_only) (fun sql => is_select sql = true)
           read_only_ret read_only_throw read_only_bind read_only_catch
           read_only_query e req).
  apply statements_select.
Qed.

(** ** GET /online-duration *)

Ltac split_user H :=
  unfold user_bound in H;
  match type of H with
  | context [truthy ?o] =>
      let s := fresh "s" in
      let E := fresh "Eu" in
      destruct (truthy o) as [s|] eqn:E;
      [ let k := fresh "k" in
        let Ek := fresh "Ek" in
        destruct (key_in s) as [k|] eqn:Ek;
        [ injection H as <- | discriminate H ]
      | injection H as <- ]
  end.

Lemma online_duration_run req w uk lo hi :
  user_bound (q_userId req) = Ok uk ->
  date_bound (q_dateFrom req) = Ok lo ->
  date_bound (q_dateTo req) = Ok hi ->
  exists q,
    online_duration_handler req w =
      (Ok {| status := 200;
             payload := BOnlineDuration
                          (run_plan (online_plan uk lo hi) (w_db w)) |},
       {| w_db := w_db w; w_issued := w_issued w ++ [q] |}).
Proof.
  intros Hu Hlo Hhi. split_user Hu; split_bound Hlo; split_bound Hhi;
    eexists; unfold online_duration_handler;
    rewrite ?Eu, ?E, ?E0; cbn;
    unfold try_catch, bind, sequelize_query, pg_exec;
    parse_text; cbn; rewrite ?Ek, ?Et, ?Et0; cbn; reflexivity.
Qed.

Lemma holds_online_where uk lo hi l :
  holds_opt (p_where (online_plan uk lo hi)) (login_row l)
  = counted uk lo hi l.
Proof.
  cbn [online_plan p_where]. rewrite holds_conj. cbn [forallb].
  rewrite forallb_app.
  rewrite (holds_bounds _ lo hi _ (l_login_time l)) by reflexivity.
  unfold counted. rewrite andb_assoc. f_equal. f_equal.
  - unfold holds. cbn. now destruct (l_session_duration l).
  - destruct uk as [k|]; [|reflexivity]. cbn [user_conds forallb].
    rewrite andb_true_r. unfold holds, logged_in_as. cbn.
    destruct (l_user_id l) as [k'|]; cbn; [|reflexivity].
    now destruct (k' =? k)%Z.
Qed.

Lemma online_rows uk lo hi db :
  filtered_rows (online_plan uk lo hi) db
  = map login_row (filter (counted uk lo hi) (login_logs db)).
Proof.
  rewrite single_table_rows by reflexivity.
  change (rows_of db (p_table (online_plan uk lo hi)))
    with (map RLogin (login_logs db)).
  rewrite map_map, filter_map_comm. f_equal.
  apply filter_ext. intros l. apply holds_online_where.
Qed.

Section SumByKey.
Context {A K : Type} (key : A -> K) (eqb : K -> A -> bool) (wt : A -> Z).
Hypothesis eqb_spec : forall k a, eqb k a = true <-> key a = k.

Local Abbreviation weight := (weight_of wt).
Local Abbreviation total := (weight_per_key eqb wt).

Lemma sum_other_key ks a l :
  ~ In (key a) ks -> total ks (a :: l) = total ks l.
Proof.
  unfold weight_per_key, weight_of.
  induction ks as [|k ks IH]; intros Hn; simpl in *.
  - reflexivity.
  - destruct (eqb k a) eqn:E.
    + apply eqb_spec in E. exfalso. apply Hn. now left.
    + rewrite IH; [reflexivity|]. intros Hc. apply Hn. now right.
Qed.

Lemma sum_own_key ks a l :
  NoDup ks -> In (key a) ks ->
  total ks (a :: l) = (wt a + total ks l)%Z.
Proof.
  unfold weight_per_key, weight_of.
  induction ks as [|k ks IH]; intros Hnd Hin.
  - contradiction.
  - inversion Hnd as [|? ? Hnk Hnd']; subst. simpl in *.
    destruct (eqb k a) eqn:E.
    + apply eqb_spec in E. subst k. simpl.
      pose proof (sum_other_key ks a l Hnk) as Ho.
      unfold weight_per_key, weight_of in Ho. simpl in Ho. rewrite Ho. lia.
    + destruct Hin as [Hk|Hk].
      * subst k. assert (eqb (key a) a = true) by now apply eqb_spec.
        congruence.
      * rewrite IH by assumption. lia.
Qed.

(** Adding up the weights of the rows of every key of a duplicate-free
    list of keys adds up every row once. *)
Lemma sum_by_key ks l :
  NoDup ks -> (forall a, In a l -> In (key a) ks) ->
  total ks l = weight l.
Proof.
  intros Hnd. induction l as [|a l IH]; intros Hin.
  - unfold weight_per_key, weight_of. simpl. clear.
    induction ks; simpl; auto.
  - rewrite sum_own_key; auto.
    + unfold weight_of in *. simpl. f_equal. apply IH. intros.
      apply Hin. now right.
    + apply Hin. now left.
Qed.
End SumByKey.

Lemma group_by_weights es (wt : jrow -> Z) rows :
  fold_right Z.add 0%Z
    (map (fun g => fold_right Z.add 0%Z (map wt g)) (group_by es rows))
  = fold_right Z.add 0%Z (map wt rows).
Proof.
  unfold group_by. rewrite map_map.
  apply (sum_by_key (group_key es) (same_key es) wt).
  - intros. apply same_key_spec.
  - apply NoDup_nodup.
  - intros a Ha. apply nodup_In. now apply in_map.
Qed.

Lemma sum_durations ls :
  ls <> [] ->
  (forall l, In l ls -> l_session_duration l <> None) ->
  eval_expr (XSum (col0 "session_duration" TInt)) (map login_row ls)
  = VBig (total_duration ls).
Proof.
  intros Hne Hall. cbn [eval_expr]. rewrite map_map.
  assert (E : filter non_null
                (map (fun l => col_value (login_row l)
                                 (col0 "session_duration" TInt)) ls)
              = map (fun l => VInt (duration_of l)) ls).
  { clear Hne. induction ls as [|l ls IH]; [reflexivity|].
    cbn [map filter].
    change (col_value (login_row l) (col0 "session_duration" TInt))
      with (opt_int (l_session_duration l)).
    assert (Hl : l_session_duration l <> None) by (apply Hall; now left).
    unfold duration_of. destruct (l_session_duration l); [|congruence].
    cbn. f_equal. apply IH. intros. apply Hall. now right. }
  rewrite E. destruct ls as [|l ls]; [congruence|].
  cbn [map]. unfold total_duration. cbn [map fold_right int_of].
  rewrite map_map. reflexivity.
Qed.

Lemma same_group l0 l :
  same_key [XCol (col0 "username" TText); XDate (col0 "login_time" TTime)]
           (group_key [XCol (col0 "username" TText);
                       XDate (col0 "login_time" TTime)] (login_row l0))
           (login_row l)
  = in_group (l_username l0) (DATE (l_login_time l0)) l.
Proof.
  unfold in_group.
  destruct ((l_username l =? l_username l0)
            && (DATE (l_login_time l) =? DATE (l_login_time l0))%Z) eqn:E.
  - apply andb_true_iff in E. destruct E as [E1 E2].
    apply String.eqb_eq in E1. apply Z.eqb_eq in E2.
    apply same_key_spec. cbn. now rewrite E1, E2.
  - destruct (same_key _ _ _) eqn:S; [|reflexivity].
    apply same_key_spec in S. cbn in S. inversion S as [[H1 H2]].
    rewrite H1, H2, String.eqb_refl, Z.eqb_refl in E. discriminate.
Qed.

(** A group of the online-duration statement: the counted rows of one
    user name and day, and the row it gives. *)
Lemma online_group uk lo hi db g :
  In g (plan_groups (online_plan uk lo hi) db) ->
  exists name d,
    let sessions := filter (fun l => counted uk lo hi l && in_group name d l)
                           (login_logs db) in
    g = map login_row sessions /\ sessions <> []
    /\ out_of (online_plan uk lo hi) g
       = [("username", VText name); ("date", VDate d);
          ("total_seconds", VBig (total_duration sessions));
          ("session_count", VBig (Z.of_nat (length sessions)))].
Proof.
  unfold plan_groups. rewrite online_rows. cbn [groups_of online_plan
    p_grouped p_group]. intros Hg. apply group_by_shape in Hg.
  destruct Hg as (r0 & rest & Hcons & Hr0 & Hg).
  apply in_map_iff in Hr0. destruct Hr0 as (l0 & <- & Hl0).
  exists (l_username l0), (DATE (l_login_time l0)). cbn zeta.
  assert (Hmap : g = map login_row
            (filter (fun l => counted uk lo hi l
                              && in_group (l_username l0)
                                          (DATE (l_login_time l0)) l)
                    (login_logs db))).
  { rewrite Hg, filter_map_comm, filter_and. f_equal.
    apply filter_ext. intros l. now rewrite same_group. }
  split; [exact Hmap|].
  remember (filter _ (login_logs db)) as sessions eqn:Hs in Hmap |- *.
  assert (Hne : sessions <> []).
  { intros ->. rewrite Hcons in Hmap. discriminate. }
  split; [exact Hne|]. rewrite Hmap.
  unfold out_of. cbn [online_plan p_items map fst snd].
  rewrite sum_durations; [|exact Hne|].
  - destruct sessions as [|l1 ls]; [congruence|].
    assert (Hin : In l1 (l1 :: ls)) by now left.
    rewrite Hs in Hin. apply filter_In in Hin. destruct Hin as [_ Hin].
    apply andb_true_iff in Hin. destruct Hin as [_ Hin].
    unfold in_group in Hin. apply andb_true_iff in Hin.
    destruct Hin as [E1 E2]. apply String.eqb_eq in E1.
    apply Z.eqb_eq in E2. cbn. rewrite length_map, E1, E2. reflexivity.
  - intros l Hl. rewrite Hs in Hl. apply filter_In in Hl.
    destruct Hl as [_ Hl]. unfold counted in Hl.
    destruct (l_session_duration l); [discriminate|discriminate Hl].
Qed.

(** ** Handlers that do not see a change of the database *)

Section Blind.
Variable T : DB -> DB.

Lemma blind_ret A (a : A) : blind T (ret a).
Proof. intros w. reflexivity. Qed.

Lemma blind_throw A e : blind T (@throw A e).
Proof. intros w. reflexivity. Qed.

Lemma blind_bind A B (m : M A) (k : A -> M B) :
  blind T m -> (forall a, blind T (k a)) -> blind T (bind m k).
Proof.
  intros Hm Hk w. unfold bind. rewrite (Hm w).
  destruct (m w) as [[a|e] w1]; simpl; [apply Hk|reflexivity].
Qed.

Lemma blind_catch A (m : M A) (h : string -> M A) :
  blind T m -> (forall e, blind T (h e)) -> blind T (try_catch m h).
Proof.
  intros Hm Hh w. unfold try_catch. rewrite (Hm w).
  destruct (m w) as [[a|e] w1]; simpl; [reflexivity|apply Hh].
Qed.

Lemma blind_query sql repl :
  blind_sql T sql -> blind T (sequelize_query sql repl).
Proof.
  intros H w. unfold sequelize_query, on_db. simpl. rewrite H.
  now destruct (pg_exec sql repl (w_db w)).
Qed.

Lemma router_blind e req :
  (forall sql, In sql (statements e) -> blind_sql T sql) ->
  blind T (router e req).
Proof.
  apply (router_compositional (@blind T) (blind_sql T)
           blind_ret blind_throw blind_bind blind_catch blind_query).
Qed.

Lemma run_plan_same_rows p db1 db2 :
  filtered_rows p db1 = filtered_rows p db2 ->
  run_plan p db1 = run_plan p db2.
Proof.
  intros H. unfold run_plan. fold (filtered_rows p db1).
  fold (filtered_rows p db2). now rewrite H.
Qed.

(** A statement that is rejected as it stands is blind. *)
Lemma blind_sql_rejected sql :
  parse_stmt sql = None -> blind_sql T sql.
Proof. intros H repl db. unfold pg_exec. now rewrite H. Qed.

Lemma blind_sql_select sql q :
  parse_stmt sql = Some (SSelect q) ->
  (forall repl p db, analyze_select q repl = Ok p ->
                     run_plan p (T db) = run_plan p db) ->
  blind_sql T sql.
Proof.
  intros Hq Hp repl db. unfold pg_exec. rewrite Hq.
  destruct (analyze_select q repl) as [p|m] eqn:E; simpl;
    [|reflexivity].
  now rewrite (Hp repl p db E).
Qed.
End Blind.

Lemma rows_of_other_table db t :
  (t =? "login_logs") = false ->
  rows_of (only_successful db) t = rows_of db t.
Proof.
  intros H. unfold rows_of, table_rows. rewrite H. reflexivity.
Qed.

(** A statement that does not read login_logs. *)
Lemma other_tables_same p db :
  (p_table p =? "login_logs") = false ->
  forallb (fun j => negb (fst j =? "login_logs")) (p_joins p) = true ->
  filtered_rows p (only_successful db) = filtered_rows p db.
Proof.
  intros Ht Hj. unfold filtered_rows, joined_rows. f_equal.
  rewrite (rows_of_other_table db _ Ht).
  generalize (map (fun r => [Some r]) (rows_of db (p_table p))).
  induction (p_joins p) as [|j js IH]; intros rows; [reflexivity|].
  simpl in *. apply andb_true_iff in Hj. destruct Hj as [Hj Hjs].
  apply negb_true_iff in Hj. rewrite (rows_of_other_table db _ Hj).
  now apply IH.
Qed.

Lemma filter_implied {A : Type} (f g : A -> bool) l :
  (forall a, f a = true -> g a = true) ->
  filter f (filter g l) = filter f l.
Proof.
  intros H. rewrite filter_and. apply filter_ext. intros a.
  destruct (f a) eqn:E; [now rewrite (H a E)|apply andb_false_r].
Qed.

(** A statement over login_logs whose WHERE asks for success. *)
Lemma successful_only_same p db :
  p_table p = "login_logs" -> p_joins p = [] ->
  (forall l, holds_opt (p_where p) (login_row l) = true ->
             l_login_success l = true) ->
  filtered_rows p (only_successful db) = filtered_rows p db.
Proof.
  intros Ht Hj Hw. rewrite !single_table_rows, Ht by assumption.
  cbn [rows_of table_rows String.eqb Ascii.eqb Bool.eqb only_successful
       login_logs].
  rewrite !map_map, !filter_map_comm. f_equal.
  apply filter_implied. exact Hw.
Qed.

Lemma flat_map_ext_in {A B : Type} (f g : A -> list B) l :
  (forall a, In a l -> f a = g a) -> flat_map f l = flat_map g l.
Proof.
  induction l as [|a l IH]; intros H; simpl; [reflexivity|].
  rewrite (H a) by now left. f_equal. apply IH. intros. apply H. now right.
Qed.

(** The user statements join login_logs on success. *)
Lemma user_joins_same p db :
  p_table p = "users" -> p_joins p = user_joins ->
  filtered_rows p (only_successful db) = filtered_rows p db.
Proof.
  intros Ht Hj. unfold filtered_rows, joined_rows. f_equal.
  rewrite Ht, Hj. cbn [user_joins fold_left fst snd].
  change (rows_of (only_successful db) "users") with (rows_of db "users").
  change (rows_of (only_successful db) "generations")
    with (rows_of db "generations").
  change (rows_of (only_successful db) "login_logs")
    with (map RLogin (filter l_login_success (login_logs db))).
  change (rows_of db "login_logs") with (map RLogin (login_logs db)).
  unfold left_join at 1 3. apply flat_map_ext_in. intros jr Hjr.
  apply left_join_In in Hjr. destruct Hjr as (jr0 & g & Hjr0 & ->).
  change (rows_of db "users") with (map RUser (users db)) in Hjr0.
  rewrite map_map in Hjr0. apply in_map_iff in Hjr0.
  destruct Hjr0 as (u & <- & _).
  rewrite !map_map, !filter_map_comm.
  rewrite filter_implied; [reflexivity|].
  intros l. rewrite holds_and. intros H.
  apply andb_true_iff in H. destruct H as [_ H].
  unfold holds in H. cbn in H. now destruct (l_login_success l).
Qed.

(** Case analysis of a successful analysis down to the plan. *)
Ltac invert_analysis H :=
  cbn in H;
  unfold rbind, of_option, option_map, analyze_bound, const_of in H;
  cbn in H;
  repeat match type of H with
         | context [match ?x with _ => _ end] =>
             lazymatch x with
             | context [match _ with _ => _ end] => fail
             | _ => destruct x eqn:?; cbn in H; try discriminate H
             end
         end.

Ltac asks_for_success :=
  let l := fresh "l" in
  let Hh := fresh "Hh" in
  intros l Hh; cbn [holds_opt p_where] in Hh;
  repeat (rewrite holds_and in Hh; apply andb_true_iff in Hh;
          destruct Hh as [_ Hh]);
  change (holds success_cond (login_row l) = true) in Hh;
  now rewrite holds_success in Hh.

Ltac blind_to_failures :=
  first
    [ apply blind_sql_rejected; vm_compute; reflexivity
    | eapply blind_sql_select;
      [ vm_compute; reflexivity
      | let H := fresh "H" in
        intros ? ? ? H; invert_analysis H; injection H as <-;
        apply run_plan_same_rows;
        first [ apply other_tables_same; reflexivity
              | apply user_joins_same; reflexivity
              | apply successful_only_same;
                [reflexivity|reflexivity|asks_for_success] ] ] ].

(** Every statement of the endpoints other than /online-duration gives
    the same rows once the failed logins are removed. *)
Lemma statements_blind_to_failures e sql :
  e <> GetOnlineDuration -> In sql (statements e) ->
  blind_sql only_successful sql.
Proof.
  intros He Hin. destruct e; try congruence; cbn in Hin;
    repeat (destruct Hin as [<-|Hin]; [blind_to_failures|]);
    contradiction.
Qed.

(** ** Statements that do not mention a column *)

Lemma insert_sorted_map {A : Type} (le : A -> A -> bool) (f : A -> A) x l :
  (forall a b, le (f a) (f b) = le a b) ->
  insert_sorted le (f x) (map f l) = map f (insert_sorted le x l).
Proof.
  intros H. induction l as [|y l IH]; simpl; [reflexivity|].
  rewrite H. destruct (le x y); simpl; [reflexivity|]. now rewrite IH.
Qed.

Lemma sort_map {A : Type} (le : A -> A -> bool) (f : A -> A) l :
  (forall a b, le (f a) (f b) = le a b) ->
  sort le (map f l) = map f (sort le l).
Proof.
  intros H. induction l as [|x l IH]; simpl; [reflexivity|].
  rewrite IH. now apply insert_sorted_map.
Qed.

(** The rows of the two databases differ by [phi], which no part of the
    plan can tell. *)
Lemma run_plan_equivariant p db1 db2 (phi : jrow -> jrow) :
  joined_rows p db1 = map phi (joined_rows p db2) ->
  (forall r, holds_opt (p_where p) (phi r) = holds_opt (p_where p) r) ->
  (forall r, group_key (p_group p) (phi r) = group_key (p_group p) r) ->
  (forall g, out_of p (map phi g) = out_of p g) ->
  (forall g o, order_keys p (map phi g, o) = order_keys p (g, o)) ->
  run_plan p db1 = run_plan p db2.
Proof.
  intros Hrows Hwhere Hkey Hout Horder. unfold run_plan.
  rewrite Hrows, filter_map_comm.
  rewrite (filter_ext _ (holds_opt (p_where p)) Hwhere).
  set (rows := filter (holds_opt (p_where p)) (joined_rows p db2)).
  assert (Hgroups : groups_of p (map phi rows)
                    = map (map phi) (groups_of p rows)).
  { unfold groups_of. destruct (p_grouped p).
    - destruct (p_group p) as [|e es] eqn:Eg; [reflexivity|].
      rewrite <- Eg in *. unfold group_by. rewrite !map_map.
      rewrite (map_ext _ _ Hkey). apply map_ext. intros k.
      rewrite filter_map_comm. f_equal. apply filter_ext. intros r.
      unfold same_key. now rewrite Hkey.
    - rewrite !map_map. reflexivity. }
  rewrite Hgroups, map_map.
  set (psi := fun x : list jrow * outrow => (map phi (fst x), snd x)).
  rewrite (map_ext (fun g => (map phi g, out_of p (map phi g)))
                   (fun g => psi (g, out_of p g)))
    by (intros g; unfold psi; simpl; now rewrite Hout).
  rewrite <- (map_map (fun g => (g, out_of p g)) psi).
  rewrite sort_map.
  - rewrite skipn_map. unfold limit_rows.
    destruct (p_limit p); rewrite ?firstn_map, map_map; reflexivity.
  - intros [g o] [g' o']. unfold order_leb, psi. simpl.
    now rewrite !Horder.
Qed.

Section Flags.
Variable f : login_log -> bool.

Local Abbreviation reflag := (reflag f).
Local Abbreviation reflag_row := (reflag_row f).

Lemma trow_col_reflag t col :
  (col =? "login_success") = false ->
  trow_col (reflag t) col = trow_col t col.
Proof.
  intros H. destruct t; try reflexivity.
  cbn [reflag trow_col]. unfold login_log_col. rewrite H. reflexivity.
Qed.

Lemma col_value_reflag r c :
  negb (c_col c =? "login_success") = true ->
  col_value (reflag_row r) c = col_value r c.
Proof.
  intros H. apply negb_true_iff in H. unfold col_value, reflag_row.
  rewrite nth_error_map. destruct (nth_error r (c_idx c)) as [[t|]|];
    cbn; [now apply trow_col_reflag|reflexivity|reflexivity].
Qed.

Lemma eval_cond_reflag c r :
  cond_avoids "login_success" c = true ->
  eval_cond c (reflag_row r) = eval_cond c r.
Proof.
  induction c as [l op r'|x|a IHa b IHb|a IHa b IHb]; cbn; intros H.
  - apply andb_true_iff in H. destruct H as [Hl Hr].
    destruct l, r'; cbn; rewrite ?col_value_reflag by assumption;
      reflexivity.
  - now rewrite col_value_reflag.
  - apply andb_true_iff in H. destruct H. now rewrite IHa, IHb.
  - apply andb_true_iff in H. destruct H. now rewrite IHa, IHb.
Qed.

Lemma holds_opt_reflag c r :
  match c with
  | Some c' => cond_avoids "login_success" c'
  | None => true
  end = true ->
  holds_opt c (reflag_row r) = holds_opt c r.
Proof.
  destruct c as [c|]; [|reflexivity]. intros H. unfold holds_opt, holds.
  now rewrite eval_cond_reflag.
Qed.

Lemma eval_expr_reflag e g :
  expr_avoids "login_success" e = true ->
  eval_expr e (map reflag_row g) = eval_expr e g.
Proof.
  intros H. destruct e as [x|x| |x flt|x|x]; cbn in *.
  - destruct g; cbn; [reflexivity|now apply col_value_reflag].
  - destruct g; cbn; [reflexivity|now rewrite col_value_reflag].
  - now rewrite length_map.
  - apply andb_true_iff in H. destruct H as [Hx Hf].
    rewrite (filter_map_comm reflag_row (holds_opt flt)), map_map.
    rewrite (filter_ext _ (holds_opt flt)
               (fun r => holds_opt_reflag flt r Hf)).
    now rewrite (map_ext _ (fun r => col_value r x)
                   (fun r => col_value_reflag r x Hx)).
  - rewrite map_map.
    now rewrite (map_ext _ (fun r => col_value r x)
                   (fun r => col_value_reflag r x H)).
  - rewrite map_map.
    now rewrite (map_ext _ (fun r => col_value r x)
                   (fun r => col_value_reflag r x H)).
Qed.

Lemma rows_of_with_flags db t :
  rows_of (with_flags f db) t = map reflag (rows_of db t).
Proof.
  unfold rows_of, table_rows.
  destruct (t =? "users"); [|destruct (t =? "generations");
    [|destruct (t =? "login_logs"); [|destruct (t =? "templates")]]];
    cbn; rewrite ?map_map; try reflexivity;
    symmetry; apply map_id.
Qed.

(** A statement over one table that does not mention login_success
    gives the same rows whatever the flags are. *)
Lemma avoids_flag_same p db :
  p_joins p = [] -> plan_avoids "login_success" p = true ->
  run_plan p (with_flags f db) = run_plan p db.
Proof.
  intros Hj Hp. unfold plan_avoids in Hp.
  apply andb_true_iff in Hp. destruct Hp as [Hp Ho].
  apply andb_true_iff in Hp. destruct Hp as [Hp Hi].
  apply andb_true_iff in Hp. destruct Hp as [Hw Hg].
  rewrite forallb_forall in Hg, Hi, Ho.
  apply (run_plan_equivariant p _ _ reflag_row).
  - unfold joined_rows. rewrite Hj. cbn [fold_left].
    rewrite rows_of_with_flags, !map_map. reflexivity.
  - intros r. now apply holds_opt_reflag.
  - intros r. unfold group_key. apply map_ext_in. intros e He.
    apply (eval_expr_reflag e [r]). now apply Hg.
  - intros g. unfold out_of. apply map_ext_in. intros it Hit.
    f_equal. apply eval_expr_reflag. now apply Hi.
  - intros g o. unfold order_keys. apply map_ext_in. intros k Hk.
    specialize (Ho k Hk). unfold okey_avoids in Ho.
    destruct k as [[name|x] desc]; cbn in *; [reflexivity|].
    destruct g; cbn; [reflexivity|now apply col_value_reflag].
Qed.
End Flags.

Ltac blind_to_flags :=
  eapply blind_sql_select;
  [ vm_compute; reflexivity
  | let H := fresh "H" in
    intros ? ? ? H; invert_analysis H; injection H as <-;
    apply avoids_flag_same; reflexivity ].

(** The statements of /online-duration give the same rows whatever the
    success flags are. *)
Lemma duration_statements_blind_to_flags f sql :
  In sql (statements GetOnlineDuration) -> blind_sql (with_flags f) sql.
Proof.
  intros Hin. cbn in Hin.
  repeat (destruct Hin as [<-|Hin]; [blind_to_flags|]).
  contradiction.
Qed.

Lemma sum_ones {A : Type} (l : list A) :
  fold_right Z.add 0%Z (map (fun _ => 1%Z) l) = Z.of_nat (length l).
Proof.
  induction l as [|a l IH]; [reflexivity|].
  cbn [map fold_right length]. rewrite IH, Nat2Z.inj_succ. lia.
Qed.

Lemma sum_field_groups name p (wt : jrow -> Z) gs :
  (forall g, In g gs ->
             big_field name (out_of p g) = fold_right Z.add 0%Z (map wt g)) ->
  sum_field name (map (out_of p) gs)
  = fold_right Z.add 0%Z
      (map (fun g => fold_right Z.add 0%Z (map wt g)) gs).
Proof.
  intros H. unfold sum_field. rewrite map_map. f_equal.
  apply map_ext_in. exact H.
Qed.

Lemma online_sum name (wt : jrow -> Z) uk lo hi db :
  (forall g, In g (plan_groups (online_plan uk lo hi) db) ->
             big_field name (out_of (online_plan uk lo hi) g)
             = fold_right Z.add 0%Z (map wt g)) ->
  sum_field name (run_plan (online_plan uk lo hi) db)
  = fold_right Z.add 0%Z
      (map wt (map login_row (filter (counted uk lo hi) (login_logs db)))).
Proof.
  intros H.
  rewrite (sum_field_perm _ _ _
             (run_plan_unlimited (online_plan uk lo hi) db
                                 eq_refl eq_refl)).
  rewrite (sum_field_groups name _ wt _ H).
  unfold plan_groups. rewrite online_rows.
  apply (group_by_weights (p_group (online_plan uk lo hi))).
Qed.

(** C10. GET /online-duration with valid filters answers one row per user
    name and day; the row adds up the durations and counts the sessions
    of exactly the login rows that have a session duration and pass the
    userId and date filters.  The success flag plays no part: the answer
    is the same whatever the flags are.  Every other endpoint answers the
    same once the failed logins are removed: it counts successful logins
    only. *)
Theorem online_duration_counts req w uk lo hi :
  user_bound (q_userId req) = Ok uk ->
  date_bound (q_dateFrom req) = Ok lo ->
  date_bound (q_dateTo req) = Ok hi ->
  (exists rows w',
      online_duration_handler req w
      = (Ok {| status := 200; payload := BOnlineDuration rows |}, w')
      /\ (forall row, In row rows ->
            exists name d,
              let sessions :=
                filter (fun l => counted uk lo hi l && in_group name d l)
                       (login_logs (w_db w)) in
              sessions <> []
              /\ row = [("username", VText name); ("date", VDate d);
                        ("total_seconds", VBig (total_duration sessions));
                        ("session_count",
                         VBig (Z.of_nat (length sessions)))])
      /\ sum_field "session_count" rows
         = Z.of_nat (length (filter (counted uk lo hi)
                                    (login_logs (w_db w))))
      /\ sum_field "total_seconds" rows
         = total_duration (filter (counted uk lo hi)
                                  (login_logs (w_db w))))
  /\ (forall f,
        fst (online_duration_handler req (on_db (with_flags f) w))
        = fst (online_duration_handler req w))
  /\ (forall e, e <> GetOnlineDuration ->
        fst (router e req (on_db only_successful w))
        = fst (router e req w)).
Proof.
  intros Hu Hlo Hhi. split; [|split].
  - destruct (online_duration_run req w uk lo hi Hu Hlo Hhi) as (q & Hrun).
    eexists _, _. split; [exact Hrun|]. clear Hrun. split; [|split].
    + intros row Hrow. apply run_plan_In in Hrow.
      destruct Hrow as (g & Hg & ->).
      destruct (online_group uk lo hi (w_db w) g Hg)
        as (name & d & _ & Hne & Hout).
      exists name, d. cbn zeta. split; [exact Hne|exact Hout].
    + rewrite (online_sum "session_count" (fun _ => 1%Z)).
      * now rewrite sum_ones, length_map.
      * intros g Hg.
        destruct (online_group uk lo hi (w_db w) g Hg)
          as (name & d & Hmap & _ & Hout).
        rewrite Hout, sum_ones, Hmap, length_map. reflexivity.
    + rewrite (online_sum "total_seconds" row_duration).
      * now rewrite map_map.
      * intros g Hg.
        destruct (online_group uk lo hi (w_db w) g Hg)
          as (name & d & Hmap & _ & Hout).
        rewrite Hout, Hmap, map_map. reflexivity.
  - intros f.
    change (online_duration_handler req)
      with (router GetOnlineDuration req).
    rewrite (router_blind (with_flags f) GetOnlineDuration req
               (duration_statements_blind_to_flags f) w).
    reflexivity.
  - intros e He.
    rewrite (router_blind only_successful e req
               (fun sql => statements_blind_to_failures e sql He) w).
    reflexivity.
Qed.

(** ** GET /logins with a date *)

Lemma logins_run req w lo hi :
  date_bound (q_dateFrom req) = Ok lo ->
  date_bound (q_dateTo req) = Ok hi ->
  bounds (col0 "login_time" TTime) lo hi <> [] ->
  exists q,
    logins_handler req w =
      (Ok {| status := 200;
             payload := BLogins (run_plan (logins_plan lo hi) (w_db w)) |},
       {| w_db := w_db w; w_issued := w_issued w ++ [q] |}).
Proof.
  intros Hlo Hhi Hne. split_bound Hlo; split_bound Hhi;
    try (exfalso; apply Hne; reflexivity);
    eexists; unfold logins_handler;
    rewrite ?E, ?E0; cbn;
    unfold try_catch, bind, sequelize_query, pg_exec;
    parse_text; cbn; rewrite ?Et, ?Et0; cbn; reflexivity.
Qed.

Lemma same_day l0 l :
  same_key [XDate (col0 "login_time" TTime)]
           (group_key [XDate (col0 "login_time" TTime)] (login_row l0))
           (login_row l)
  = (DATE (l_login_time l) =? DATE (l_login_time l0))%Z.
Proof.
  destruct (DATE (l_login_time l) =? DATE (l_login_time l0))%Z eqn:E.
  - apply same_key_spec. cbn. apply Z.eqb_eq in E. now rewrite E.
  - destruct (same_key _ _ _) eqn:S; [|reflexivity].
    apply same_key_spec in S. cbn in S. apply Z.eqb_neq in E.
    now inversion S.
Qed.

(** With at least one valid date GET /logins answers 200 with one row
    per day: the number of distinct users among the successful logins of
    that day in the range, and the number of those logins. *)
Lemma logins_with_dates req w lo hi :
  date_bound (q_dateFrom req) = Ok lo ->
  date_bound (q_dateTo req) = Ok hi ->
  bounds (col0 "login_time" TTime) lo hi <> [] ->
  exists rows w',
    logins_handler req w
    = (Ok {| status := 200; payload := BLogins rows |}, w')
    /\ forall row, In row rows ->
         exists d,
           let logins := filter (logged_on lo hi d) (login_logs (w_db w)) in
           logins <> []
           /\ row = [("date", VDate d);
                     ("unique_users",
                      VBig (Z.of_nat (distinct_users logins)));
                     ("total_logins", VBig (Z.of_nat (length logins)))].
Proof.
  intros Hlo Hhi Hne.
  destruct (logins_run req w lo hi Hlo Hhi Hne) as (q & Hrun).
  eexists _, _. split; [exact Hrun|]. clear Hrun.
  intros row Hrow. apply run_plan_In in Hrow.
  destruct Hrow as (g & Hg & ->). unfold plan_groups in Hg.
  rewrite (successful_rows _ lo hi) in Hg by reflexivity.
  cbn [groups_of logins_plan p_grouped p_group] in Hg.
  apply group_by_shape in Hg.
  destruct Hg as (r0 & rest & Hcons & Hr0 & Hg).
  apply in_map_iff in Hr0. destruct Hr0 as (l0 & <- & Hl0).
  exists (DATE (l_login_time l0)). cbn zeta.
  assert (Hmap : g = map login_row
            (filter (logged_on lo hi (DATE (l_login_time l0)))
                    (login_logs (w_db w)))).
  { rewrite Hg, filter_map_comm, filter_and. f_equal.
    apply filter_ext. intros l. unfold logged_on. now rewrite same_day. }
  remember (filter _ (login_logs (w_db w))) as logins eqn:Hs in Hmap |- *.
  assert (Hnil : logins <> []).
  { intros ->. rewrite Hcons in Hmap. discriminate. }
  split; [exact Hnil|]. rewrite Hmap.
  unfold out_of. cbn [logins_plan p_items map fst snd eval_expr].
  rewrite count_distinct_users, length_map.
  destruct logins as [|l1 ls]; [congruence|].
  assert (Hin : In l1 (l1 :: ls)) by now left.
  rewrite Hs in Hin. apply filter_In in Hin. destruct Hin as [_ Hin].
  unfold logged_on in Hin. apply andb_true_iff in Hin.
  destruct Hin as [_ E]. apply Z.eqb_eq in E. cbn. now rewrite E.
Qed.

(** ** Parameters the database rejects *)

(** X1. On every endpoint that takes a date range, a dateFrom or dateTo
    that the database does not accept as a timestamp makes the first
    statement fail: the handler answers 500 with the generic message,
    having sent that one statement. *)
Theorem rejected_date_500 e req w :
  e <> GetUser ->
  rejected timestamp_in (q_dateFrom req) = true
  \/ rejected timestamp_in (q_dateTo req) = true ->
  exists q,
    router e req w
    = (Ok server_error,
       {| w_db := w_db w; w_issued := w_issued w ++ [q] |}).
Proof.
  intros He Hrej. unfold rejected in Hrej.
  destruct (truthy (q_dateFrom req)) as [d1|] eqn:E1;
    [destruct (timestamp_in d1) as [t1|] eqn:T1|];
    (destruct (truthy (q_dateTo req)) as [d2|] eqn:E2;
     [destruct (timestamp_in d2) as [t2|] eqn:T2|]);
    try (destruct Hrej; discriminate); clear Hrej.
  all: destruct e; try congruence; cbn [router].
  all: try match goal with
           | |- context [online_duration_handler] =>
               unfold online_duration_handler;
               destruct (truthy (q_userId req)) as [u|] eqn:Eu;
               [destruct (key_in u) as [k|] eqn:Ek|]
           end.
  all: eexists.
  all: cbv beta zeta delta [users_handler registrations_handler
                            logins_handler overview_handler].
  all: rewrite ?E1, ?E2; cbn; run_handler; rewrite ?T1, ?T2, ?Ek; cbn.
  all: reflexivity.
Qed.

(** X2. An id that the database does not accept as a key makes the user
    statement of GET /users/:userId fail: the answer is 500, not 404,
    and no other statement is sent. *)
Theorem rejected_user_id_500 req w :
  key_in (params_userId req) = None ->
  user_detail_handler req w
  = (Ok server_error,
     {| w_db := w_db w;
        w_issued := w_issued w ++ [(user_info_sql, user_id_param req)] |}).
Proof.
  intros Hk. unfold user_detail_handler. run_handler. rewrite Hk. cbn.
  reflexivity.
Qed.

(** X3. A userId filter that the database does not accept as a key makes
    GET /online-duration answer 500, whatever the dates. *)
Theorem rejected_user_filter_500 req w :
  rejected key_in (q_userId req) = true ->
  exists q,
    online_duration_handler req w
    = (Ok server_error,
       {| w_db := w_db w; w_issued := w_issued w ++ [q] |}).
Proof.
  unfold rejected. intros Hrej.
  destruct (truthy (q_userId req)) as [u|] eqn:Eu; [|discriminate].
  destruct (key_in u) as [k|] eqn:Ek; [discriminate|]. clear Hrej.
  unfold online_duration_handler. rewrite Eu.
  destruct (truthy (q_dateFrom req)) as [d1|] eqn:E1;
    destruct (truthy (q_dateTo req)) as [d2|] eqn:E2;
    eexists; cbn; run_handler; rewrite Ek; cbn; reflexivity.
Qed.

(** ** Every request is answered *)

Lemma returns_bind {A : Type} good (m : M A) (k : A -> M response) :
  (forall a, returns good (k a)) -> returns good (bind m k).
Proof.
  intros Hk w r w'. unfold bind. destruct (m w) as [[a|e] w1].
  - apply Hk.
  - discriminate.
Qed.

Lemma returns_json good (b : body) :
  good {| status := 200; payload := b |} -> returns good (json b).
Proof. intros H w r w' E. inversion E; subst. exact H. Qed.

Lemma returns_status good code (b : body) :
  good {| status := code; payload := b |} -> returns good (status_json code b).
Proof. intros H w r w' E. inversion E; subst. exact H. Qed.

Lemma caught_returns good (m : M response) w :
  returns good m ->
  exists r, fst (try_catch m internal_error w) = Ok r
            /\ (good r \/ r = server_error).
Proof.
  intros H. unfold try_catch. destruct (m w) as [[r|e] w1] eqn:E.
  - exists r. split; [reflexivity|]. left. eapply H; eauto.
  - exists server_error. split; [reflexivity|]. now right.
Qed.

Ltac returns_ok :=
  repeat (apply returns_bind; intros);
  try (apply returns_json; left; split; reflexivity).

(** X4. No exception leaves a handler and no error text reaches the
    client: every request is answered, with status 200 and the body of
    its endpoint, with the 404 of GET /users/:userId, or with status 500
    and the one generic message. *)
Theorem router_answers e req w :
  exists r, fst (router e req w) = Ok r
            /\ (success_of e r \/ r = server_error).
Proof.
  destruct e; cbn [router].
  - unfold users_handler. apply caught_returns.
    destruct (truthy (q_dateFrom req)), (truthy (q_dateTo req));
      cbv zeta; returns_ok.
  - unfold user_detail_handler. apply caught_returns.
    apply returns_bind. intros [|info rest].
    + apply returns_status. right. split; reflexivity.
    + returns_ok.
  - unfold registrations_handler. apply caught_returns.
    destruct (truthy (q_dateFrom req)), (truthy (q_dateTo req));
      cbv zeta; returns_ok.
  - unfold logins_handler. apply caught_returns.
    destruct (truthy (q_dateFrom req)), (truthy (q_dateTo req));
      cbv zeta; returns_ok.
  - unfold online_duration_handler. apply caught_returns.
    destruct (truthy (q_userId req)), (truthy (q_dateFrom req)),
      (truthy (q_dateTo req)); cbv zeta; returns_ok.
  - unfold overview_handler. apply caught_returns.
    destruct (truthy (q_dateFrom req)), (truthy (q_dateTo req));
      cbv zeta; returns_ok.
Qed.

(** ** Request values travel as replacements *)

Lemma sends_ret ok A (a : A) : sends ok (ret a).
Proof.
  intros w. exists []. split; [|constructor]. simpl. now rewrite app_nil_r.
Qed.

Lemma sends_throw ok A e : sends ok (@throw A e).
Proof.
  intros w. exists []. split; [|constructor]. simpl. now rewrite app_nil_r.
Qed.

Lemma sends_bind ok A B (m : M A) (k : A -> M B) :
  sends ok m -> (forall a, sends ok (k a)) -> sends ok (bind m k).
Proof.
  intros Hm Hk w. unfold bind. destruct (Hm w) as (qs & Hq & Hs).
  destruct (m w) as [[a|e] w1]; simpl in *.
  - destruct (Hk a w1) as (qs' & Hq' & Hs').
    exists (qs ++ qs'). split; [|now apply Forall_app].
    now rewrite Hq', Hq, app_assoc.
  - exists qs. auto.
Qed.

Lemma sends_catch ok A (m : M A) (h : string -> M A) :
  sends ok m -> (forall e, sends ok (h e)) -> sends ok (try_catch m h).
Proof.
  intros Hm Hh w. unfold try_catch. destruct (Hm w) as (qs & Hq & Hs).
  destruct (m w) as [[a|e] w1]; simpl in *.
  - exists qs. auto.
  - destruct (Hh e w1) as (qs' & Hq' & Hs').
    exists (qs ++ qs'). split; [|now apply Forall_app].
    now rewrite Hq', Hq, app_assoc.
Qed.

Lemma sends_query (ok : string -> replacements -> Prop) sql repl :
  ok sql repl -> sends ok (sequelize_query sql repl).
Proof.
  intros H w. unfold sequelize_query.
  destruct (pg_exec sql repl (w_db w)) as [r db']. simpl.
  exists [(sql, repl)]. split; [reflexivity|].
  constructor; [exact H|constructor].
Qed.

Lemma sends_first_field ok name rows : sends ok (first_field name rows).
Proof. destruct rows; [apply sends_throw|apply sends_ret]. Qed.

Ltac sends_all :=
  repeat lazymatch goal with
  | |- sends _ (try_catch _ _) =>
      apply sends_catch; [|intros; apply sends_ret]
  | |- sends _ (bind _ _) => apply sends_bind; [|intros]
  | |- sends _ (ret _) => apply sends_ret
  | |- sends _ (first_field _ _) => apply sends_first_field
  | |- sends _ (sequelize_query _ _) =>
      apply sends_query; split;
      [apply in_string_list|]; vm_compute; reflexivity
  end.

(** X5. Whatever the request, the text of every statement a handler
    sends is one of the fixed texts of its endpoint, chosen by which
    filters are present; the values of the request travel in the
    replacements only, and every [:name] of the text has a value
    there. *)
Theorem router_binds_parameters e req w :
  exists qs,
    w_issued (snd (router e req w)) = w_issued w ++ qs
    /\ Forall (fun q => In (fst q) (statements e)
                        /\ binds_all (fst q) (snd q) = true) qs.
Proof.
  revert w.
  change (sends (fun sql repl => In sql (statements e)
                                 /\ binds_all sql repl = true)
                (router e req)).
  destruct e; cbn [router].
  - unfold users_handler.
    destruct (truthy (q_dateFrom req)), (truthy (q_dateTo req));
      cbv zeta; unfold json; sends_all.
  - unfold user_detail_handler. sends_all.
    destruct a; unfold status_json, json; sends_all.
  - unfold registrations_handler.
    destruct (truthy (q_dateFrom req)), (truthy (q_dateTo req));
      cbv zeta; unfold json; sends_all.
  - unfold logins_handler.
    destruct (truthy (q_dateFrom req)), (truthy (q_dateTo req));
      cbv zeta; unfold json; sends_all.
  - unfold online_duration_handler.
    destruct (truthy (q_userId req)), (truthy (q_dateFrom req)),
      (truthy (q_dateTo req)); cbv zeta; unfold json; sends_all.
  - unfold overview_handler.
    destruct (truthy (q_dateFrom req)), (truthy (q_dateTo req));
      cbv zeta; unfold json; sends_all.
Qed.

(** ** Paging of GET /users at its edges *)

(** A product that is not zero is the integer product. *)
Lemma offset_nonzero p l :
  ((p + -1) * l <> 0)%Z ->
  num_mul (num_sub (Int p) (Int 1)) (Int l) = Int ((p + -1) * l).
Proof.
  intros H. unfold num_sub, num_neg, minus. cbn [Z.eqb Z.opp num_add].
  unfold num_mul. cbn [negative is_finite is_zero andb].
  destruct (Z.eqb_spec (p + -1) 0) as [Ep|Ep]; [rewrite Ep in H; lia|].
  destruct (Z.eqb_spec l 0) as [El|El]; [subst l; lia|].
  reflexivity.
Qed.

(** X6. GET /users answers 500 when the limit does not parse to a
    non-negative integer, and when page and limit are integers whose
    offset (page - 1) * limit is negative: page 0, a negative page, or
    an empty page parameter, which counts as 0. *)
Theorem users_bad_paging_500 req w p l :
  row_count (parseInt (limit_of req)) = None
  \/ (to_number (page_of req) = Int p /\ to_number (limit_of req) = Int l
      /\ ((p - 1) * l < 0)%Z) ->
  exists q,
    users_handler req w
    = (Ok server_error,
       {| w_db := w_db w; w_issued := w_issued w ++ [q] |}).
Proof.
  intros Hbad. unfold page_of, limit_of in Hbad.
  cbv beta zeta delta [users_handler].
  destruct Hbad as [Hl | (Hp & Hl & Hneg)].
  - destruct (parseInt (default (q_limit req) (JNum (Int 50))))
      as [n|m e| | | |] eqn:EL; cbn in Hl;
      [destruct (n <? 0)%Z eqn:En|..]; try discriminate.
    all: destruct (truthy (q_dateFrom req)) as [d1|] eqn:E1;
      [destruct (timestamp_in d1) as [t1|] eqn:T1|];
      (destruct (truthy (q_dateTo req)) as [d2|] eqn:E2;
       [destruct (timestamp_in d2) as [t2|] eqn:T2|]).
    all: eexists; cbn; run_handler; rewrite ?T1, ?T2; cbn.
    all: try reflexivity.
    all: unfold analyze_bound, const_of; cbn; rewrite ?En; cbn.
    all: try reflexivity.
  - rewrite Hp, Hl, offset_nonzero, parseInt_int by lia.
    assert (Hoff : ((p + -1) * l <? 0)%Z = true) by (apply Z.ltb_lt; lia).
    remember ceil_div as pages eqn:Hpages.
    destruct (parseInt (default (q_limit req) (JNum (Int 50))))
      as [n|m e| | | |] eqn:EL;
      [destruct (n <? 0)%Z eqn:En|..].
    all: destruct (truthy (q_dateFrom req)) as [d1|] eqn:E1;
      [destruct (timestamp_in d1) as [t1|] eqn:T1|];
      (destruct (truthy (q_dateTo req)) as [d2|] eqn:E2;
       [destruct (timestamp_in d2) as [t2|] eqn:T2|]).
    all: eexists; cbn; run_handler; rewrite ?T1, ?T2; cbn.
    all: try reflexivity.
    all: unfold analyze_bound, const_of; cbn; rewrite ?En, ?Hoff; cbn.
    all: try reflexivity.
Qed.

(** X7. With limit 0, read by Number as the positive zero (and a page
    from 1 to below 2^53, valid dates), GET /users answers 200 with no
    users, and pages is the result of dividing by zero: Infinity when
    some user matches, NaN when none does.  The text -0 is not such a
    limit: Number reads it as the negative zero. *)
Theorem users_limit_zero req w lo hi p :
  date_bound (q_dateFrom req) = Ok lo ->
  date_bound (q_dateTo req) = Ok hi ->
  denotes (page_of req) p -> (1 <= p < 2 ^ 53)%Z ->
  denotes (limit_of req) 0 ->
  let total := users_total (search_pattern req) lo hi (w_db w) in
  exists w',
    users_handler req w
    = (Ok {| status := 200;
             payload := BUsers []
               {| pg_total := Int total; pg_page := Int p;
                  pg_limit := Int 0;
                  pg_pages := if (total =? 0)%Z then NaN else PosInf |} |},
       w').
Proof.
  intros Hlo Hhi Hp Hp1 Hl total.
  destruct (users_run req w lo hi p 0 Hlo Hhi Hp Hl ltac:(lia) ltac:(lia))
    as (qs & Hrun).
  fold total in Hrun.
  assert (Hpages : ceil_div (Int total) (Int 0)
                   = if (total =? 0)%Z then NaN else PosInf).
  { assert (0 <= total)%Z by (unfold total, users_total; lia).
    destruct total; try reflexivity. lia. }
  rewrite Hpages in Hrun. eexists. exact Hrun.
Qed.

(** ** The rows of the user statements *)

Lemma options_map {A B : Type} (f : A -> B) l :
  options (map f l) = map (option_map f) (options l).
Proof. destruct l; [reflexivity|]. simpl. now rewrite !map_map. Qed.

Lemma options_nonempty {A : Type} (l : list A) : options l <> [].
Proof. destruct l; discriminate. Qed.

Lemma left_join_one jr right on :
  left_join [jr] right on
  = map (fun o => jr ++ [o])
        (options (filter (fun r => holds on (jr ++ [Some r])) right)).
Proof.
  unfold left_join. simpl. rewrite app_nil_r.
  rewrite filter_map_comm.
  destruct (filter (fun r => holds on (jr ++ [Some r])) right) as [|r rs].
  - reflexivity.
  - simpl. now rewrite map_map.
Qed.

Lemma left_join_map {A : Type} (f : A -> jrow) l right on :
  left_join (map f l) right on
  = flat_map (fun a => left_join [f a] right on) l.
Proof.
  unfold left_join. induction l as [|a l IH]; [reflexivity|].
  simpl. now rewrite IH, app_nil_r.
Qed.

Lemma flat_map_nested {A B C : Type} (g : B -> list C) (f : A -> list B) l :
  flat_map g (flat_map f l) = flat_map (fun a => flat_map g (f a)) l.
Proof.
  induction l as [|a l IH]; [reflexivity|].
  simpl. now rewrite flat_map_app, IH.
Qed.

Lemma left_join_flat_map {A : Type} (f : A -> list jrow) l right on :
  left_join (flat_map f l) right on
  = flat_map (fun a => left_join (f a) right on) l.
Proof. unfold left_join. apply flat_map_nested. Qed.

(** The three-way join of the user statements, user by user. *)
Lemma joined_user_rows p db :
  p_table p = "users" -> p_joins p = user_joins ->
  joined_rows p db = flat_map (user_block db) (users db).
Proof.
  intros Ht Hj. unfold joined_rows. rewrite Ht, Hj.
  unfold user_joins. cbn [fold_left fst snd].
  change (rows_of db "users") with (map RUser (users db)).
  change (rows_of db "generations") with (map RGen (generations db)).
  change (rows_of db "login_logs") with (map RLogin (login_logs db)).
  rewrite map_map, left_join_map, left_join_flat_map.
  apply flat_map_ext. intros u.
  rewrite left_join_one. rewrite filter_map_comm.
  rewrite options_map, map_map.
  rewrite left_join_map.
  unfold user_block, own_generations, own_logins.
  rewrite (filter_ext _ (fun g => (g_user_id g =? u_id u)%Z)).
  2: { intros g. unfold holds. cbn. rewrite Z.eqb_sym.
       now destruct (g_user_id g =? u_id u)%Z. }
  apply flat_map_ext. intros go.
  rewrite left_join_one, filter_map_comm, options_map, map_map.
  rewrite (filter_ext _ (fun l => logged_in_as (u_id u) l
                                  && l_login_success l)).
  2: { intros l. rewrite holds_and. unfold holds, logged_in_as. cbn.
       destruct (l_user_id l) as [k|]; cbn.
       - rewrite Z.eqb_sym. destruct (k =? u_id u)%Z; cbn;
           [now destruct (l_login_success l)|reflexivity].
       - reflexivity. }
  reflexivity.
Qed.

Lemma filter_flat_map {A B : Type} (pred : B -> bool) (q : A -> bool)
      (block : A -> list B) l :
  (forall a r, In a l -> In r (block a) -> pred r = q a) ->
  filter pred (flat_map block l) = flat_map block (filter q l).
Proof.
  induction l as [|a l IH]; intros H; [reflexivity|].
  simpl. rewrite filter_app, IH by (intros; apply H; [now right|assumption]).
  destruct (q a) eqn:E; simpl.
  - f_equal. apply filter_all. intros r Hr. rewrite <- E.
    apply H; [now left|assumption].
  - rewrite filter_nil; [reflexivity|]. intros r Hr. rewrite <- E.
    apply H; [now left|assumption].
Qed.

Lemma nodup_block {A : Type} (dec : forall x y : A, {x = y} + {x <> y})
      k l1 l2 :
  l1 <> [] -> (forall y, In y l1 -> y = k) -> ~ In k l2 ->
  nodup dec (l1 ++ l2) = k :: nodup dec l2.
Proof.
  induction l1 as [|y l1 IH]; intros Hne Hall Hk; [congruence|].
  assert (y = k) by (apply Hall; now left). subst y.
  destruct l1 as [|y' l1].
  - simpl. destruct (in_dec dec k l2); [contradiction|reflexivity].
  - assert (y' = k) by (apply Hall; right; now left). subst y'.
    change (nodup dec (k :: (k :: l1) ++ l2) = k :: nodup dec l2).
    cbn [nodup]. destruct (in_dec dec k ((k :: l1) ++ l2)) as [_|n].
    + apply IH; [discriminate| |assumption].
      intros y Hy. apply Hall. now right.
    + exfalso. apply n. now left.
Qed.

Lemma group_by_blocks {A : Type} (block : A -> list jrow)
      (K : A -> list sqlval) es xs :
  (forall x r, In x xs -> In r (block x) -> group_key es r = K x) ->
  (forall x, In x xs -> block x <> []) ->
  NoDup (map K xs) ->
  group_by es (flat_map block xs) = map block xs.
Proof.
  induction xs as [|x xs IH]; intros Hkey Hne Hnd; [reflexivity|].
  inversion Hnd as [|? ? Hx Hnd']; subst.
  assert (Hrest : forall r, In r (flat_map block xs) ->
                            exists x', In x' xs /\ group_key es r = K x').
  { intros r Hr. apply in_flat_map in Hr. destruct Hr as (x' & Hx' & Hr).
    exists x'. split; [assumption|]. apply Hkey; [now right|assumption]. }
  assert (Hother : forall r, In r (flat_map block xs) ->
                             group_key es r <> K x).
  { intros r Hr E. destruct (Hrest r Hr) as (x' & Hx' & E').
    apply Hx. apply in_map_iff. exists x'. split; congruence. }
  unfold group_by. simpl flat_map. rewrite map_app.
  rewrite (nodup_block key_eq_dec (K x)).
  - simpl map. f_equal.
    + rewrite filter_app, filter_all, filter_nil.
      * apply app_nil_r.
      * intros r Hr. destruct (same_key es (K x) r) eqn:E; [|reflexivity].
        apply same_key_spec in E. now apply Hother in Hr.
      * intros r Hr. apply same_key_spec. apply Hkey; [now left|assumption].
    + rewrite <- IH.
      * unfold group_by. apply map_ext_in. intros k Hk.
        rewrite filter_app, filter_nil; [reflexivity|].
        intros r Hr. destruct (same_key es k r) eqn:E; [|reflexivity].
        apply same_key_spec in E. apply nodup_In, in_map_iff in Hk.
        destruct Hk as (r' & E' & Hr'). apply Hother in Hr'.
        exfalso. apply Hr'. rewrite E'. rewrite <- E.
        apply Hkey; [now left|assumption].
      * intros; apply Hkey; [now right|assumption].
      * intros; apply Hne; now right.
      * assumption.
  - intros H. apply map_eq_nil in H. revert H. apply Hne. now left.
  - intros y Hy. apply in_map_iff in Hy. destruct Hy as (r & <- & Hr).
    apply Hkey; [now left|assumption].
  - intros H. apply in_map_iff in H. destruct H as (r & E & Hr).
    now apply Hother in Hr.
Qed.

Lemma in_options_some {A : Type} (a : A) l :
  In (Some a) (options l) <-> In a l.
Proof.
  destruct l as [|x l]; simpl.
  - split; [intros [H|[]]; discriminate|tauto].
  - split.
    + intros [H|H]; [left; congruence|].
      apply in_map_iff in H. destruct H as (y & E & Hy).
      right. congruence.
    + intros [->|H]; [now left|]. right. now apply in_map.
Qed.

Lemma options_inhabited {A : Type} (l : list A) : exists o, In o (options l).
Proof. destruct l; eexists; now left. Qed.

Lemma user_block_In db u r :
  In r (user_block db u) <->
  exists g l, In g (options (own_generations db u))
              /\ In l (options (own_logins db u))
              /\ r = [Some (RUser u); option_map RGen g; option_map RLogin l].
Proof.
  unfold user_block. rewrite in_flat_map. split.
  - intros (g & Hg & H). apply in_map_iff in H. destruct H as (l & <- & Hl).
    eauto.
  - intros (g & l & Hg & Hl & ->). exists g. split; [assumption|].
    apply in_map_iff. eauto.
Qed.

Lemma user_block_head db u :
  exists g l rest, user_block db u = [Some (RUser u); g; l] :: rest.
Proof.
  destruct (user_block db u) as [|r rest] eqn:E.
  - exfalso. destruct (options_inhabited (own_generations db u)) as (g & Hg).
    destruct (options_inhabited (own_logins db u)) as (l & Hl).
    assert (H : In [Some (RUser u); option_map RGen g; option_map RLogin l]
                   (user_block db u)) by (apply user_block_In; eauto).
    rewrite E in H. contradiction.
  - assert (H : In r (user_block db u)) by (rewrite E; now left).
    apply user_block_In in H. destruct H as (g & l & _ & _ & ->). eauto.
Qed.

Lemma nodup_length_same {A : Type} (dec : forall x y : A, {x = y} + {x <> y})
      l l' :
  (forall x, In x l <-> In x l') ->
  length (nodup dec l) = length (nodup dec l').
Proof.
  intros H. apply Permutation_length, NoDup_Permutation.
  - apply NoDup_nodup.
  - apply NoDup_nodup.
  - intros x. rewrite !nodup_In. apply H.
Qed.

Lemma count_generations db u f keep :
  (forall g l, holds_opt f [Some (RUser u); Some (RGen g); l] = keep g) ->
  eval_expr (XCountDistinct (col_at 1 "id" TKey) f) (user_block db u)
  = VBig (distinct (map g_id (filter keep (own_generations db u)))).
Proof.
  intros Hkeep. unfold eval_expr, distinct. do 2 f_equal.
  rewrite <- (nodup_map_length VKey Z.eq_dec sqlval_eq_dec)
    by (intros x y H; now inversion H).
  apply nodup_length_same. intros v. rewrite filter_In, !in_map_iff. split.
  - intros ((r & <- & Hr) & Hv). apply filter_In in Hr.
    destruct Hr as [Hr Hh]. apply user_block_In in Hr.
    destruct Hr as (g & l & Hg & Hl & ->).
    destruct g as [g|]; [|discriminate]. apply (proj1 (in_options_some _ _)) in Hg.
    exists (g_id g). split; [reflexivity|]. apply in_map.
    apply filter_In. split; [assumption|]. now rewrite <- (Hkeep g (option_map RLogin l)).
  - intros (k & <- & Hk). apply in_map_iff in Hk.
    destruct Hk as (g & <- & Hg). apply filter_In in Hg.
    destruct Hg as [Hg Hk].
    destruct (options_inhabited (own_logins db u)) as (l & Hl).
    split; [|reflexivity].
    exists [Some (RUser u); Some (RGen g); option_map RLogin l].
    split; [reflexivity|]. apply filter_In. split.
    + apply user_block_In. exists (Some g), l.
      split; [now apply in_options_some|]. split; [assumption|reflexivity].
    + now rewrite Hkeep.
Qed.

Lemma count_logins db u :
  eval_expr (XCountDistinct (col_at 2 "id" TKey) None) (user_block db u)
  = VBig (distinct (map l_id (own_logins db u))).
Proof.
  unfold eval_expr, distinct. do 2 f_equal.
  rewrite <- (nodup_map_length VKey Z.eq_dec sqlval_eq_dec)
    by (intros x y H; now inversion H).
  apply nodup_length_same. intros v. rewrite filter_In, !in_map_iff. split.
  - intros ((r & <- & Hr) & Hv). apply filter_In in Hr.
    destruct Hr as [Hr _]. apply user_block_In in Hr.
    destruct Hr as (g & l & Hg & Hl & ->).
    destruct l as [l|]; [|discriminate]. apply (proj1 (in_options_some _ _)) in Hl.
    exists (l_id l). split; [reflexivity|]. now apply in_map.
  - intros (k & <- & Hk). apply in_map_iff in Hk.
    destruct Hk as (l & <- & Hl).
    destruct (options_inhabited (own_generations db u)) as (g & Hg).
    split; [|reflexivity].
    exists [Some (RUser u); option_map RGen g; Some (RLogin l)].
    split; [reflexivity|]. apply filter_In. split; [|reflexivity].
    apply user_block_In. exists g, (Some l).
    split; [assumption|]. split; [now apply in_options_some|reflexivity].
Qed.

Lemma latest_spec ts :
  match latest ts with
  | VNull => ts = []
  | VTime m => In m ts /\ forall t, In t ts -> (t <= m)%Z
  | _ => False
  end.
Proof.
  induction ts as [|t ts IH]; [reflexivity|].
  simpl. destruct (latest ts) as [| | | | | |m| |]; try contradiction.
  - subst ts. split; [now left|]. intros x [<-|[]]. lia.
  - destruct IH as [Hm Hle]. split.
    + destruct (Z.max_spec t m) as [[_ ->]|[_ ->]]; [now right|now left].
    + intros x [<-|Hx]; [lia|]. apply Hle in Hx. lia.
Qed.

Lemma fold_max_latest vs :
  (forall v, In v vs -> v = VNull \/ exists t, v = VTime t) ->
  fold_right sqlval_max VNull vs = latest (times vs).
Proof.
  induction vs as [|v vs IH]; intros H; [reflexivity|].
  simpl. rewrite IH by (intros; apply H; now right).
  destruct (H v (or_introl eq_refl)) as [->|(t & ->)]; [reflexivity|].
  simpl. pose proof (latest_spec (times vs)) as S.
  destruct (latest (times vs)) as [| | | | | |m| |]; try contradiction;
    [reflexivity|].
  simpl. destruct (t <=? m)%Z eqn:L.
  - apply Z.leb_le in L. now rewrite Z.max_r.
  - apply Z.leb_gt in L. rewrite Z.max_l by lia. reflexivity.
Qed.

Lemma latest_same ts ts' :
  (forall t, In t ts <-> In t ts') -> latest ts = latest ts'.
Proof.
  intros H. pose proof (latest_spec ts) as S. pose proof (latest_spec ts') as S'.
  destruct (latest ts) as [| | | | | |m| |]; try contradiction;
    destruct (latest ts') as [| | | | | |m'| |]; try contradiction.
  - reflexivity.
  - subst ts. destruct S' as [Hm _]. apply H in Hm. contradiction.
  - subst ts'. destruct S as [Hm _]. apply H in Hm. contradiction.
  - destruct S as [Hm Hle], S' as [Hm' Hle'].
    apply H in Hm. apply H in Hm'. apply Hle in Hm'. apply Hle' in Hm.
    f_equal. lia.
Qed.

Lemma latest_login db u :
  eval_expr (XMax (col_at 2 "login_time" TTime)) (user_block db u)
  = latest (map l_login_time (own_logins db u)).
Proof.
  unfold eval_expr.
  assert (Hval : forall v,
            In v (map (fun r => col_value r (col_at 2 "login_time" TTime))
                      (user_block db u)) ->
            v = VNull
            \/ exists l, In l (own_logins db u) /\ v = VTime (l_login_time l)).
  { intros v Hv. apply in_map_iff in Hv. destruct Hv as (r & <- & Hr).
    apply user_block_In in Hr. destruct Hr as (g & l & Hg & Hl & ->).
    destruct l as [l|]; [|now left].
    apply (proj1 (in_options_some _ _)) in Hl. right. eauto. }
  rewrite fold_max_latest.
  - apply latest_same. intros t. unfold times. rewrite in_flat_map. split.
    + intros (v & Hv & Ht). destruct (Hval v Hv) as [->|(l & Hl & ->)].
      * contradiction.
      * destruct Ht as [<-|[]]. now apply in_map.
    + intros Ht. apply in_map_iff in Ht. destruct Ht as (l & <- & Hl).
      exists (VTime (l_login_time l)). split; [|now left].
      destruct (options_inhabited (own_generations db u)) as (g & Hg).
      apply in_map_iff.
      exists [Some (RUser u); option_map RGen g; Some (RLogin l)].
      split; [reflexivity|]. apply user_block_In. exists g, (Some l).
      split; [assumption|]. split; [now apply in_options_some|reflexivity].
  - intros v Hv. destruct (Hval v Hv) as [->|(l & _ & ->)]; eauto.
Qed.

Lemma holds_preview_filter u g l :
  holds_opt preview_filter [Some (RUser u); Some (RGen g); l] = is_preview g.
Proof. exact (holds_preview g). Qed.

Lemma holds_download_filter u g l :
  holds_opt download_filter [Some (RUser u); Some (RGen g); l]
  = is_download g.
Proof. exact (holds_paid g). Qed.

Lemma users_plan_out pattern lo hi lim off db u :
  out_of (users_plan pattern lo hi lim off) (user_block db u)
  = user_summary db u.
Proof.
  unfold out_of. cbn [users_plan p_items user_columns app map fst snd].
  rewrite (count_generations db u preview_filter is_preview)
    by apply holds_preview_filter.
  rewrite (count_generations db u download_filter is_download)
    by apply holds_download_filter.
  rewrite (count_generations db u None (fun _ => true)) by reflexivity.
  rewrite count_logins, latest_login.
  rewrite (filter_all (fun _ => true)) by reflexivity.
  destruct (user_block_head db u) as (g & l & rest & ->). reflexivity.
Qed.

Lemma sort_map_gen {A B : Type} (leA : A -> A -> bool) (leB : B -> B -> bool)
      (f : A -> B) l :
  (forall a b, leB (f a) (f b) = leA a b) ->
  sort leB (map f l) = map f (sort leA l).
Proof.
  intros H. induction l as [|x l IH]; [reflexivity|].
  simpl. rewrite IH. generalize (sort leA l). intros s.
  induction s as [|y s IHs]; [reflexivity|].
  simpl. rewrite H. destruct (leA x y); simpl; [reflexivity|].
  now rewrite IHs.
Qed.

Lemma NoDup_map_finer {A B C : Type} (f : A -> B) (g : A -> C) l :
  (forall x y, g x = g y -> f x = f y) ->
  NoDup (map f l) -> NoDup (map g l).
Proof.
  intros H. induction l as [|a l IH]; simpl; intros Hnd; [constructor|].
  inversion Hnd as [|? ? Hn Hnd']; subst. constructor; [|now apply IH].
  intros Hin. apply Hn. apply in_map_iff in Hin.
  destruct Hin as (x & E & Hx). apply in_map_iff. exists x.
  split; [|assumption]. now apply H.
Qed.

Lemma users_plan_groups pattern lo hi lim off db :
  NoDup (map u_id (users db)) ->
  plan_groups (users_plan pattern lo hi lim off) db
  = map (user_block db) (filter (user_matches pattern lo hi) (users db)).
Proof.
  intros Hnd. unfold plan_groups, filtered_rows.
  rewrite (joined_user_rows (users_plan pattern lo hi lim off) db eq_refl eq_refl).
  rewrite (filter_flat_map _ (user_matches pattern lo hi)).
  - unfold groups_of. cbn [users_plan p_grouped p_group].
    change (map snd user_columns)
      with (XCol (col0 "id" TKey) :: tl (map snd user_columns)).
    cbv iota.
    apply (group_by_blocks (user_block db)
             (fun u => group_key (map snd user_columns) (user_row u))).
    + intros u r _ Hr. apply user_block_In in Hr.
      destruct Hr as (g & l & _ & _ & ->). reflexivity.
    + intros u _ E. destruct (user_block_head db u) as (g & l & rest & E').
      congruence.
    + apply (NoDup_map_finer u_id); [|now apply NoDup_map_filter].
      intros x y E. cbn in E. now inversion E.
  - intros u r _ Hr. apply user_block_In in Hr.
    destruct Hr as (g & l & _ & _ & ->).
    cbn [users_plan p_where]. apply holds_users_where.
Qed.

Lemma users_page pattern lo hi lim off db :
  NoDup (map u_id (users db)) ->
  run_plan (users_plan pattern lo hi lim off) db
  = map (user_summary db)
        (firstn lim (skipn off
           (sort newer_first
                 (filter (user_matches pattern lo hi) (users db))))).
Proof.
  intros Hnd. unfold run_plan.
  fold (filtered_rows (users_plan pattern lo hi lim off) db).
  fold (plan_groups (users_plan pattern lo hi lim off) db).
  rewrite users_plan_groups by assumption.
  rewrite map_map.
  rewrite (sort_map_gen newer_first).
  - cbn [users_plan p_offset p_limit limit_rows].
    rewrite skipn_map, firstn_map, map_map.
    apply map_ext. intros u. cbn [snd]. apply users_plan_out.
  - intros a b. unfold order_leb, order_keys, newer_first.
    cbn [users_plan p_order map fst snd okey_value].
    destruct (user_block_head db a) as (ga & la & ra & ->).
    destruct (user_block_head db b) as (gb & lb & rb & ->).
    cbn. destruct (u_created_at b <=? u_created_at a)%Z; [|reflexivity].
    now destruct (u_created_at a <=? u_created_at b)%Z.
Qed.

(** ** The pages of GET /users *)

Lemma newer_first_sorted us :
  StronglySorted (fun a b => (u_created_at b <= u_created_at a)%Z)
                 (sort newer_first us).
Proof.
  rewrite <- (map_id (sort newer_first us)).
  apply (sorted_map (fun u => u) (fun a b => newer_first a b = true)).
  - intros x y _ _ H. now apply Z.leb_le.
  - apply (sort_sorted newer_first (fun _ => True)).
    + intros x y _ _ H. unfold newer_first in *.
      apply Z.leb_gt in H. apply Z.leb_le. lia.
    + intros x y z _ _ _. unfold newer_first. rewrite !Z.leb_le. lia.
    + apply Forall_forall. auto.
Qed.

Lemma length_slice {A : Type} (l : list A) n m :
  length (firstn n (skipn m l)) = Nat.min n (length l - m).
Proof. now rewrite length_firstn, length_skipn. Qed.

(** X8. A page of GET /users (integers page >= 1 and limit >= 0, with
    page and page * limit below 2^53, valid dates, ids that identify the
    users) is a slice of the matching users ranked by registration time,
    latest first: the rows from offset (page - 1) * limit on, at most
    limit of them.  Each row holds the user's columns and the numbers of
    its distinct preview, download and all generations and of its
    successful logins, and the time of the latest of these logins; the
    two joins do not multiply the counts. *)
Theorem users_page_content req w lo hi p l :
  date_bound (q_dateFrom req) = Ok lo ->
  date_bound (q_dateTo req) = Ok hi ->
  denotes (page_of req) p -> denotes (limit_of req) l ->
  (1 <= p < 2 ^ 53)%Z -> (0 <= l)%Z -> (p * l < 2 ^ 53)%Z ->
  NoDup (map u_id (users (w_db w))) ->
  exists ranking rows pagination_ w',
    users_handler req w
    = (Ok {| status := 200; payload := BUsers rows pagination_ |}, w')
    /\ Permutation ranking
         (filter (user_matches (search_pattern req) lo hi) (users (w_db w)))
    /\ StronglySorted (fun a b => (u_created_at b <= u_created_at a)%Z)
                      ranking
    /\ rows = map (user_summary (w_db w))
                  (firstn (Z.to_nat l)
                          (skipn (Z.to_nat ((p - 1) * l)) ranking)).
Proof.
  intros Hlo Hhi Hp Hl Hp1 Hl0 Hsafe Hkey.
  destruct (users_run req w lo hi p l Hlo Hhi Hp Hl (proj1 Hp1) Hl0)
    as (qs & Hrun).
  rewrite users_page in Hrun by assumption.
  eexists _, _, _, _. split; [exact Hrun|]. split; [apply sort_perm|].
  split; [apply newer_first_sorted|reflexivity].
Qed.

(** X9. The number of users on a page (page >= 1 and limit >= 0, page
    and page * limit below 2^53) is limit, or what is left of the
    matching users after the offset, whichever is smaller: the last page
    holds the remainder and a page past the end is empty. *)
Theorem users_page_size req w lo hi p l :
  date_bound (q_dateFrom req) = Ok lo ->
  date_bound (q_dateTo req) = Ok hi ->
  denotes (page_of req) p -> denotes (limit_of req) l ->
  (1 <= p < 2 ^ 53)%Z -> (0 <= l)%Z -> (p * l < 2 ^ 53)%Z ->
  NoDup (map u_id (users (w_db w))) ->
  let total := Z.of_nat (length
                 (filter (user_matches (search_pattern req) lo hi)
                         (users (w_db w)))) in
  exists rows pagination_ w',
    users_handler req w
    = (Ok {| status := 200; payload := BUsers rows pagination_ |}, w')
    /\ Z.of_nat (length rows)
       = Z.min l (Z.max 0 (total - (p - 1) * l)).
Proof.
  intros Hlo Hhi Hp Hl Hp1 Hl0 Hsafe Hkey total.
  destruct (users_run req w lo hi p l Hlo Hhi Hp Hl (proj1 Hp1) Hl0)
    as (qs & Hrun).
  rewrite users_page in Hrun by assumption.
  eexists _, _, _. split; [exact Hrun|].
  rewrite length_map, length_slice.
  rewrite (Permutation_length (sort_perm newer_first _)).
  fold total. nia.
Qed.

(** ** The userInfo of GET /users/:userId *)

Lemma filter_unique {A : Type} (f : A -> Z) l a :
  NoDup (map f l) -> In a l ->
  filter (fun x => (f x =? f a)%Z) l = [a].
Proof.
  induction l as [|x l IH]; intros Hnd Ha; [contradiction|].
  inversion Hnd as [|? ? Hn Hnd']; subst. simpl.
  destruct Ha as [->|Ha].
  - rewrite Z.eqb_refl. f_equal. apply filter_nil. intros y Hy.
    apply Z.eqb_neq. intros E. apply Hn. rewrite <- E. now apply in_map.
  - destruct (f x =? f a)%Z eqn:E.
    + apply Z.eqb_eq in E. exfalso. apply Hn. rewrite E. now apply in_map.
    + now apply IH.
Qed.

Lemma user_info_out k db u :
  out_of (user_info_plan k) (user_block db u) = user_profile db u.
Proof.
  unfold out_of. cbn [user_info_plan p_items user_columns app map fst snd].
  rewrite (count_generations db u preview_filter is_preview)
    by apply holds_preview_filter.
  rewrite (count_generations db u download_filter is_download)
    by apply holds_download_filter.
  rewrite count_logins.
  destruct (user_block_head db u) as (g & l & rest & ->). reflexivity.
Qed.

Lemma user_info_row db u :
  NoDup (map u_id (users db)) -> In u (users db) ->
  run_plan (user_info_plan (u_id u)) db = [user_profile db u].
Proof.
  intros Hnd Hu. unfold run_plan.
  rewrite (joined_user_rows (user_info_plan (u_id u)) db eq_refl eq_refl).
  rewrite (filter_flat_map _ (fun x => (u_id x =? u_id u)%Z)).
  - rewrite (filter_unique u_id) by assumption.
    unfold groups_of. cbn [user_info_plan p_grouped p_group].
    rewrite (group_by_blocks (user_block db)
               (fun x => [VKey (u_id x)])).
    + change ([out_of (user_info_plan (u_id u)) (user_block db u)]
              = [user_profile db u]).
      now rewrite user_info_out.
    + intros x r _ Hr. apply user_block_In in Hr.
      destruct Hr as (g & l & _ & _ & ->). reflexivity.
    + intros x _ E. destruct (user_block_head db x) as (g & l & rest & E').
      congruence.
    + repeat constructor. intros [].
  - intros x r _ Hr. apply user_block_In in Hr.
    destruct Hr as (g & l & _ & _ & ->).
    cbn [user_info_plan p_where holds_opt]. unfold holds. cbn.
    now destruct (u_id x =? u_id u)%Z.
Qed.

(** X10. For an existing user (ids identify the users) the userInfo of
    GET /users/:userId holds the user's columns with subscription_type
    and the numbers of its distinct preview generations, download
    generations and successful logins; the handler sends its four
    statements in order. *)
Theorem user_detail_profile req w u :
  key_in (params_userId req) = Some (u_id u) ->
  In u (users (w_db w)) ->
  NoDup (map u_id (users (w_db w))) ->
  exists previewRecords downloadRecords loginRecords,
    user_detail_handler req w
    = (Ok {| status := 200;
             payload := BUserDetail (user_profile (w_db w) u) previewRecords
                                    downloadRecords loginRecords |},
       {| w_db := w_db w;
          w_issued := w_issued w ++
            [(user_info_sql, user_id_param req);
             (preview_records_sql, user_id_param req);
             (download_records_sql, user_id_param req);
             (login_records_sql, user_id_param req)] |}).
Proof.
  intros Hk Hu Hnd. rewrite (user_detail_run req w (u_id u) Hk).
  rewrite user_info_row by assumption. eauto.
Qed.

(** ** Results grouped and ordered by day *)

Lemma nodup_map_inj {A B : Type} (f : A -> B)
      (da : forall x y : A, {x = y} + {x <> y})
      (db : forall x y : B, {x = y} + {x <> y}) l :
  (forall x y, f x = f y -> x = y) ->
  nodup db (map f l) = map f (nodup da l).
Proof.
  intros Hinj. induction l as [|a l IH]; [reflexivity|].
  simpl. destruct (in_dec db (f a) (map f l)) as [i|n],
           (in_dec da a l) as [i'|n'].
  - exact IH.
  - exfalso. apply in_map_iff in i. destruct i as (x & E & Hx).
    apply Hinj in E. subst x. contradiction.
  - exfalso. apply n. now apply in_map.
  - simpl. now rewrite IH.
Qed.

Lemma insert_sorted_map_in {A B : Type} (leA : A -> A -> bool)
      (leB : B -> B -> bool) (f : A -> B) x s :
  (forall b, In b s -> leB (f x) (f b) = leA x b) ->
  insert_sorted leB (f x) (map f s) = map f (insert_sorted leA x s).
Proof.
  induction s as [|y s IH]; intros H; [reflexivity|].
  simpl. rewrite H by now left. destruct (leA x y); simpl; [reflexivity|].
  rewrite IH; [reflexivity|]. intros b Hb. apply H. now right.
Qed.

Lemma sort_map_in {A B : Type} (leA : A -> A -> bool) (leB : B -> B -> bool)
      (f : A -> B) l :
  (forall a b, In a l -> In b l -> leB (f a) (f b) = leA a b) ->
  sort leB (map f l) = map f (sort leA l).
Proof.
  induction l as [|x l IH]; intros H; [reflexivity|].
  simpl. rewrite IH by (intros; apply H; now right).
  apply insert_sorted_map_in. intros b Hb. apply sort_In in Hb.
  apply H; [now left|now right].
Qed.

Lemma group_by_day {A : Type} (mk : A -> jrow) (tm : A -> Z) c items :
  (forall a, col_value (mk a) c = VTime (tm a)) ->
  group_by [XDate c] (map mk items)
  = map (fun d => map mk (filter (fun a => (DATE (tm a) =? d)%Z) items))
        (nodup Z.eq_dec (map DATE (map tm items))).
Proof.
  intros Hc. unfold group_by.
  assert (Hkey : forall a, group_key [XDate c] (mk a) = [VDate (DATE (tm a))]).
  { intros a. unfold group_key. cbn. now rewrite Hc. }
  rewrite map_map.
  rewrite (map_ext _ (fun a => [VDate (DATE (tm a))]) Hkey).
  rewrite <- (map_map (fun a => DATE (tm a)) (fun d => [VDate d])).
  rewrite (nodup_map_inj (fun d => [VDate d]) Z.eq_dec key_eq_dec)
    by (intros x y E; now inversion E).
  rewrite !map_map. apply map_ext. intros d.
  rewrite filter_map_comm. f_equal. apply filter_ext. intros a.
  unfold same_key. rewrite Hkey.
  destruct (key_eq_dec [VDate (DATE (tm a))] [VDate d]) as [E|E].
  - inversion E. symmetry. apply Z.eqb_refl.
  - symmetry. apply Z.eqb_neq. intros E'. apply E. now rewrite E'.
Qed.

Lemma run_plan_by_day {A : Type} p db (mk : A -> jrow) (tm : A -> Z) c items
      rest :
  filtered_rows p db = map mk items ->
  (forall a, col_value (mk a) c = VTime (tm a)) ->
  p_grouped p = true -> p_group p = [XDate c] ->
  p_items p = ("date", XDate c) :: rest ->
  p_order p = [(KOut "date", true)] ->
  p_limit p = None -> p_offset p = 0%nat ->
  run_plan p db
  = map (fun d => out_of p (map mk (filter (fun a => (DATE (tm a) =? d)%Z)
                                           items)))
        (days_desc (map tm items)).
Proof.
  intros Hrows Hc Hg Hgroup Hitems Horder Hlim Hoff.
  unfold run_plan. fold (filtered_rows p db).
  rewrite Hrows, Hlim, Hoff. unfold groups_of. rewrite Hg, Hgroup.
  rewrite (group_by_day mk tm c items Hc).
  cbn [skipn limit_rows]. rewrite map_map. unfold days_desc.
  rewrite (sort_map_in later_first).
  - rewrite map_map. reflexivity.
  - intros a b Ha Hb. apply nodup_In, in_map_iff in Ha, Hb.
    destruct Ha as (ta & <- & Ha), Hb as (tb & <- & Hb).
    apply in_map_iff in Ha, Hb.
    destruct Ha as (xa & <- & Ha), Hb as (xb & <- & Hb).
    assert (Hdate : forall x, In x items ->
              order_keys p
                (map mk (filter (fun a => (DATE (tm a) =? DATE (tm x))%Z)
                                items),
                 out_of p (map mk (filter (fun a => (DATE (tm a)
                                                     =? DATE (tm x))%Z)
                                          items)))
              = [VDate (DATE (tm x))]).
    { intros x Hx. unfold order_keys, out_of. rewrite Horder, Hitems.
      cbn [map fst snd okey_value lookup String.eqb Ascii.eqb Bool.eqb].
      destruct (filter (fun a => (DATE (tm a) =? DATE (tm x))%Z) items)
        as [|y ys] eqn:E.
      - exfalso. assert (Hin : In x (filter (fun a => (DATE (tm a)
                                                       =? DATE (tm x))%Z)
                                            items))
          by (apply filter_In; split; [assumption|apply Z.eqb_refl]).
        rewrite E in Hin. contradiction.
      - assert (Hy : In y (filter (fun a => (DATE (tm a) =? DATE (tm x))%Z)
                                  items)) by (rewrite E; now left).
        apply filter_In in Hy. destruct Hy as [_ Hy]. apply Z.eqb_eq in Hy.
        cbn. rewrite Hc. cbn. now rewrite Hy. }
    unfold order_leb. rewrite Horder. cbn [map snd].
    rewrite (Hdate xa Ha), (Hdate xb Hb). unfold later_first. cbn.
    destruct (DATE (tm xb) <=? DATE (tm xa))%Z; [|reflexivity].
    now destruct (DATE (tm xa) <=? DATE (tm xb))%Z.
Qed.

Lemma sorted_strict l :
  NoDup l -> StronglySorted (fun a b => (b <= a)%Z) l ->
  StronglySorted (fun a b => (b < a)%Z) l.
Proof.
  induction l as [|x l IH]; intros Hnd Hs; [constructor|].
  inversion Hnd as [|? ? Hx Hnd']; subst.
  inversion Hs as [|? ? Hs' Hf]; subst.
  constructor; [now apply IH|].
  rewrite Forall_forall in *. intros y Hy.
  assert (y <> x) by (intros ->; contradiction).
  apply Hf in Hy. lia.
Qed.

Lemma days_desc_sorted ts :
  StronglySorted (fun a b => (b < a)%Z) (days_desc ts).
Proof.
  unfold days_desc. apply sorted_strict.
  - apply (Permutation_NoDup (l := nodup Z.eq_dec (map DATE ts))).
    + symmetry. apply sort_perm.
    + apply NoDup_nodup.
  - rewrite <- (map_id (sort later_first _)).
    apply (sorted_map (fun d => d) (fun a b => later_first a b = true)).
    + intros x y _ _ H. now apply Z.leb_le.
    + apply (sort_sorted later_first (fun _ => True)).
      * intros x y _ _ H. unfold later_first in *.
        apply Z.leb_gt in H. apply Z.leb_le. lia.
      * intros x y z _ _ _. unfold later_first. rewrite !Z.leb_le. lia.
      * apply Forall_forall. auto.
Qed.

Lemma days_desc_In ts d :
  In d (days_desc ts) <-> exists t, In t ts /\ DATE t = d.
Proof.
  unfold days_desc. rewrite sort_In, nodup_In, in_map_iff.
  split; intros (t & H1 & H2); eauto.
Qed.

Lemma registrations_by_day_rows lo hi db :
  run_plan (registrations_plan lo hi) db
  = map (registration_row lo hi db)
        (days_desc (map u_created_at
                        (filter (fun u => in_range lo hi (u_created_at u))
                                (users db)))).
Proof.
  rewrite (run_plan_by_day (registrations_plan lo hi) db user_row
             u_created_at (col0 "created_at" TTime)
             (filter (fun u => in_range lo hi (u_created_at u)) (users db))
             [("count", XCountStar)]);
    try reflexivity; [|apply registrations_rows].
  apply map_ext_in. intros d Hd. apply days_desc_In in Hd.
  destruct Hd as (t & Ht & <-). apply in_map_iff in Ht.
  destruct Ht as (u & <- & Hu).
  unfold registration_row, out_of.
  cbn [registrations_plan p_items map fst snd eval_expr].
  rewrite length_map, filter_and.
  rewrite (filter_ext _ (registered_on lo hi (DATE (u_created_at u))))
    by reflexivity.
  assert (Hin : In u (filter (registered_on lo hi (DATE (u_created_at u)))
                             (users db))).
  { apply filter_In in Hu. destruct Hu as [Hu Hr]. apply filter_In.
    split; [assumption|]. unfold registered_on.
    now rewrite Hr, Z.eqb_refl. }
  destruct (filter (registered_on lo hi (DATE (u_created_at u))) (users db))
    as [|u0 us] eqn:E; [contradiction|].
  assert (H0 : In u0 (filter (registered_on lo hi (DATE (u_created_at u)))
                             (users db))) by (rewrite E; now left).
  apply filter_In in H0. destruct H0 as [_ H0]. unfold registered_on in H0.
  apply andb_true_iff in H0. destruct H0 as [_ H0]. apply Z.eqb_eq in H0.
  cbn. now rewrite H0.
Qed.

(** X11. For every valid date range GET /registrations answers with
    exactly one row for each day on which a user in the range
    registered, later days first, each row holding the day and its number
    of registrations. *)
Theorem registrations_by_day req w lo hi :
  date_bound (q_dateFrom req) = Ok lo ->
  date_bound (q_dateTo req) = Ok hi ->
  exists days w',
    registrations_handler req w
    = (Ok {| status := 200;
             payload := BRegistrations
                          (map (registration_row lo hi (w_db w)) days) |},
       w')
    /\ StronglySorted (fun a b => (b < a)%Z) days
    /\ forall d, In d days <->
                 exists u, In u (users (w_db w))
                           /\ registered_on lo hi d u = true.
Proof.
  intros Hlo Hhi.
  destruct (registrations_run req w lo hi Hlo Hhi) as (q & Hrun).
  rewrite registrations_by_day_rows in Hrun.
  eexists _, _. split; [exact Hrun|]. split; [apply days_desc_sorted|].
  intros d. rewrite days_desc_In. split.
  - intros (t & Ht & <-). apply in_map_iff in Ht.
    destruct Ht as (u & <- & Hu). apply filter_In in Hu.
    destruct Hu as [Hu Hr]. exists u. split; [assumption|].
    unfold registered_on. now rewrite Hr, Z.eqb_refl.
  - intros (u & Hu & Hr). unfold registered_on in Hr.
    apply andb_true_iff in Hr. destruct Hr as [Hr Hd].
    apply Z.eqb_eq in Hd. exists (u_created_at u).
    split; [|assumption]. apply in_map. apply filter_In. auto.
Qed.

Lemma logins_by_day_rows lo hi db :
  run_plan (logins_plan lo hi) db
  = map (login_day_row lo hi db)
        (days_desc (map l_login_time
                        (filter (successful_in lo hi) (login_logs db)))).
Proof.
  rewrite (run_plan_by_day (logins_plan lo hi) db login_row
             l_login_time (col0 "login_time" TTime)
             (filter (successful_in lo hi) (login_logs db))
             [("unique_users", XCountDistinct (col0 "user_id" TKey) None);
              ("total_logins", XCountStar)]);
    try reflexivity;
    [|apply (successful_rows (logins_plan lo hi) lo hi db); reflexivity].
  apply map_ext_in. intros d Hd. apply days_desc_In in Hd.
  destruct Hd as (t & Ht & <-). apply in_map_iff in Ht.
  destruct Ht as (l & <- & Hl).
  unfold login_day_row, out_of.
  cbn [logins_plan p_items map fst snd eval_expr].
  rewrite count_distinct_users, length_map, filter_and.
  rewrite (filter_ext _ (logged_on lo hi (DATE (l_login_time l))))
    by reflexivity.
  assert (Hin : In l (filter (logged_on lo hi (DATE (l_login_time l)))
                             (login_logs db))).
  { apply filter_In in Hl. destruct Hl as [Hl Hr]. apply filter_In.
    split; [assumption|]. unfold logged_on.
    now rewrite Hr, Z.eqb_refl. }
  destruct (filter (logged_on lo hi (DATE (l_login_time l))) (login_logs db))
    as [|l0 ls] eqn:E; [contradiction|].
  assert (H0 : In l0 (filter (logged_on lo hi (DATE (l_login_time l)))
                             (login_logs db))) by (rewrite E; now left).
  apply filter_In in H0. destruct H0 as [_ H0]. unfold logged_on in H0.
  apply andb_true_iff in H0. destruct H0 as [_ H0]. apply Z.eqb_eq in H0.
  cbn. now rewrite H0.
Qed.

(** X12. With at least one date bound GET /logins answers 200 with
    exactly one row for each day that has a successful login in the
    range, later days first; the row holds the day, the number of
    distinct user ids among these logins and the number of these
    logins. *)
Theorem logins_by_day req w lo hi :
  date_bound (q_dateFrom req) = Ok lo ->
  date_bound (q_dateTo req) = Ok hi ->
  lo <> None \/ hi <> None ->
  exists days w',
    logins_handler req w
    = (Ok {| status := 200;
             payload := BLogins (map (login_day_row lo hi (w_db w)) days) |},
       w')
    /\ StronglySorted (fun a b => (b < a)%Z) days
    /\ forall d, In d days <->
                 exists l, In l (login_logs (w_db w))
                           /\ logged_on lo hi d l = true.
Proof.
  intros Hlo Hhi Hsome.
  destruct (logins_run req w lo hi Hlo Hhi) as (q & Hrun).
  { intros Hb. apply bounds_nil in Hb. destruct Hb, Hsome; congruence. }
  rewrite logins_by_day_rows in Hrun.
  eexists _, _. split; [exact Hrun|]. split; [apply days_desc_sorted|].
  intros d. rewrite days_desc_In. split.
  - intros (t & Ht & <-). apply in_map_iff in Ht.
    destruct Ht as (l & <- & Hl). apply filter_In in Hl.
    destruct Hl as [Hl Hr]. exists l. split; [assumption|].
    unfold logged_on. now rewrite Hr, Z.eqb_refl.
  - intros (l & Hl & Hr). unfold logged_on in Hr.
    apply andb_true_iff in Hr. destruct Hr as [Hr Hd].
    apply Z.eqb_eq in Hd. exists (l_login_time l).
    split; [|assumption]. apply in_map. apply filter_In. auto.
Qed.

(** ** GET /overview and the daily counts *)

Lemma days_desc_NoDup ts : NoDup (days_desc ts).
Proof.
  unfold days_desc.
  apply (Permutation_NoDup (l := nodup Z.eq_dec (map DATE ts))).
  - symmetry. apply sort_perm.
  - apply NoDup_nodup.
Qed.

Lemma sum_by_day {A : Type} (tm : A -> Z) items :
  fold_right Z.add 0%Z
    (map (fun d => Z.of_nat (length (filter (fun a => (DATE (tm a) =? d)%Z)
                                            items)))
         (days_desc (map tm items)))
  = Z.of_nat (length items).
Proof.
  rewrite <- (count_by_key (fun a => DATE (tm a))
                (fun d a => (DATE (tm a) =? d)%Z)
                (fun k a => Z.eqb_eq _ _)
                (days_desc (map tm items)) items).
  - unfold count_per_key.
    induction (days_desc (map tm items)) as [|d ds IH]; [reflexivity|].
    cbn [map fold_right]. rewrite IH. lia.
  - apply days_desc_NoDup.
  - intros a Ha. apply days_desc_In. exists (tm a). split; [|reflexivity].
    now apply in_map.
Qed.

Lemma registrations_sum lo hi db :
  sum_field "count" (run_plan (registrations_plan lo hi) db)
  = Z.of_nat (length (filter (fun u => in_range lo hi (u_created_at u))
                             (users db))).
Proof.
  rewrite registrations_by_day_rows. unfold sum_field. rewrite map_map.
  rewrite <- (sum_by_day u_created_at
                (filter (fun u => in_range lo hi (u_created_at u))
                        (users db))).
  f_equal. apply map_ext. intros d. unfold registration_row, big_field.
  cbn. now rewrite filter_and.
Qed.

Lemma logins_sum lo hi db :
  sum_field "total_logins" (run_plan (logins_plan lo hi) db)
  = Z.of_nat (length (filter (successful_in lo hi) (login_logs db))).
Proof.
  rewrite logins_by_day_rows. unfold sum_field. rewrite map_map.
  rewrite <- (sum_by_day l_login_time
                (filter (successful_in lo hi) (login_logs db))).
  f_equal. apply map_ext. intros d. unfold login_day_row, big_field.
  cbn. now rewrite filter_and.
Qed.

(** X13. With at least one date bound GET /overview answers 200 and
    each field is the count over the rows in the range: users created,
    distinct user ids with a successful login, generations typed
    'preview', generations typed 'paid' or marked paid, and successful
    logins. *)
Theorem overview_in_range req w lo hi :
  date_bound (q_dateFrom req) = Ok lo ->
  date_bound (q_dateTo req) = Ok hi ->
  lo <> None \/ hi <> None ->
  exists w',
    overview_handler req w
    = (Ok {| status := 200;
             payload := BOverview
               {| total_users := Int (Z.of_nat (length
                    (filter (fun u => in_range lo hi (u_created_at u))
                            (users (w_db w)))));
                  active_users := Int (Z.of_nat (distinct_users
                    (filter (successful_in lo hi) (login_logs (w_db w)))));
                  total_previews := Int (Z.of_nat (length
                    (filter (fun g => created_in lo hi g && is_preview g)
                            (generations (w_db w)))));
                  total_downloads := Int (Z.of_nat (length
                    (filter (fun g => created_in lo hi g && is_download g)
                            (generations (w_db w)))));
                  total_logins := Int (Z.of_nat (length
                    (filter (successful_in lo hi) (login_logs (w_db w)))))
               |} |}, w').
Proof.
  intros Hlo Hhi Hsome.
  destruct (overview_run req w lo hi Hlo Hhi) as (qs & Hrun).
  { intros Hb. apply bounds_nil in Hb. destruct Hb, Hsome; congruence. }
  eexists. exact Hrun.
Qed.

(** X14. The endpoints agree: for one request with at least one date
    bound, the counts of GET /registrations add up to total_users of GET
    /overview, and the total_logins of GET /logins add up to its
    total_logins. *)
Theorem daily_counts_add_up req w lo hi :
  date_bound (q_dateFrom req) = Ok lo ->
  date_bound (q_dateTo req) = Ok hi ->
  lo <> None \/ hi <> None ->
  exists registrations logins o w1 w2 w3,
    registrations_handler req w
    = (Ok {| status := 200; payload := BRegistrations registrations |}, w1)
    /\ logins_handler req w
       = (Ok {| status := 200; payload := BLogins logins |}, w2)
    /\ overview_handler req w
       = (Ok {| status := 200; payload := BOverview o |}, w3)
    /\ total_users o = Int (sum_field "count" registrations)
    /\ total_logins o = Int (sum_field "total_logins" logins).
Proof.
  intros Hlo Hhi Hsome.
  assert (Hne : bounds (col0 "created_at" TTime) lo hi <> []).
  { intros Hb. apply bounds_nil in Hb. destruct Hb, Hsome; congruence. }
  assert (Hne' : bounds (col0 "login_time" TTime) lo hi <> []).
  { intros Hb. apply bounds_nil in Hb. destruct Hb, Hsome; congruence. }
  destruct (registrations_run req w lo hi Hlo Hhi) as (q1 & H1).
  destruct (logins_run req w lo hi Hlo Hhi Hne') as (q2 & H2).
  destruct (overview_run req w lo hi Hlo Hhi Hne) as (qs & H3).
  eexists _, _, _, _, _, _. split; [exact H1|]. split; [exact H2|].
  split; [exact H3|]. cbn [total_users total_logins].
  now rewrite registrations_sum, logins_sum.
Qed.

(** ** The rows of GET /online-duration *)

Lemma group_by_key {A K : Type} (dec : forall x y : K, {x = y} + {x <> y})
      (mk : A -> jrow) (key : A -> K) (enc : K -> list sqlval) es items :
  (forall a, group_key es (mk a) = enc (key a)) ->
  (forall x y, enc x = enc y -> x = y) ->
  group_by es (map mk items)
  = map (fun k => map mk (filter (fun a => if dec (key a) k
                                           then true else false) items))
        (nodup dec (map key items)).
Proof.
  intros Hkey Hinj. unfold group_by. rewrite map_map.
  rewrite (map_ext _ (fun a => enc (key a)) Hkey).
  rewrite <- (map_map key enc).
  rewrite (nodup_map_inj enc dec key_eq_dec) by exact Hinj.
  rewrite !map_map. apply map_ext. intros k.
  rewrite filter_map_comm. f_equal. apply filter_ext. intros a.
  unfold same_key. rewrite Hkey.
  destruct (key_eq_dec (enc (key a)) (enc k)) as [E|E],
           (dec (key a) k) as [E'|E']; try reflexivity.
  - apply Hinj in E. contradiction.
  - subst k. contradiction.
Qed.

Lemma online_groups uk lo hi db :
  plan_groups (online_plan uk lo hi) db
  = map (fun k => map login_row
                    (filter (fun l => in_group (fst k) (snd k) l)
                            (filter (counted uk lo hi) (login_logs db))))
        (nodup name_day_dec
               (map name_day (filter (counted uk lo hi) (login_logs db)))).
Proof.
  unfold plan_groups. rewrite online_rows.
  cbn [groups_of online_plan p_grouped p_group].
  rewrite (group_by_key name_day_dec login_row name_day
             (fun k => [VText (fst k); VDate (snd k)])).
  - apply map_ext. intros k. f_equal. apply filter_ext. intros l.
    unfold in_group, name_day. destruct k as [n d]. cbn [fst snd].
    destruct (name_day_dec (l_username l, DATE (l_login_time l)) (n, d))
      as [E|E].
    + inversion E. now rewrite String.eqb_refl, Z.eqb_refl.
    + destruct (l_username l =? n) eqn:E1; [|reflexivity].
      destruct (DATE (l_login_time l) =? d)%Z eqn:E2; [|reflexivity].
      apply String.eqb_eq in E1. apply Z.eqb_eq in E2.
      exfalso. apply E. congruence.
  - intros l. reflexivity.
  - intros [n d] [n' d'] E. cbn in E. now inversion E.
Qed.

Lemma online_group_out uk lo hi db k :
  In k (map name_day (filter (counted uk lo hi) (login_logs db))) ->
  out_of (online_plan uk lo hi)
         (map login_row
              (filter (fun l => in_group (fst k) (snd k) l)
                      (filter (counted uk lo hi) (login_logs db))))
  = online_row uk lo hi db k.
Proof.
  intros Hk. apply in_map_iff in Hk. destruct Hk as (l0 & <- & Hl0).
  unfold online_row. rewrite <- filter_and.
  set (sessions := filter (in_group (fst (name_day l0)) (snd (name_day l0)))
                          (filter (counted uk lo hi) (login_logs db))).
  assert (Hin : In l0 sessions).
  { apply filter_In. split; [assumption|]. unfold in_group, name_day.
    cbn. now rewrite String.eqb_refl, Z.eqb_refl. }
  assert (Hall : forall l, In l sessions ->
                   l_session_duration l <> None
                   /\ l_username l = l_username l0
                   /\ DATE (l_login_time l) = DATE (l_login_time l0)).
  { intros l Hl. apply filter_In in Hl. destruct Hl as [Hl Hg].
    apply filter_In in Hl. destruct Hl as [_ Hc].
    unfold in_group, name_day in Hg. cbn in Hg.
    apply andb_true_iff in Hg. destruct Hg as [E1 E2].
    apply String.eqb_eq in E1. apply Z.eqb_eq in E2.
    split; [|split; assumption]. unfold counted in Hc.
    destruct (l_session_duration l); [discriminate|discriminate Hc]. }
  unfold out_of. cbn [online_plan p_items map fst snd].
  rewrite sum_durations.
  - destruct sessions as [|l1 ls]; [contradiction|].
    destruct (Hall l1 (or_introl eq_refl)) as (_ & E1 & E2).
    cbn. rewrite length_map, E1, E2. reflexivity.
  - intros E. rewrite E in Hin. contradiction.
  - intros l Hl. now apply Hall.
Qed.

Lemma online_rows_sorted uk lo hi db :
  run_plan (online_plan uk lo hi) db
  = map (online_row uk lo hi db)
        (sort (online_leb uk lo hi db)
              (nodup name_day_dec
                 (map name_day (filter (counted uk lo hi) (login_logs db))))).
Proof.
  unfold run_plan.
  fold (filtered_rows (online_plan uk lo hi) db).
  fold (plan_groups (online_plan uk lo hi) db).
  rewrite online_groups. cbn [online_plan p_offset p_limit skipn limit_rows].
  rewrite map_map.
  rewrite (sort_map_in (online_leb uk lo hi db)).
  - rewrite map_map. apply map_ext_in. intros k Hk. cbn [snd].
    apply sort_In, nodup_In in Hk. now apply online_group_out.
  - intros a b Ha Hb. apply nodup_In in Ha, Hb.
    unfold order_leb, order_keys.
    cbn [online_plan p_order map fst snd okey_value].
    change (out_of _ ?g) with (out_of (online_plan uk lo hi) g).
    rewrite (online_group_out uk lo hi db a Ha).
    rewrite (online_group_out uk lo hi db b Hb).
    unfold online_leb, longer_first, online_row. cbn.
    fold (online_total uk lo hi db a). fold (online_total uk lo hi db b).
    destruct (snd b <=? snd a)%Z eqn:E1, (snd a <=? snd b)%Z eqn:E2,
             (snd b <? snd a)%Z eqn:E3, (snd b =? snd a)%Z eqn:E4;
      rewrite ?Z.leb_le, ?Z.leb_gt, ?Z.ltb_lt, ?Z.ltb_ge, ?Z.eqb_eq,
        ?Z.eqb_neq in *; try lia; cbn;
      destruct (online_total uk lo hi db b <=? online_total uk lo hi db a)%Z;
      try reflexivity;
      destruct (online_total uk lo hi db a <=? online_total uk lo hi db b)%Z;
      reflexivity.
Qed.

(** X15. With valid filters GET /online-duration answers with exactly
    one row for each pair of a user name and a day that has a counted
    login row, later days first and, within a day, longer totals
    first. *)
Theorem online_duration_by_name_and_day req w uk lo hi :
  user_bound (q_userId req) = Ok uk ->
  date_bound (q_dateFrom req) = Ok lo ->
  date_bound (q_dateTo req) = Ok hi ->
  exists keys w',
    online_duration_handler req w
    = (Ok {| status := 200;
             payload := BOnlineDuration
                          (map (online_row uk lo hi (w_db w)) keys) |}, w')
    /\ NoDup keys
    /\ (forall name d,
          In (name, d) keys <->
          exists l, In l (login_logs (w_db w))
                    /\ counted uk lo hi l = true
                    /\ in_group name d l = true)
    /\ StronglySorted
         (fun a b =>
            (snd b < snd a)%Z
            \/ (snd b = snd a
                /\ (online_total uk lo hi (w_db w) b
                    <= online_total uk lo hi (w_db w) a)%Z))
         keys.
Proof.
  intros Hu Hlo Hhi.
  destruct (online_duration_run req w uk lo hi Hu Hlo Hhi) as (q & Hrun).
  rewrite online_rows_sorted in Hrun.
  eexists _, _. split; [exact Hrun|]. clear Hrun. split; [|split].
  - apply (Permutation_NoDup
             (l := nodup name_day_dec
                     (map name_day (filter (counted uk lo hi)
                                           (login_logs (w_db w)))))).
    + symmetry. apply sort_perm.
    + apply NoDup_nodup.
  - intros name d. rewrite sort_In, nodup_In, in_map_iff. split.
    + intros (l & E & Hl). apply filter_In in Hl. destruct Hl as [Hl Hc].
      exists l. split; [assumption|]. split; [assumption|].
      unfold name_day in E. inversion E. unfold in_group.
      now rewrite String.eqb_refl, Z.eqb_refl.
    + intros (l & Hl & Hc & Hg). exists l. split.
      * unfold in_group in Hg. apply andb_true_iff in Hg.
        destruct Hg as [E1 E2]. apply String.eqb_eq in E1.
        apply Z.eqb_eq in E2. unfold name_day. congruence.
      * apply filter_In. auto.
  - rewrite <- (map_id (sort _ _)).
    apply (sorted_map (fun k => k)
             (fun a b => online_leb uk lo hi (w_db w) a b = true)).
    + intros a b _ _ H. unfold online_leb, longer_first in H. cbn in H.
      apply orb_true_iff in H. destruct H as [H|H].
      * left. now apply Z.ltb_lt.
      * right. apply andb_true_iff in H. destruct H as [H1 H2].
        split; [now apply Z.eqb_eq|now apply Z.leb_le].
    + apply (sort_sorted (online_leb uk lo hi (w_db w)) (fun _ => True)).
      * intros a b _ _. unfold online_leb, longer_first. cbn.
        rewrite !orb_false_iff, !andb_false_iff, !orb_true_iff,
          !andb_true_iff, !Z.ltb_lt, !Z.ltb_ge, !Z.eqb_eq, !Z.eqb_neq,
          !Z.leb_le, !Z.leb_gt. lia.
      * intros a b c _ _ _. unfold online_leb, longer_first. cbn.
        rewrite !orb_true_iff, !andb_true_iff, !Z.ltb_lt, !Z.eqb_eq,
          !Z.leb_le. lia.
      * apply Forall_forall. auto.
Qed.

(** ** GET /users without a search string *)

Lemma like_two_percents s : like "%%" s = true.
Proof.
  induction s as [|c s IH]; [reflexivity|].
  rewrite like_percent_unfold, like_percent_any. reflexivity.
Qed.

Lemma matches_without_search lo hi u :
  user_matches "%%" lo hi u = in_range lo hi (u_created_at u).
Proof.
  unfold user_matches, ilike.
  change (lower_string "%%") with "%%". now rewrite !like_two_percents.
Qed.

(** What a valid request to GET /users sends: the two statements with
    the same date filter and the same replacements. *)
Lemma users_run_sent req w lo hi p l :
  date_bound (q_dateFrom req) = Ok lo ->
  date_bound (q_dateTo req) = Ok hi ->
  denotes (page_of req) p -> denotes (limit_of req) l ->
  (1 <= p)%Z -> (0 <= l)%Z ->
  let repl := [("search", PStr (search_pattern req));
               ("limit", PNum (Int l));
               ("offset", PNum (Int ((p - 1) * l)))] ++ users_dates req in
  users_handler req w =
  (Ok {| status := 200;
         payload := BUsers
           (run_plan (users_plan (search_pattern req) lo hi (Z.to_nat l)
                                 (Z.to_nat ((p - 1) * l)))
                     (w_db w))
           {| pg_total := Int (users_total (search_pattern req) lo hi
                                           (w_db w));
              pg_page := Int p;
              pg_limit := Int l;
              pg_pages := ceil_div
                (Int (users_total (search_pattern req) lo hi (w_db w)))
                (Int l) |} |},
   {| w_db := w_db w;
      w_issued := w_issued w
                  ++ [(users_sql (users_date_filter req), repl);
                      (users_count_sql (users_date_filter req), repl)] |}).
Proof.
  intros Hlo Hhi [Hp Hp'] [Hl Hl'] Hp1 Hl0.
  assert (Hneg : (l <? 0)%Z = false) by (apply Z.ltb_ge; lia).
  assert (Hoff : ((p + -1) * l <? 0)%Z = false) by (apply Z.ltb_ge; nia).
  unfold page_of, limit_of in *. unfold users_total.
  unfold users_date_filter, users_dates.
  split_bound Hlo; split_bound Hhi;
    cbv beta zeta delta [users_handler];
    remember ceil_div as pages eqn:Hpages;
    rewrite Hp, Hp', Hl, Hl', ?E, ?E0;
    rewrite (offset_value p l Hp1 Hl0); cbn;
    run_handler; rewrite ?Et, ?Et0; cbn;
    rewrite ?parseInt_int; cbn; rewrite Hneg, Hoff; cbn;
    rewrite run_plan_aggregate by reflexivity; cbn;
    rewrite (proj1 (read_decimal _ (Nat2Z.is_nonneg _)));
    rewrite (proj2 (read_decimal _ (Nat2Z.is_nonneg _)));
    match goal with
    | |- context [filtered_rows ?q ?db] =>
        match goal with
        | |- context [user_matches _ ?lo ?hi] =>
            rewrite (matching_user_rows q (search_pattern req) lo hi db
                                        eq_refl eq_refl eq_refl)
        end
    end;
    rewrite count_distinct_ids, <- app_assoc;
    reflexivity.
Qed.

(** X16. Without a search string (absent or empty) GET /users sends the
    pattern '%%' with both of its statements, beside limit, offset and
    the dates given, and filters by date only:
    the rows are the page of the users created in the range, latest
    first, and total is the number of these users (page >= 1 and limit
    >= 0, page and page * limit below 2^53, valid dates, ids that
    identify the users). *)
Theorem users_without_search req w lo hi p l :
  q_search req = None \/ q_search req = Some "" ->
  date_bound (q_dateFrom req) = Ok lo ->
  date_bound (q_dateTo req) = Ok hi ->
  denotes (page_of req) p -> denotes (limit_of req) l ->
  (1 <= p < 2 ^ 53)%Z -> (0 <= l)%Z -> (p * l < 2 ^ 53)%Z ->
  NoDup (map u_id (users (w_db w))) ->
  let in_time := filter (fun u => in_range lo hi (u_created_at u))
                        (users (w_db w)) in
  let total := Z.of_nat (length in_time) in
  exists ranking,
    let repl := [("search", PStr "%%"); ("limit", PNum (Int l));
                 ("offset", PNum (Int ((p - 1) * l)))]
                ++ users_dates req in
    users_handler req w
    = (Ok {| status := 200;
             payload := BUsers
               (map (user_summary (w_db w))
                    (firstn (Z.to_nat l)
                            (skipn (Z.to_nat ((p - 1) * l)) ranking)))
               {| pg_total := Int total; pg_page := Int p;
                  pg_limit := Int l;
                  pg_pages := ceil_div (Int total) (Int l) |} |},
       {| w_db := w_db w;
          w_issued := w_issued w
                      ++ [(users_sql (users_date_filter req), repl);
                          (users_count_sql (users_date_filter req),
                           repl)] |})
    /\ Permutation ranking in_time
    /\ StronglySorted (fun a b => (u_created_at b <= u_created_at a)%Z)
                      ranking.
Proof.
  intros Hs Hlo Hhi Hp Hl Hp1 Hl0 Hsafe Hkey in_time total.
  pose proof (users_run_sent req w lo hi p l Hlo Hhi Hp Hl (proj1 Hp1) Hl0)
    as Hrun.
  assert (Hpat : search_pattern req = "%%")
    by (unfold search_pattern; destruct Hs as [-> | ->]; reflexivity).
  cbv zeta in Hrun. rewrite Hpat in Hrun. unfold users_total in Hrun.
  rewrite nodup_fixed_point in Hrun by now apply NoDup_map_filter.
  rewrite length_map in Hrun.
  rewrite users_page in Hrun by assumption.
  rewrite (filter_ext _ _ (matches_without_search lo hi)) in Hrun.
  fold in_time in Hrun. fold total in Hrun.
  exists (sort newer_first in_time).
  split; [exact Hrun|]. split; [apply sort_perm|apply newer_first_sorted].
Qed.


(** ** The records of a user with their template *)

Lemma filter_find_unique {A : Type} (key : A -> Z) k l :
  NoDup (map key l) ->
  filter (fun x => (key x =? k)%Z) l
  = match find (fun x => (key x =? k)%Z) l with
    | Some x => [x]
    | None => []
    end.
Proof.
  induction l as [|a l IH]; intros Hnd; [reflexivity|].
  inversion Hnd as [|? ? Hnotin Hnd']; subst. simpl.
  destruct (key a =? k)%Z eqn:E.
  - f_equal. apply Z.eqb_eq in E.
    destruct (filter (fun x => (key x =? k)%Z) l) as [|b bs] eqn:F;
      [reflexivity|].
    assert (Hb : In b (filter (fun x => (key x =? k)%Z) l))
      by (rewrite F; left; reflexivity).
    apply filter_In in Hb. destruct Hb as [Hin Hk].
    apply Z.eqb_eq in Hk. exfalso. apply Hnotin. rewrite E, <- Hk.
    now apply in_map.
  - now apply IH.
Qed.

Lemma flat_map_single {A B : Type} (f : A -> list B) (g : A -> B) l :
  (forall a, f a = [g a]) -> flat_map f l = map g l.
Proof.
  intros H. induction l as [|a l IH]; [reflexivity|].
  simpl. now rewrite H, IH.
Qed.

Lemma joined_template_rows p db :
  p_table p = "generations" -> p_joins p = template_join ->
  NoDup (map t_id (templates db)) ->
  joined_rows p db = map (with_template db) (generations db).
Proof.
  intros Ht Hj Hnd. unfold joined_rows. rewrite Ht, Hj.
  unfold template_join. cbn [fold_left fst snd].
  change (rows_of db "generations") with (map RGen (generations db)).
  change (rows_of db "templates") with (map RTemplate (templates db)).
  rewrite map_map, left_join_map.
  apply flat_map_single. intros g.
  rewrite left_join_one. rewrite filter_map_comm.
  rewrite options_map, map_map.
  unfold with_template, template_of.
  destruct (g_template_id g) as [k|] eqn:Ek.
  - rewrite (filter_ext _ (fun t => (t_id t =? k)%Z)).
    2: { intros t. unfold holds. cbn. rewrite Ek. cbn. rewrite Z.eqb_sym.
         now destruct (t_id t =? k)%Z. }
    rewrite filter_find_unique by assumption.
    now destruct (find _ (templates db)).
  - rewrite (filter_ext _ (fun _ => false)).
    2: { intros t. unfold holds. cbn. rewrite Ek. reflexivity. }
    clear Hnd.
    assert (E : filter (fun _ : template => false) (templates db) = []).
    { induction (templates db); [reflexivity|assumption]. }
    now rewrite E.
Qed.

Lemma filter_filter_and {A : Type} (p q : A -> bool) l :
  filter p (filter q l) = filter (fun x => q x && p x) l.
Proof.
  induction l as [|a l IH]; [reflexivity|].
  simpl. destruct (q a); simpl; [destruct (p a)|]; now rewrite IH.
Qed.

Lemma sorted_map_inv {A B : Type} (f : A -> B) (R : B -> B -> Prop) l :
  StronglySorted R (map f l) ->
  StronglySorted (fun a b => R (f a) (f b)) l.
Proof.
  induction l as [|a l IH]; intros H; [constructor|].
  simpl in H. inversion H as [|? ? Hs Hall]; subst. constructor.
  - now apply IH.
  - rewrite Forall_map in Hall. exact Hall.
Qed.

Lemma ranked_generations p db k extra keep n row :
  p_table p = "generations" -> p_joins p = template_join ->
  p_where p = Some (RAnd (key_is (col0 "user_id" TKey) k) extra) ->
  p_grouped p = false ->
  p_order p = [(KIn (col0 "created_at" TTime), true)] ->
  p_limit p = Some n -> p_offset p = 0%nat ->
  (forall g x, holds extra [Some (RGen g); x] = keep g) ->
  (forall g, out_of p [with_template db g] = row g) ->
  NoDup (map t_id (templates db)) ->
  exists ranking,
    Permutation ranking
      (filter keep
              (filter (fun g => (g_user_id g =? k)%Z) (generations db)))
    /\ StronglySorted (fun a b => (g_created_at b <= g_created_at a)%Z)
                      ranking
    /\ run_plan p db = map row (firstn n ranking).
Proof.
  intros Ht Hj Hw Hg Ho Hl Hoff Hkeep Hout Hnd.
  assert (Hrows : filtered_rows p db
            = map (with_template db)
                  (filter keep
                     (filter (fun g => (g_user_id g =? k)%Z)
                             (generations db)))).
  { unfold filtered_rows. rewrite joined_template_rows by assumption.
    rewrite filter_map_comm, filter_filter_and. f_equal.
    apply filter_ext. intros g. rewrite Hw. unfold with_template. simpl.
    now rewrite holds_and, holds_user_key, Hkeep. }
  destruct (run_plan_ordered p db n generation_time Hg)
    as (all & Hp & Hs & Hrun); auto.
  { now rewrite Ho. }
  { intros x Hx. rewrite Hrows in Hx. apply in_map_iff in Hx.
    destruct Hx as (g & <- & _).
    unfold order_keys. rewrite Ho. reflexivity. }
  rewrite Hrows in Hp. apply Permutation_map_inv in Hp.
  destruct Hp as (ranking & -> & Hperm).
  exists ranking. split; [now apply Permutation_sym|]. split.
  - apply sorted_map_inv in Hs. exact Hs.
  - rewrite Hrun, firstn_map, map_map. apply map_ext. intros g. apply Hout.
Qed.

Lemma user_info_some db u :
  In u (users db) -> run_plan (user_info_plan (u_id u)) db <> [].
Proof.
  intros Hu. apply run_plan_some_rows; try reflexivity.
  destruct (user_join_total (user_info_plan (u_id u)) db u
              eq_refl eq_refl Hu) as (g & l & Hin).
  intros Hnil.
  assert (Hf : In [Some (RUser u); g; l]
                  (filtered_rows (user_info_plan (u_id u)) db)).
  { unfold filtered_rows. apply filter_In. split; [exact Hin|].
    unfold holds_opt, holds. cbn. rewrite Z.eqb_refl. reflexivity. }
  rewrite Hnil in Hf. contradiction.
Qed.

(** X17. For an existing user, with template ids unique, previewRecords
    and downloadRecords of GET /users/:userId are the 20 most recent of
    the user's preview and download generations, one row each, every row
    carrying the name and id of the generation's template, or NULL for
    both when it has none. *)
Theorem user_detail_records req w u :
  key_in (params_userId req) = Some (u_id u) ->
  In u (users (w_db w)) ->
  NoDup (map t_id (templates (w_db w))) ->
  exists userInfo previews downloads loginRecords w',
    user_detail_handler req w
    = (Ok {| status := 200;
             payload := BUserDetail userInfo
               (map (preview_row (w_db w)) (firstn 20 previews))
               (map (download_row (w_db w)) (firstn 20 downloads))
               loginRecords |}, w')
    /\ Permutation previews (filter is_preview (own_generations (w_db w) u))
    /\ StronglySorted (fun a b => (g_created_at b <= g_created_at a)%Z)
                      previews
    /\ Permutation downloads
         (filter is_download (own_generations (w_db w) u))
    /\ StronglySorted (fun a b => (g_created_at b <= g_created_at a)%Z)
                      downloads.
Proof.
  intros Hk Hu Hnd. rewrite (user_detail_run req w (u_id u) Hk).
  destruct (run_plan (user_info_plan (u_id u)) (w_db w))
    as [|info rest] eqn:E.
  { exfalso. revert E. now apply user_info_some. }
  destruct (ranked_generations (preview_records_plan (u_id u)) (w_db w)
              (u_id u) preview_cond is_preview 20 (preview_row (w_db w)))
    as (previews & Hp1 & Hp2 & ->); try reflexivity; try assumption.
  { apply holds_preview_joined. }
  { intros g. unfold with_template, preview_row.
    now destruct (template_of (w_db w) g). }
  destruct (ranked_generations (download_records_plan (u_id u)) (w_db w)
              (u_id u) paid_cond is_download 20 (download_row (w_db w)))
    as (downloads & Hd1 & Hd2 & ->); try reflexivity; try assumption.
  { apply holds_paid_joined. }
  { intros g. unfold with_template, download_row.
    now destruct (template_of (w_db w) g). }
  exists info, previews, downloads. eexists _, _.
  split; [reflexivity|]. auto.
Qed.

(** ** Letter case in the search *)

Lemma user_matches_lower pattern pattern' lo hi :
  lower_string pattern' = lower_string pattern ->
  forall u, user_matches pattern' lo hi u = user_matches pattern lo hi u.
Proof. intros H u. unfold user_matches, ilike. now rewrite H. Qed.

(** X18. The search of GET /users ignores the case of ASCII letters: two
    requests whose search texts differ in case only, and agree otherwise,
    get the same answer. *)
Theorem search_ignores_case req req' w lo hi p l :
  lower_string (search_pattern req') = lower_string (search_pattern req) ->
  q_page req' = q_page req -> q_limit req' = q_limit req ->
  q_dateFrom req' = q_dateFrom req -> q_dateTo req' = q_dateTo req ->
  date_bound (q_dateFrom req) = Ok lo ->
  date_bound (q_dateTo req) = Ok hi ->
  denotes (page_of req) p -> denotes (limit_of req) l ->
  (1 <= p)%Z -> (0 <= l)%Z ->
  NoDup (map u_id (users (w_db w))) ->
  fst (users_handler req' w) = fst (users_handler req w).
Proof.
  intros Hs Hpg Hlm Hf Ht Hlo Hhi Hp Hl Hp1 Hl0 Hnd.
  destruct (users_run req w lo hi p l Hlo Hhi Hp Hl Hp1 Hl0) as (qs & ->).
  destruct (users_run req' w lo hi p l) as (qs' & ->); auto.
  { now rewrite Hf. } { now rewrite Ht. }
  { unfold page_of. now rewrite Hpg. } { unfold limit_of. now rewrite Hlm. }
  cbn [fst]. rewrite !users_page by assumption.
  unfold users_total.
  rewrite (filter_ext _ _ (user_matches_lower _ _ lo hi Hs)).
  reflexivity.
Qed.

(** ** Empty query parameters *)

Lemma truthy_truthy o : truthy (truthy o) = truthy o.
Proof. now destruct o as [[|c s]|]. Qed.

Lemma search_blank o :
  string_of (default (truthy o) (JStr "")) = string_of (default o (JStr "")).
Proof. now destruct o as [[|c s]|]. Qed.

(** X19. An empty dateFrom, dateTo, userId or search parameter counts as
    absent: on every route the answer and the statements sent are those
    of the request without it. *)
Theorem blank_parameters_ignored e req w :
  router e (without_blanks req) w = router e req w.
Proof.
  destruct e; unfold router, users_handler, user_detail_handler,
    registrations_handler, logins_handler, online_duration_handler,
    overview_handler, without_blanks, user_id_param;
    cbn [q_page q_limit q_search q_dateFrom q_dateTo q_userId params_userId];
    rewrite ?truthy_truthy, ?search_blank; reflexivity.
Qed.

End Engine.

(** ** The theorems at the sample requests *)

Lemma logins_without_dates_witness :
  truthy (q_dateFrom (plain_request "1")) = None
  /\ truthy (q_dateTo (plain_request "1")) = None
  /\ logins_handler digits_in digits_in (plain_request "1") sample_world
     = (Ok {| status := 500; payload := BMessage "服务器内部错误" |},
        {| w_db := sample_db; w_issued := [(logins_sql "", [])] |}).
Proof.
  split; [reflexivity|]. split; [reflexivity|].
  exact (proj2 (logins_without_dates digits_in digits_in (plain_request "1")
                  sample_world eq_refl eq_refl)).
Defined.

Lemma overview_without_dates_witness :
  truthy (q_dateFrom (plain_request "1")) = None
  /\ truthy (q_dateTo (plain_request "1")) = None
  /\ overview_handler digits_in digits_in (plain_request "1") sample_world
     = (Ok {| status := 500; payload := BMessage "服务器内部错误" |},
        {| w_db := sample_db;
           w_issued := [(total_users_sql "", []);
                        (active_users_sql "", [])] |}).
Proof.
  split; [reflexivity|]. split; [reflexivity|].
  exact (proj2 (overview_without_dates digits_in digits_in (plain_request "1")
                  sample_world eq_refl eq_refl)).
Defined.

Lemma overview_previews_downloads_witness :
  date_bound digits_in (q_dateFrom since_zero) = Ok (Some 0%Z)
  /\ date_bound digits_in (q_dateTo since_zero) = Ok None
  /\ exists o w' p d,
       overview_handler digits_in digits_in since_zero sample_world
         = (Ok {| status := 200; payload := BOverview o |}, w')
       /\ total_previews o = Int p /\ total_downloads o = Int d
       /\ (p <= 4)%Z /\ (d <= 4)%Z /\ (p + d <= 4 + 1)%Z.
Proof.
  split; [reflexivity|]. split; [reflexivity|].
  apply (overview_previews_downloads digits_in digits_in since_zero
           sample_world (Some 0%Z) None);
    [reflexivity | reflexivity | left; discriminate].
Defined.

(** C3 as stated fails: on the sample database GET /overview?dateFrom=0
    reports 2 previews and 3 downloads, and 4 generation rows lie in the
    range; the preview that is marked paid is counted twice. *)
Lemma overview_sum_exceeds_total :
  exists o w' p d,
    overview_handler digits_in digits_in since_zero sample_world
    = (Ok {| status := 200; payload := BOverview o |}, w')
    /\ total_previews o = Int p /\ total_downloads o = Int d
    /\ ~ (p + d <= Z.of_nat (length (filter (created_in (Some 0%Z) None)
                                            (generations sample_db))))%Z.
Proof.
  exists sample_overview,
    (snd (overview_handler digits_in digits_in since_zero sample_world)),
    2%Z, 3%Z.
  split; [vm_compute; reflexivity|]. split; [reflexivity|].
  split; [reflexivity|]. vm_compute. intros H. now apply H.
Qed.


Lemma unknown_user_404_witness :
  digits_in (params_userId (plain_request "7")) = Some 7%Z
  /\ user_detail_handler digits_in digits_in (plain_request "7") sample_world
     = (Ok {| status := 404; payload := BMessage "用户不存在" |},
        {| w_db := sample_db;
           w_issued := [(user_info_sql, user_id_param (plain_request "7"))] |}).
Proof.
  split; [reflexivity|].
  apply (unknown_user_404 digits_in digits_in (plain_request "7")
           sample_world 7 eq_refl).
  intros u [<-|[<-|[<-|[]]]]; discriminate.
Defined.

(** C5 as stated fails: "abc" is the id of no user row, and GET
    /users/abc answers 500, not 404, because the database rejects the
    text as a key and the statement fails. *)
Lemma unknown_user_500 :
  (forall u, In u (users sample_db) ->
             digits_in (params_userId (plain_request "abc"))
             <> Some (u_id u))
  /\ user_detail_handler digits_in digits_in (plain_request "abc")
                         sample_world
     = (Ok {| status := 500; payload := BMessage "服务器内部错误" |},
        {| w_db := sample_db;
           w_issued :=
             [(user_info_sql, user_id_param (plain_request "abc"))] |}).
Proof.
  split; [intros u _; discriminate|].
  vm_compute. reflexivity.
Qed.

Lemma registrations_counts_witness :
  date_bound digits_in (q_dateFrom since_zero) = Ok (Some 0%Z)
  /\ date_bound digits_in (q_dateTo since_zero) = Ok None
  /\ exists rows w',
       registrations_handler digits_in digits_in since_zero sample_world
       = (Ok {| status := 200; payload := BRegistrations rows |}, w')
       /\ sum_field "count" rows = 3%Z.
Proof.
  split; [reflexivity|]. split; [reflexivity|].
  destruct (registrations_counts digits_in digits_in since_zero sample_world
              (Some 0%Z) None eq_refl eq_refl)
    as (rows & w' & Hrun & _ & Hsum).
  exists rows, w'. split; [exact Hrun|exact Hsum].
Defined.

Lemma known_user_detail_witness :
  digits_in (params_userId (plain_request "1")) = Some 1%Z
  /\ In alice (users sample_db)
  /\ exists userInfo previewRecords downloadRecords loginRecords w',
       user_detail_handler digits_in digits_in (plain_request "1")
                           sample_world
       = (Ok {| status := 200;
                payload := BUserDetail userInfo previewRecords
                                       downloadRecords loginRecords |}, w')
       /\ (length previewRecords <= 20)%nat
       /\ (length downloadRecords <= 20)%nat
       /\ (length loginRecords <= 30)%nat.
Proof.
  split; [reflexivity|]. split; [now left|].
  destruct (known_user_detail digits_in digits_in (plain_request "1")
              sample_world 1 alice eq_refl (or_introl eq_refl) eq_refl)
    as (info & prev & down & logs & w' & Hrun & Hp & Hd & Hl).
  exists info, prev, down, logs, w'.
  split; [exact Hrun|]. split; [apply Hp|]. split; [apply Hd|apply Hl].
Defined.

Lemma search_finds_one_witness :
  plain "lice" = true
  /\ filter (found_by "lice") (users sample_db) = [alice]
  /\ exists row pagination_ w',
       users_handler digits_in digits_in search_lice sample_world
       = (Ok {| status := 200; payload := BUsers [row] pagination_ |}, w')
       /\ user_record alice row.
Proof.
  split; [reflexivity|]. split; [reflexivity|].
  exact (search_finds_one digits_in digits_in search_lice sample_world
           "lice" alice eq_refl eq_refl eq_refl eq_refl eq_refl eq_refl
           eq_refl).
Defined.

(** C8 as stated fails: "ali" is a substring of the username or email of
    alice alone, and GET /users?search=ali returns two users, because ILIKE
    also finds it in "ALICIA". *)
Lemma search_substring_finds_two :
  filter (fun u => contains "ali" (u_username u) || contains "ali" (u_email u))
         (users sample_db) = [alice]
  /\ exists rows pagination_ w',
       users_handler digits_in digits_in search_ali sample_world
       = (Ok {| status := 200; payload := BUsers rows pagination_ |}, w')
       /\ length rows = 2%nat.
Proof.
  split; [reflexivity|].
  destruct (users_handler digits_in digits_in search_ali sample_world)
    as [r w'] eqn:E.
  vm_compute in E. injection E as <- <-.
  eexists _, _, _. split; reflexivity.
Qed.

Lemma online_duration_counts_witness :
  user_bound digits_in (q_userId since_zero) = Ok None
  /\ date_bound digits_in (q_dateFrom since_zero) = Ok (Some 0%Z)
  /\ date_bound digits_in (q_dateTo since_zero) = Ok None
  /\ exists rows w',
       online_duration_handler digits_in digits_in since_zero sample_world
       = (Ok {| status := 200; payload := BOnlineDuration rows |}, w')
       /\ sum_field "session_count" rows = 3%Z
       /\ sum_field "total_seconds" rows = 97%Z.
Proof.
  split; [reflexivity|]. split; [reflexivity|]. split; [reflexivity|].
  destruct (online_duration_counts digits_in digits_in since_zero
              sample_world None (Some 0%Z) None eq_refl eq_refl eq_refl)
    as ((rows & w' & Hrun & _ & Hc & Hs) & _).
  exists rows, w'. split; [exact Hrun|]. split; [exact Hc|exact Hs].
Defined.

Lemma rejected_date_500_witness :
  rejected digits_in (q_dateFrom bad_date) = true
  /\ exists q,
       router digits_in digits_in GetRegistrations bad_date sample_world
       = (Ok server_error,
          {| w_db := sample_db; w_issued := [q] |}).
Proof.
  split; [reflexivity|].
  apply (rejected_date_500 digits_in digits_in GetRegistrations bad_date
           sample_world);
    [discriminate|left; reflexivity].
Defined.

Lemma rejected_user_id_500_witness :
  digits_in (params_userId (plain_request "abc")) = None
  /\ user_detail_handler digits_in digits_in (plain_request "abc")
                         sample_world
     = (Ok server_error,
        {| w_db := sample_db;
           w_issued := [(user_info_sql,
                         user_id_param (plain_request "abc"))] |}).
Proof.
  split; [reflexivity|].
  exact (rejected_user_id_500 digits_in digits_in (plain_request "abc")
           sample_world eq_refl).
Defined.

Lemma rejected_user_filter_500_witness :
  rejected digits_in (q_userId bad_user_filter) = true
  /\ exists q,
       online_duration_handler digits_in digits_in bad_user_filter
                               sample_world
       = (Ok server_error, {| w_db := sample_db; w_issued := [q] |}).
Proof.
  split; [reflexivity|].
  exact (rejected_user_filter_500 digits_in digits_in bad_user_filter
           sample_world eq_refl).
Defined.

Lemma users_bad_paging_500_witness :
  to_number (page_of page_zero) = Int 0
  /\ to_number (limit_of page_zero) = Int 50
  /\ exists q,
       users_handler digits_in digits_in page_zero sample_world
       = (Ok server_error, {| w_db := sample_db; w_issued := [q] |}).
Proof.
  split; [reflexivity|]. split; [reflexivity|].
  apply (users_bad_paging_500 digits_in digits_in page_zero sample_world
           0 50).
  right. split; [reflexivity|]. split; [reflexivity|lia].
Defined.

Lemma users_limit_zero_witness :
  denotes (page_of limit_zero) 1 /\ denotes (limit_of limit_zero) 0
  /\ exists w',
       users_handler digits_in digits_in limit_zero sample_world
       = (Ok {| status := 200;
                payload := BUsers []
                  {| pg_total := Int 3; pg_page := Int 1; pg_limit := Int 0;
                     pg_pages := PosInf |} |}, w').
Proof.
  assert (Hp : denotes (page_of limit_zero) 1) by (split; reflexivity).
  assert (Hl : denotes (limit_of limit_zero) 0) by (split; reflexivity).
  split; [exact Hp|]. split; [exact Hl|].
  apply (users_limit_zero digits_in digits_in limit_zero sample_world
           None None 1 eq_refl eq_refl Hp); [|exact Hl].
  split; [discriminate|reflexivity].
Defined.

Lemma users_page_content_witness :
  denotes (page_of second_page) 2 /\ denotes (limit_of second_page) 2
  /\ NoDup (map u_id (users sample_db))
  /\ exists pagination_ w',
       users_handler digits_in digits_in second_page sample_world
       = (Ok {| status := 200;
                payload := BUsers [user_summary sample_db alice]
                                  pagination_ |}, w').
Proof.
  assert (Hp : denotes (page_of second_page) 2) by (split; reflexivity).
  assert (Hk : NoDup (map u_id (users sample_db))).
  { repeat constructor; simpl; intuition discriminate. }
  split; [exact Hp|]. split; [exact Hp|]. split; [exact Hk|].
  destruct (users_page_content digits_in digits_in second_page sample_world
              None None 2 2 eq_refl eq_refl Hp Hp)
    as (ranking & rows & pg & w' & Hrun & Hperm & Hsorted & Hrows);
    [split; [discriminate|reflexivity]|discriminate|reflexivity|exact Hk|].
  exists pg, w'. rewrite Hrun. f_equal. f_equal. f_equal.
  pose proof Hrun as Hrun'. vm_compute in Hrun'.
  injection Hrun' as Hr _ _. rewrite <- Hr. reflexivity.
Defined.

Lemma users_page_size_witness :
  denotes (page_of second_page) 2 /\ denotes (limit_of second_page) 2
  /\ NoDup (map u_id (users sample_db))
  /\ exists rows pagination_ w',
       users_handler digits_in digits_in second_page sample_world
       = (Ok {| status := 200; payload := BUsers rows pagination_ |}, w')
       /\ Z.of_nat (length rows) = 1%Z.
Proof.
  assert (Hp : denotes (page_of second_page) 2) by (split; reflexivity).
  assert (Hk : NoDup (map u_id (users sample_db))).
  { repeat constructor; simpl; intuition discriminate. }
  split; [exact Hp|]. split; [exact Hp|]. split; [exact Hk|].
  apply (users_page_size digits_in digits_in second_page sample_world
           None None 2 2 eq_refl eq_refl Hp Hp);
    [split; [discriminate|reflexivity]|discriminate|reflexivity|exact Hk].
Defined.

Lemma user_detail_profile_witness :
  digits_in (params_userId (plain_request "1")) = Some (u_id alice)
  /\ In alice (users sample_db)
  /\ NoDup (map u_id (users sample_db))
  /\ exists previewRecords downloadRecords loginRecords w',
       user_detail_handler digits_in digits_in (plain_request "1")
                           sample_world
       = (Ok {| status := 200;
                payload := BUserDetail (user_profile sample_db alice)
                             previewRecords downloadRecords loginRecords |},
          w')
       /\ lookup "preview_count" (user_profile sample_db alice)
          = Some (VBig 2)
       /\ lookup "download_count" (user_profile sample_db alice)
          = Some (VBig 2)
       /\ lookup "total_logins" (user_profile sample_db alice)
          = Some (VBig 1).
Proof.
  assert (Hk : NoDup (map u_id (users sample_db))).
  { repeat constructor; simpl; intuition discriminate. }
  split; [reflexivity|]. split; [now left|]. split; [exact Hk|].
  destruct (user_detail_profile digits_in digits_in (plain_request "1")
              sample_world alice eq_refl (or_introl eq_refl) Hk)
    as (prev & down & logs & Hrun).
  exists prev, down, logs. eexists. split; [exact Hrun|].
  split; [reflexivity|]. split; reflexivity.
Defined.

Lemma registrations_by_day_witness :
  date_bound digits_in (q_dateFrom since_zero) = Ok (Some 0%Z)
  /\ date_bound digits_in (q_dateTo since_zero) = Ok None
  /\ exists days w',
       registrations_handler digits_in digits_in since_zero sample_world
       = (Ok {| status := 200;
                payload := BRegistrations
                             (map (registration_row (Some 0%Z) None sample_db)
                                  days) |}, w')
       /\ days = [1%Z; 0%Z].
Proof.
  split; [reflexivity|]. split; [reflexivity|].
  destruct (registrations_by_day digits_in digits_in since_zero sample_world
              (Some 0%Z) None eq_refl eq_refl)
    as (days & w' & Hrun & Hsorted & Hdays).
  exists days, w'. split; [exact Hrun|].
  pose proof Hrun as Hrun'. vm_compute in Hrun'.
  injection Hrun' as Hr _. 
  destruct days as [|d1 [|d2 [|d3 ds]]]; try discriminate Hr.
  injection Hr as H1 H2. now subst.
Defined.

Lemma logins_by_day_witness :
  date_bound digits_in (q_dateFrom since_zero) = Ok (Some 0%Z)
  /\ date_bound digits_in (q_dateTo since_zero) = Ok None
  /\ exists days w',
       logins_handler digits_in digits_in since_zero sample_world
       = (Ok {| status := 200;
                payload := BLogins
                             (map (login_day_row (Some 0%Z) None sample_db)
                                  days) |}, w')
       /\ StronglySorted (fun a b => (b < a)%Z) days
       /\ forall d, In d days <->
                    exists l, In l (login_logs sample_db)
                              /\ logged_on (Some 0%Z) None d l = true.
Proof.
  split; [reflexivity|]. split; [reflexivity|].
  apply (logins_by_day digits_in digits_in since_zero sample_world
           (Some 0%Z) None eq_refl eq_refl).
  left. discriminate.
Defined.

Lemma overview_in_range_witness :
  date_bound digits_in (q_dateFrom since_zero) = Ok (Some 0%Z)
  /\ date_bound digits_in (q_dateTo since_zero) = Ok None
  /\ exists w',
       overview_handler digits_in digits_in since_zero sample_world
       = (Ok {| status := 200; payload := BOverview sample_overview |}, w').
Proof.
  split; [reflexivity|]. split; [reflexivity|].
  apply (overview_in_range digits_in digits_in since_zero sample_world
           (Some 0%Z) None eq_refl eq_refl).
  left. discriminate.
Defined.

Lemma daily_counts_add_up_witness :
  date_bound digits_in (q_dateFrom since_zero) = Ok (Some 0%Z)
  /\ date_bound digits_in (q_dateTo since_zero) = Ok None
  /\ exists registrations logins o w1 w2 w3,
       registrations_handler digits_in digits_in since_zero sample_world
       = (Ok {| status := 200; payload := BRegistrations registrations |}, w1)
       /\ logins_handler digits_in digits_in since_zero sample_world
          = (Ok {| status := 200; payload := BLogins logins |}, w2)
       /\ overview_handler digits_in digits_in since_zero sample_world
          = (Ok {| status := 200; payload := BOverview o |}, w3)
       /\ total_users o = Int (sum_field "count" registrations)
       /\ total_logins o = Int (sum_field "total_logins" logins).
Proof.
  split; [reflexivity|]. split; [reflexivity|].
  apply (daily_counts_add_up digits_in digits_in since_zero sample_world
           (Some 0%Z) None eq_refl eq_refl).
  left. discriminate.
Defined.

Lemma online_duration_by_name_and_day_witness :
  user_bound digits_in (q_userId since_zero) = Ok None
  /\ date_bound digits_in (q_dateFrom since_zero) = Ok (Some 0%Z)
  /\ date_bound digits_in (q_dateTo since_zero) = Ok None
  /\ exists keys w',
       online_duration_handler digits_in digits_in since_zero sample_world
       = (Ok {| status := 200;
                payload := BOnlineDuration
                  (map (online_row None (Some 0%Z) None sample_db) keys) |},
          w')
       /\ NoDup keys.
Proof.
  split; [reflexivity|]. split; [reflexivity|]. split; [reflexivity|].
  destruct (online_duration_by_name_and_day digits_in digits_in since_zero
              sample_world None (Some 0%Z) None eq_refl eq_refl eq_refl)
    as (keys & w' & Hrun & Hnd & _).
  exists keys, w'. split; [exact Hrun|exact Hnd].
Defined.

Lemma users_without_search_witness :
  q_search (plain_request "1") = None
  /\ denotes (page_of (plain_request "1")) 1
  /\ denotes (limit_of (plain_request "1")) 50
  /\ NoDup (map u_id (users sample_db))
  /\ exists ranking,
       let repl := [("search", PStr "%%"); ("limit", PNum (Int 50));
                    ("offset", PNum (Int 0))] in
       users_handler digits_in digits_in (plain_request "1") sample_world
       = (Ok {| status := 200;
                payload := BUsers
                  (map (user_summary sample_db) (firstn 50 ranking))
                  {| pg_total := Int 3; pg_page := Int 1; pg_limit := Int 50;
                     pg_pages := Int 1 |} |},
          {| w_db := sample_db;
             w_issued := [(users_sql "", repl);
                          (users_count_sql "", repl)] |})
       /\ Permutation ranking (users sample_db).
Proof.
  assert (Hp : denotes (page_of (plain_request "1")) 1)
    by (split; reflexivity).
  assert (Hl : denotes (limit_of (plain_request "1")) 50)
    by (split; reflexivity).
  assert (Hk : NoDup (map u_id (users sample_db))).
  { repeat constructor; simpl; intuition discriminate. }
  split; [reflexivity|]. split; [exact Hp|]. split; [exact Hl|].
  split; [exact Hk|].
  destruct (users_without_search digits_in digits_in (plain_request "1")
              sample_world None None 1 50 (or_introl eq_refl) eq_refl
              eq_refl Hp Hl)
    as (ranking & Hrun & Hperm & _);
    [split; [discriminate|reflexivity]|discriminate|reflexivity|exact Hk|].
  exists ranking. split; [exact Hrun|exact Hperm].
Defined.


Lemma user_detail_records_witness :
  digits_in (params_userId (plain_request "1")) = Some (u_id alice)
  /\ In alice (users sample_db)
  /\ NoDup (map t_id (templates sample_db))
  /\ exists userInfo loginRecords w',
       user_detail_handler digits_in digits_in (plain_request "1")
                           sample_world
       = (Ok {| status := 200;
                payload := BUserDetail userInfo
                  (map (preview_row sample_db)
                       [sample_generation 2 1 "preview" true 20;
                        sample_generation 1 1 "preview" false 10])
                  (map (download_row sample_db)
                       [sample_generation 3 1 "paid" true 30;
                        sample_generation 2 1 "preview" true 20])
                  loginRecords |}, w')
       /\ lookup "template_name"
                 (preview_row sample_db
                              (sample_generation 1 1 "preview" false 10))
          = Some (VOpaque "portrait").
Proof.
  assert (Hk : NoDup (map t_id (templates sample_db))).
  { repeat constructor; simpl; intuition discriminate. }
  split; [reflexivity|]. split; [now left|]. split; [exact Hk|].
  destruct (user_detail_records digits_in digits_in (plain_request "1")
              sample_world alice eq_refl (or_introl eq_refl) Hk)
    as (info & previews & downloads & logs & w' & Hrun & _).
  exists info, logs, w'. split; [|reflexivity].
  set (shown := map (preview_row _) (firstn 20 previews)) in Hrun.
  set (paid := map (download_row _) (firstn 20 downloads)) in Hrun.
  clearbody shown paid.
  rewrite Hrun. pose proof Hrun as Hrun'. vm_compute in Hrun'.
  injection Hrun' as _ Hp Hd _ _. rewrite <- Hp, <- Hd. reflexivity.
Defined.

Lemma search_ignores_case_witness :
  lower_string (search_pattern search_upper)
  = lower_string (search_pattern search_ali)
  /\ denotes (page_of search_ali) 1 /\ denotes (limit_of search_ali) 50
  /\ NoDup (map u_id (users sample_db))
  /\ fst (users_handler digits_in digits_in search_upper sample_world)
     = fst (users_handler digits_in digits_in search_ali sample_world).
Proof.
  assert (Hp : denotes (page_of search_ali) 1) by (split; reflexivity).
  assert (Hl : denotes (limit_of search_ali) 50) by (split; reflexivity).
  assert (Hk : NoDup (map u_id (users sample_db))).
  { repeat constructor; simpl; intuition discriminate. }
  split; [reflexivity|]. split; [exact Hp|]. split; [exact Hl|].
  split; [exact Hk|].
  apply (search_ignores_case digits_in digits_in search_ali search_upper
           sample_world None None 1 50 eq_refl eq_refl eq_refl eq_refl
           eq_refl eq_refl eq_refl Hp Hl);
    [discriminate|discriminate|exact Hk].
Defined.
